(** * go-neb: the github-webhook service

    A shallow embedding of [services/github/github_webhook.go]: the
    room -> repo -> events configuration, the derivation of the repo list,
    hook creation and deletion, the two reconciliation calls [Register] and
    [PostRegister], and the routing of inbound deliveries in
    [OnReceiveWebhook].

    The service talks to GitHub, to Matrix, to the service database and to
    the logger.  Those collaborators are a record of transition functions
    over an arbitrary world state [W]; the service's methods are
    computations that thread the world, may panic the way the Go runtime
    does, and emit the ordered list of the calls and log lines they made. *)

From Stdlib Require Import String Ascii List ZArith Lia Bool PeanoNat.
From Stdlib Require Import OrdersEx Permutation Sorted RelationClasses.
Import ListNotations.
Open Scope string_scope.
Open Scope list_scope.

Set Implicit Arguments.

(** ** Go's [strings] package, as far as the service uses it *)

Module strings.

(** [strings.Count(s, sep)] for a separator of one byte (the service only
    counts ["/"]). *)
Fixpoint Count (s : string) (sep : ascii) : nat :=
  match s with
  | EmptyString => 0
  | String c s' => (if Ascii.eqb c sep then 1 else 0) + Count s' sep
  end.

(** [strings.Split(s, sep)] for a separator of one byte: the pieces of [s]
    between the separators; [Split "" sep] is [[""]]. *)
Fixpoint Split (s : string) (sep : ascii) : list string :=
  match s with
  | EmptyString => [EmptyString]
  | String c s' =>
      if Ascii.eqb c sep then EmptyString :: Split s' sep
      else match Split s' sep with
           | seg :: segs => String c seg :: segs
           | [] => [String c EmptyString]
           end
  end.

(** [strings.Contains(s, substr)]. *)
Fixpoint Contains (s substr : string) : bool :=
  if String.prefix substr s then true
  else match s with
       | EmptyString => false
       | String _ s' => Contains s' substr
       end.

(** [strings.Join(elems, sep)]. *)
Fixpoint Join (elems : list string) (sep : string) : string :=
  match elems with
  | [] => EmptyString
  | [e] => e
  | e :: elems' => (e ++ sep ++ Join elems' sep)%string
  end.

End strings.

Definition slash : ascii := "/"%char.

(** ** Data model *)

(** A Go map that is only read and ranged over: its entries, in the order
    the [range] statement that reads it visits them.  The nil map is the
    empty list.  The runtime draws the order of every [range] statement
    anew: where one call ranges over the same map a second time, the second
    order is the runtime's ([RangeOrder] below), not this list's. *)
Definition gomap (K V : Type) : Type := list (K * V).

Definition keys {K V} (m : gomap K V) : list K := map fst m.

(** A well-formed Go map holds each key once. *)
Definition gomap_wf {K V} (m : gomap K V) : Prop := NoDup (keys m).

(** An [interface{}] value of a hook's [Config] map. *)
Inductive iface : Type :=
| inil
| istring (s : string)
| ibool (b : bool)
| inumber (z : Z).

(** [m[k]] on a [map[string]interface{}]: a missing key reads as nil. *)
Fixpoint index_iface (m : gomap string iface) (k : string) : iface :=
  match m with
  | [] => inil
  | (k', v) :: m' => if String.eqb k' k then v else index_iface m' k
  end.

Record RepoConfig : Type := { Events : list string }.

Record RoomConfig : Type := { Repos : gomap string RepoConfig }.

Record githubWebhookService : Type := {
  id : string;
  serviceUserID : string;
  webhookEndpointURL : string;
  ClientUserID : string;
  RealmID : string;
  SecretToken : string;
  Rooms : gomap string RoomConfig
}.

Record echoService : Type := {
  echo_id : string;
  echo_serviceUserID : string
}.

(** [types.Service]: the implementations in the tree. *)
Inductive Service : Type :=
| GithubWebhook (s : githubWebhookService)
| Echo (e : echoService).

Definition ServiceID (svc : Service) : string :=
  match svc with
  | GithubWebhook s => id s
  | Echo e => echo_id e
  end.

Definition ServiceType (svc : Service) : string :=
  match svc with
  | GithubWebhook _ => "github-webhook"
  | Echo _ => "echo"
  end.

(** [github.Hook].  [ID] and [Name] are pointers ([*int], [*string]): nil is
    [None].  A request built by [createHook] leaves [ID] nil. *)
Record Hook : Type := {
  ID : option Z;
  Name : option string;
  Config : gomap string iface;
  HookEvents : list string
}.

(** [github.Repository], of which only the full name, a [*string], is
    read. *)
Record Repository : Type := { FullName : option string }.

Record Response : Type := { StatusCode : Z }.

(** [github.Client], made by [client.New(token)]. *)
Record Client : Type := { token : string }.

(** [types.AuthRealm]. *)
Record AuthRealm : Type := { realm_ID : string; realm_Type : string }.

Record github_Error : Type := { Message : string }.

(** Errors handed back by a collaborator: a [*github.ErrorResponse] or any
    other error value. *)
Inductive collab_error : Type :=
| ErrorResponse (Errors : list github_Error)
| OtherError (msg : string).

(** [error]: made here by [fmt.Errorf], or passed on from a collaborator. *)
Inductive error : Type :=
| Errorf (msg : string)
| Collab (e : collab_error).

(** [webhook.OnReceiveRequest]'s [*errors.HTTPError]. *)
Record HTTPError : Type := { Code : Z }.

(** The rendered notification ([msg], an opaque message body). *)
Definition Content : Type := string.

Record Request : Type := { Header : list (string * string); Body : string }.

(** ** Calls and log lines *)

Inductive level : Type := InfoLevel | PrintLevel | WarnLevel | ErrorLevel.

Inductive event : Type :=
| Logged (lvl : level) (msg : string) (fields : list (string * string))
| CallWriteHeader (code : Z)
| CallGetTokenForUser (realmID userID : string)
| CallLoadAuthRealm (realmID : string)
| CallDeleteService (serviceID : string)
| CallCreateHook (owner repo : string) (h : Hook)
| CallListHooks (owner repo : string)
| CallDeleteHook (owner repo : string) (hookID : Z)
| CallSendMessageEvent (roomID evType : string) (msg : Content)
| CallJoinRoom (roomID : string).

(** A value together with the lines logged while computing it. *)
Definition logged (A : Type) : Type := (A * list event)%type.

(** ** Repo list *)

(** The body of the inner loop of [repoList], over the keys of one room. *)
Fixpoint repoList_room (rs : gomap string RepoConfig) (repos : list string)
  : logged (list string) :=
  match rs with
  | [] => (repos, [])
  | (ownerRepo, _) :: rs' =>
      if negb (Nat.eqb (strings.Count ownerRepo slash) 1) then
        let '(out, t) := repoList_room rs' repos in
        (out, Logged ErrorLevel "Bad owner/repo key in config" [("repo", ownerRepo)] :: t)
      else
        let exists_ := existsb (fun r => String.eqb r ownerRepo) repos in
        if negb exists_ then repoList_room rs' (repos ++ [ownerRepo])
        else repoList_room rs' repos
  end.

(** The outer loop of [repoList], over the rooms. *)
Fixpoint repoList_rooms (rooms : gomap string RoomConfig) (repos : list string)
  : logged (list string) :=
  match rooms with
  | [] => (repos, [])
  | (_, roomConfig) :: rooms' =>
      let '(repos1, t1) := repoList_room (Repos roomConfig) repos in
      let '(out, t2) := repoList_rooms rooms' repos1 in
      (out, t1 ++ t2)
  end.

(** [repoList]: the list of "owner/repo" keys, with the diagnostics. *)
Definition repoList (s : githubWebhookService) : logged (list string) :=
  match Rooms s with
  | [] => ([], [])
  | rooms => repoList_rooms rooms []
  end.

(** The repo keys of a configuration: [k] is a key of some room. *)
Definition repo_key (s : githubWebhookService) (k : string) : Prop :=
  exists roomID roomConfig repoConfig,
    In (roomID, roomConfig) (Rooms s) /\ In (k, repoConfig) (Repos roomConfig).

(** The spec's well-formedness of a key: two non-empty segments on "/". *)
Definition two_nonempty_segments (k : string) : Prop :=
  exists owner repo,
    strings.Split k slash = [owner; repo] /\ owner <> "" /\ repo <> "".

(** The diagnostic [repoList] logs for a key it drops. *)
Definition bad_key_diagnostic (k : string) : event :=
  Logged ErrorLevel "Bad owner/repo key in config" [("repo", k)].

(** ** [util.Difference] *)

Module util.

(** Modelled from the spec: [util.Difference] (package [util] is not part
    of the sources at hand).  "Set difference in both directions": the
    elements only in the first list, and the elements only in the second. *)
Definition Difference (a b : list string) : list string * list string :=
  (filter (fun x => negb (existsb (String.eqb x) b)) a,
   filter (fun x => negb (existsb (String.eqb x) a)) b).

End util.

(** ** Computations *)

Inductive panic : Type :=
| IndexOutOfRange
| NilPointer.

Inductive outcome (A : Type) : Type :=
| Done (a : A)
| Panicked (p : panic).

Arguments Panicked {A} p.

(** A computation over the world [W]: its outcome, the world it leaves and
    the events it emitted, oldest first. *)
Definition M (W A : Type) : Type := W -> outcome A * W * list event.

Definition ret {W A} (a : A) : M W A := fun w => (Done a, w, []).

Definition bind {W A B} (m : M W A) (f : A -> M W B) : M W B :=
  fun w =>
    match m w with
    | (Done a, w1, t1) => let '(o, w2, t2) := f a w1 in (o, w2, t1 ++ t2)
    | (Panicked p, w1, t1) => (Panicked p, w1, t1)
    end.

Declare Scope go_scope.
Delimit Scope go_scope with go.
Notation "x <- m ;; k" := (bind m (fun x => k))
  (at level 100, m at next level, right associativity) : go_scope.
Notation "' pat <- m ;; k" := (bind m (fun x => let 'pat := x in k))
  (at level 100, pat pattern, m at next level, right associativity) : go_scope.
Notation "m ;; k" := (bind m (fun _ => k))
  (at level 100, right associativity) : go_scope.
Open Scope go_scope.

(** A log line. *)
Definition log {W} (lvl : level) (msg : string) (fields : list (string * string))
  : M W unit :=
  fun w => (Done tt, w, [Logged lvl msg fields]).

(** A value with the lines it logged, as a computation. *)
Definition emit {W A} (v : logged A) : M W A := fun w => (Done (fst v), w, snd v).

(** The same for a loop that can panic. *)
Definition emit_run {W A} (v : logged (outcome A)) : M W A :=
  fun w => (fst v, w, snd v).

(** A call to a collaborator, recorded as [ev]. *)
Definition call {W A} (ev : event) (f : W -> A * W) : M W A :=
  fun w => let '(a, w') := f w in (Done a, w', [ev]).

(** [xs[i]]: the Go runtime panics past the end of the slice. *)
Definition index {W A} (xs : list A) (i : nat) : M W A :=
  match nth_error xs i with
  | Some x => ret x
  | None => fun w => (Panicked IndexOutOfRange, w, [])
  end.

(** [*p] or [p.f] on a pointer: the Go runtime panics on nil. *)
Definition deref {W A} (p : option A) : M W A :=
  match p with
  | Some x => ret x
  | None => fun w => (Panicked NilPointer, w, [])
  end.

Definition result_of {W A} (r : outcome A * W * list event) : outcome A := fst (fst r).
Definition world_of {W A} (r : outcome A * W * list event) : W := snd (fst r).
Definition trace_of {W A} (r : outcome A * W * list event) : list event := snd r.

(** ** Collaborators *)

(** What the service calls outside itself.  The Matrix client and the HTTP
    response writer the handlers receive are part of the world. *)
Record Env (W : Type) : Type := {
  (* strings.EqualFold *)
  EqualFold : string -> string -> bool;
  (* webhook.OnReceiveRequest(req, secretToken) *)
  OnReceiveRequest : Request -> string
                     -> HTTPError + (string * option Repository * Content);
  (* getTokenForUser(realmID, userID) *)
  getTokenForUser : string -> string -> W -> (string * option collab_error) * W;
  (* database.GetServiceDB().LoadAuthRealm(realmID) *)
  LoadAuthRealm : string -> W -> (option AuthRealm * option collab_error) * W;
  (* database.GetServiceDB().DeleteService(serviceID) *)
  DeleteService : string -> W -> option collab_error * W;
  (* whether the service database holds a configuration under this id *)
  ServiceStored : string -> W -> bool;
  (* cli.Repositories.CreateHook(owner, repo, hook) *)
  CreateHook : Client -> string -> string -> Hook -> W
               -> (option Response * option collab_error) * W;
  (* cli.Repositories.ListHooks(owner, repo, nil) *)
  ListHooks : Client -> string -> string -> W
              -> (list (option Hook) * option collab_error) * W;
  (* cli.Repositories.DeleteHook(owner, repo, id) *)
  DeleteHook : Client -> string -> string -> Z -> W -> option collab_error * W;
  (* cli.SendMessageEvent(roomID, eventType, content) *)
  SendMessageEvent : string -> string -> Content -> W -> option collab_error * W;
  (* client.JoinRoom(roomID, "", "") *)
  JoinRoom : string -> W -> option collab_error * W;
  (* the order in which a further range statement visits a map of rooms that
     the same call has ranged over before: the Go runtime draws the order of
     every range statement anew *)
  RangeOrder : gomap string RoomConfig -> W -> gomap string RoomConfig * W
}.

Definition as_error (e : option collab_error) : option error := option_map Collab e.

(** ** The service *)

Section Service.

Context {W : Type} (E : Env W).

(** [githubClientFor(userID, allowUnauth)]. *)
Definition githubClientFor (s : githubWebhookService) (userID : string)
           (allowUnauth : bool) : M W (option Client) :=
  '(tok, err) <- call (CallGetTokenForUser (RealmID s) userID)
                      (getTokenForUser E (RealmID s) userID) ;;
  (match err with
   | Some _ => log PrintLevel "Failed to get token for user"
                   [("user_id", userID); ("realm_id", RealmID s)]
   | None => ret tt
   end) ;;
  if negb (String.eqb tok "") then ret (Some {| token := tok |})
  else if allowUnauth then ret (Some {| token := "" |})
  else ret None.

(** [loadRealm()]: the realm, or the error. *)
Definition loadRealm (s : githubWebhookService) : M W (error + AuthRealm) :=
  if String.eqb (RealmID s) "" then ret (inl (Errorf "Missing RealmID"))
  else
    '(realm, err) <- call (CallLoadAuthRealm (RealmID s)) (LoadAuthRealm E (RealmID s)) ;;
    match err with
    | Some e => ret (inl (Collab e))
    | None =>
        realm <- deref realm ;;
        if negb (String.eqb (realm_Type realm) "github") then
          ret (inl (Errorf ("Realm is of type '" ++ realm_Type realm
                            ++ "', not 'github'")%string))
        else ret (inr realm)
    end.

(** The hook [createHook] asks for. *)
Definition new_hook (s : githubWebhookService) : Hook :=
  let cfg := [("content_type", istring "json");
              ("url", istring (webhookEndpointURL s))] in
  let cfg := if negb (String.eqb (SecretToken s) "")
             then cfg ++ [("secret", istring (SecretToken s))] else cfg in
  {| ID := None;
     Name := Some "web";
     Config := cfg;
     HookEvents := ["push"; "pull_request"; "issues"; "issue_comment";
                    "pull_request_review_comment"] |}.

(** The scan of a 422's error details for "already exists". *)
Definition already_exists (errs : list github_Error) : bool :=
  existsb (fun ghErr => strings.Contains (Message ghErr) "already exists") errs.

(** [createHook(cli, ownerRepo)]. *)
Definition createHook (s : githubWebhookService) (cli : Client) (ownerRepo : string)
  : M W (option error) :=
  let o := strings.Split ownerRepo slash in
  owner <- index o 0 ;;
  repo <- index o 1 ;;
  '(res, err) <- call (CallCreateHook owner repo (new_hook s))
                      (CreateHook E cli owner repo (new_hook s)) ;;
  res <- deref res ;;
  if Z.eqb (StatusCode res) 422 then
    match err with
    | Some (ErrorResponse errs) =>
        if already_exists errs then
          log PrintLevel "422 : Hook already exists" [("repo", ownerRepo)] ;;
          ret None
        else ret (as_error err)
    | _ => ret (as_error err)
    end
  else ret (as_error err).

(** The loop of [deleteHook] over the listed hooks, a [[]*github.Hook]: the
    hook it stops at, with the lines logged for the hooks it ignored.  Reading
    [h.Config] panics on a nil [h]. *)
Fixpoint find_hook (s : githubWebhookService) (logger : list (string * string))
    (hooks : list (option Hook)) : logged (outcome (option Hook)) :=
  match hooks with
  | [] => (Done None, [])
  | None :: _ => (Panicked NilPointer, [])
  | Some h :: hooks' =>
      match index_iface (Config h) "url" with
      | inil =>
          let '(r, t) := find_hook s logger hooks' in
          (r, Logged PrintLevel "Ignoring nil config.url" logger :: t)
      | istring hookURL =>
          if String.eqb hookURL (webhookEndpointURL s) then (Done (Some h), [])
          else find_hook s logger hooks'
      | _ =>
          let '(r, t) := find_hook s logger hooks' in
          (r, Logged PrintLevel "Ignoring non-string config.url" logger :: t)
      end
  end.

(** The fields of [deleteHook]'s logger. *)
Definition deleteHook_logger (s : githubWebhookService) (owner repo : string)
  : list (string * string) :=
  [("endpoint", webhookEndpointURL s); ("repo", (owner ++ "/" ++ repo)%string)].

(** The line [deleteHook] logs on entry. *)
Definition removing_hook (s : githubWebhookService) (owner repo : string) : event :=
  Logged InfoLevel "Removing hook" (deleteHook_logger s owner repo).

(** [deleteHook(owner, repo)]. *)
Definition deleteHook (s : githubWebhookService) (owner repo : string)
  : M W (option error) :=
  let logger := deleteHook_logger s owner repo in
  emit (tt, [removing_hook s owner repo]) ;;
  cli <- githubClientFor s (ClientUserID s) false ;;
  match cli with
  | None =>
      log PrintLevel "Cannot delete webhook: no authenticated client exists for user ID."
          (logger ++ [("user_id", ClientUserID s)]) ;;
      ret (Some (Errorf "no authenticated client exists for user ID"))
  | Some cli =>
      '(hooks, err) <- call (CallListHooks owner repo) (ListHooks E cli owner repo) ;;
      match err with
      | Some e => ret (Some (Collab e))
      | None =>
          hook <- emit_run (find_hook s logger hooks) ;;
          match hook with
          | None =>
              ret (Some (Errorf ("Failed to find hook with endpoint: "
                                 ++ webhookEndpointURL s)%string))
          | Some hook =>
              hookID <- deref (ID hook) ;;
              err <- call (CallDeleteHook owner repo hookID)
                          (DeleteHook E cli owner repo hookID) ;;
              ret (as_error err)
          end
      end
  end.

(** [joinWebhookRooms(client)]. *)
Fixpoint joinRooms (rooms : gomap string RoomConfig) : M W (option error) :=
  match rooms with
  | [] => ret None
  | (roomID, _) :: rooms' =>
      err <- call (CallJoinRoom roomID) (JoinRoom E roomID) ;;
      match err with
      | Some e => ret (Some (Collab e))
      | None => joinRooms rooms'
      end
  end.

(** The order the runtime draws for a range over [rooms]. *)
Definition range (rooms : gomap string RoomConfig) : M W (gomap string RoomConfig) :=
  fun w => let '(order, w') := RangeOrder E rooms w in (Done order, w', []).

Definition joinWebhookRooms (s : githubWebhookService) : M W (option error) :=
  rooms <- range (Rooms s) ;;
  joinRooms rooms.

(** The scan of a binding's [Events] for the delivered event type. *)
Definition notifies (evType : string) (events : list string) : bool :=
  existsb (fun notifyType => String.eqb evType notifyType) events.

(** The inner loop of [OnReceiveWebhook], over the bindings of one room;
    it threads [repoExistsInConfig]. *)
Fixpoint route_room (logger : list (string * string))
         (evType fullName : string) (msg : Content) (roomID : string)
         (repos : gomap string RepoConfig) (repoExistsInConfig : bool) : M W bool :=
  match repos with
  | [] => ret repoExistsInConfig
  | (ownerRepo, repoConfig) :: repos' =>
      if negb (EqualFold E fullName ownerRepo) then
        route_room logger evType fullName msg roomID repos' repoExistsInConfig
      else
        (if notifies evType (Events repoConfig) then
           log PrintLevel "Sending notification to room"
               (logger ++ [("msg", msg); ("room_id", roomID)]) ;;
           e <- call (CallSendMessageEvent roomID "m.room.message" msg)
                     (SendMessageEvent E roomID "m.room.message" msg) ;;
           match e with
           | Some _ => log PrintLevel "Failed to send notification to room."
                           (logger ++ [("room_id", roomID)])
           | None => ret tt
           end
         else ret tt) ;;
        route_room logger evType fullName msg roomID repos' true
  end.

(** The outer loop of [OnReceiveWebhook], over the rooms. *)
Fixpoint route_rooms (logger : list (string * string))
         (evType fullName : string) (msg : Content)
         (rooms : gomap string RoomConfig) (repoExistsInConfig : bool) : M W bool :=
  match rooms with
  | [] => ret repoExistsInConfig
  | (roomID, roomConfig) :: rooms' =>
      b <- route_room logger evType fullName msg roomID (Repos roomConfig)
                      repoExistsInConfig ;;
      route_rooms logger evType fullName msg rooms' b
  end.

Definition WriteHeader (code : Z) : M W unit :=
  fun w => (Done tt, w, [CallWriteHeader code]).

(** [OnReceiveWebhook(w, req, cli)]. *)
Definition OnReceiveWebhook (s : githubWebhookService) (req : Request) : M W unit :=
  match OnReceiveRequest E req (SecretToken s) with
  | inl err => WriteHeader (Code err)
  | inr (evType, repo, msg) =>
      repo <- deref repo ;;
      fullName <- deref (FullName repo) ;;
      let logger := [("event", evType); ("repo", fullName)] in
      repoExistsInConfig <-
        route_rooms logger evType fullName msg (Rooms s) false ;;
      if negb repoExistsInConfig then
        let segs := strings.Split fullName slash in
        if negb (Nat.eqb (length segs) 2) then
          log ErrorLevel "Received event with malformed owner/repo." logger ;;
          WriteHeader 400
        else
          owner <- index segs 0 ;;
          name <- index segs 1 ;;
          err <- deleteHook s owner name ;;
          (match err with
           | Some _ => log PrintLevel "Failed to delete webhook" logger
           | None => log InfoLevel "Deleted webhook" logger
           end) ;;
          WriteHeader 200
      else WriteHeader 200
  end.

(** The line both reconciliation calls log for an old service of another
    type. *)
Definition cannot_cast (oldService : Service) : event :=
  Logged PrintLevel "Cannot cast old github service to GithubWebhookService"
         [("service_id", ServiceID oldService);
          ("service_type", ServiceType oldService)].

(** The loop of [Register] over the added repos. *)
Fixpoint Register_hooks (s : githubWebhookService) (cli : Client)
         (newRepos : list string) : M W (option error) :=
  match newRepos with
  | [] => ret None
  | r :: newRepos' =>
      err <- createHook s cli r ;;
      match err with
      | Some e =>
          log ErrorLevel "Failed to create webhook" [("repo", r)] ;;
          ret (Some e)
      | None =>
          log InfoLevel "Created webhook" [("repo", r)] ;;
          Register_hooks s cli newRepos'
      end
  end.

(** [Register(oldService, client)]. *)
Definition Register (s : githubWebhookService) (oldService : option Service)
  : M W (option error) :=
  if String.eqb (RealmID s) "" || String.eqb (ClientUserID s) "" then
    ret (Some (Errorf "RealmID and ClientUserID is required"))
  else
    r <- loadRealm s ;;
    match r with
    | inl err => ret (Some err)
    | inr realm =>
        cli <- githubClientFor s (ClientUserID s) false ;;
        match cli with
        | None =>
            ret (Some (Errorf ("User " ++ ClientUserID s
                               ++ " does not have a Github auth session with realm "
                               ++ realm_ID realm ++ ".")%string))
        | Some cli =>
            oldRepos <- match oldService with
                        | None => ret []
                        | Some (GithubWebhook old) => emit (repoList old)
                        | Some other => emit ([], [cannot_cast other])
                        end ;;
            reposForWebhooks <- emit (repoList s) ;;
            let '(newRepos, removedRepos) :=
              util.Difference reposForWebhooks oldRepos in
            if Nat.eqb (length reposForWebhooks) 0 && Nat.eqb (length removedRepos) 0
            then ret (Some (Errorf "No webhooks specified."))
            else
              err <- Register_hooks s cli newRepos ;;
              match err with
              | Some e => ret (Some e)
              | None =>
                  err <- joinWebhookRooms s ;;
                  match err with
                  | Some e => ret (Some e)
                  | None => log InfoLevel "%+v" [] ;; ret None
                  end
              end
        end
    end.

(** The loop of [PostRegister] over the removed repos. *)
Fixpoint PostRegister_hooks (s : githubWebhookService) (removedRepos : list string)
  : M W unit :=
  match removedRepos with
  | [] => ret tt
  | r :: removedRepos' =>
      let segs := strings.Split r slash in
      owner <- index segs 0 ;;
      name <- index segs 1 ;;
      err <- deleteHook s owner name ;;
      (match err with
       | Some _ => log WarnLevel "Failed to remove webhook" [("repo", r)]
       | None => ret tt
       end) ;;
      PostRegister_hooks s removedRepos'
  end.

(** [PostRegister(oldService)]. *)
Definition PostRegister (s : githubWebhookService) (oldService : option Service)
  : M W unit :=
  old <- match oldService with
         | None => ret (Some [])
         | Some (GithubWebhook old) => r <- emit (repoList old) ;; ret (Some r)
         | Some other => emit (None, [cannot_cast other])
         end ;;
  match old with
  | None => ret tt
  | Some oldRepos =>
      newRepos <- emit (repoList s) ;;
      let '(_, removedRepos) := util.Difference newRepos oldRepos in
      PostRegister_hooks s removedRepos ;;
      if Nat.eqb (length newRepos) 0 then
        let logger := [("service_type", ServiceType (GithubWebhook s));
                       ("service_id", ServiceID (GithubWebhook s))] in
        log InfoLevel "Removing service as no webhooks are registered." logger ;;
        err <- call (CallDeleteService (ServiceID (GithubWebhook s)))
                    (DeleteService E (ServiceID (GithubWebhook s))) ;;
        match err with
        | Some _ => log ErrorLevel "Failed to delete service" logger
        | None => ret tt
        end
      else ret tt
  end.

End Service.

Arguments githubClientFor {W} E s userID allowUnauth.
Arguments OnReceiveWebhook {W} E s req.
Arguments Register {W} E s oldService.
Arguments PostRegister {W} E s oldService.

(** ** A simulated world

    An executable instance of the collaborators, for running the service on
    concrete configurations: an in-memory hook registry that answers a
    duplicate hook with 422 "already exists", a token table, a realm table, a
    service table that can be switched to refuse writes, and rooms whose
    sends or joins fail. *)

Module Sim.

Record world : Type := {
  tokens : list (string * string * string);   (* realm, user, token *)
  realms : list AuthRealm;
  services : list string;
  db_down : bool;
  hooks : list (string * string * Hook);      (* owner, repo, hook *)
  next_id : Z;
  send_fails : list string;
  join_fails : list string
}.

Definition to_lower (c : ascii) : ascii :=
  let n := nat_of_ascii c in
  if (65 <=? n)%nat && (n <=? 90)%nat then ascii_of_nat (n + 32) else c.

(** Case folding on ASCII letters. *)
Fixpoint fold_eq (a b : string) : bool :=
  match a, b with
  | EmptyString, EmptyString => true
  | String x a', String y b' => Ascii.eqb (to_lower x) (to_lower y) && fold_eq a' b'
  | _, _ => false
  end.

Fixpoint header (hs : list (string * string)) (k : string) : option string :=
  match hs with
  | [] => None
  | (k', v) :: hs' => if String.eqb k' k then Some v else header hs' k
  end.

(** A delivery names its event type in a header and its repo in the body (an
    empty body is a payload without a full name); with a secret configured
    the signature header has to carry it. *)
Definition receive (req : Request) (secret : string)
  : HTTPError + (string * option Repository * Content) :=
  let signed := match header (Header req) "X-Hub-Signature" with
                | Some sig => String.eqb sig secret
                | None => String.eqb secret ""
                end in
  if negb signed then inl {| Code := 403 |}
  else match header (Header req) "X-GitHub-Event" with
       | None => inl {| Code := 400 |}
       | Some ev =>
           inr (ev,
                Some {| FullName := if String.eqb (Body req) "" then None
                                    else Some (Body req) |},
                (ev ++ " on " ++ Body req)%string)
       end.

Definition get_token (realm user : string) (w : world)
  : (string * option collab_error) * world :=
  match find (fun e => String.eqb (fst (fst e)) realm && String.eqb (snd (fst e)) user)
             (tokens w) with
  | Some e => ((snd e, None), w)
  | None => (("", Some (OtherError "no session")), w)
  end.

Definition load_realm (realmID : string) (w : world)
  : (option AuthRealm * option collab_error) * world :=
  match find (fun r => String.eqb (realm_ID r) realmID) (realms w) with
  | Some r => ((Some r, None), w)
  | None => ((None, Some (OtherError "sql: no rows in result set")), w)
  end.

Definition set_services (w : world) (l : list string) : world :=
  {| tokens := tokens w; realms := realms w; services := l; db_down := db_down w;
     hooks := hooks w; next_id := next_id w; send_fails := send_fails w;
     join_fails := join_fails w |}.

Definition set_hooks (w : world) (l : list (string * string * Hook)) (n : Z) : world :=
  {| tokens := tokens w; realms := realms w; services := services w;
     db_down := db_down w; hooks := l; next_id := n; send_fails := send_fails w;
     join_fails := join_fails w |}.

Definition delete_service (serviceID : string) (w : world)
  : option collab_error * world :=
  if db_down w then (Some (OtherError "database is locked"), w)
  else (None, set_services w (filter (fun i => negb (String.eqb i serviceID)) (services w))).

Definition stored (serviceID : string) (w : world) : bool :=
  existsb (String.eqb serviceID) (services w).

Definition on_repo (owner repo : string) (e : string * string * Hook) : bool :=
  String.eqb (fst (fst e)) owner && String.eqb (snd (fst e)) repo.

Definition same_url (h h' : Hook) : bool :=
  match index_iface (Config h) "url", index_iface (Config h') "url" with
  | istring u, istring u' => String.eqb u u'
  | _, _ => false
  end.

Definition create_hook (cli : Client) (owner repo : string) (h : Hook) (w : world)
  : (option Response * option collab_error) * world :=
  if existsb (fun e => on_repo owner repo e && same_url h (snd e)) (hooks w) then
    ((Some {| StatusCode := 422 |},
      Some (ErrorResponse [{| Message := "Hook already exists on this repository" |}])),
     w)
  else
    ((Some {| StatusCode := 201 |}, None),
     set_hooks w (hooks w ++ [(owner, repo,
                               {| ID := Some (next_id w); Name := Name h;
                                  Config := Config h;
                                  HookEvents := HookEvents h |})])
               (next_id w + 1)).

Definition list_hooks (cli : Client) (owner repo : string) (w : world)
  : (list (option Hook) * option collab_error) * world :=
  ((map (fun e => Some (snd e)) (filter (on_repo owner repo) (hooks w)), None), w).

Definition has_id (hookID : Z) (h : Hook) : bool :=
  match ID h with
  | Some i => Z.eqb i hookID
  | None => false
  end.

Definition delete_hook (cli : Client) (owner repo : string) (hookID : Z) (w : world)
  : option collab_error * world :=
  if existsb (fun e => on_repo owner repo e && has_id hookID (snd e)) (hooks w) then
    (None, set_hooks w (filter (fun e => negb (on_repo owner repo e
                                              && has_id hookID (snd e))) (hooks w))
                     (next_id w))
  else (Some (ErrorResponse [{| Message := "Not Found" |}]), w).

Definition send (roomID evType : string) (msg : Content) (w : world)
  : option collab_error * world :=
  if existsb (String.eqb roomID) (send_fails w)
  then (Some (OtherError "M_FORBIDDEN"), w) else (None, w).

Definition join (roomID : string) (w : world) : option collab_error * world :=
  if existsb (String.eqb roomID) (join_fails w)
  then (Some (OtherError "M_FORBIDDEN"), w) else (None, w).

(** The provider cannot be reached: no response, only an error. *)
Definition create_hook_offline (cli : Client) (owner repo : string) (h : Hook)
           (w : world) : (option Response * option collab_error) * world :=
  ((None, Some (OtherError "dial tcp: i/o timeout")), w).

(** A listing that starts with a nil entry. *)
Definition list_hooks_nil (cli : Client) (owner repo : string) (w : world)
  : (list (option Hook) * option collab_error) * world :=
  ((None :: fst (fst (list_hooks cli owner repo w)), None), w).

(** A client that drops what it cannot use from a listing: nil entries and
    hooks without an id. *)
Definition carries_id (h : option Hook) : bool :=
  match h with
  | Some h => match ID h with Some _ => true | None => false end
  | None => false
  end.

Definition list_hooks_checked (cli : Client) (owner repo : string) (w : world)
  : (list (option Hook) * option collab_error) * world :=
  ((filter carries_id (fst (fst (list_hooks cli owner repo w))), None), w).

(** A range keeps the order of the listing, or reverses it. *)
Definition same_order (rooms : gomap string RoomConfig) (w : world)
  : gomap string RoomConfig * world := (rooms, w).

Definition reverse_order (rooms : gomap string RoomConfig) (w : world)
  : gomap string RoomConfig * world := (rev rooms, w).

Definition env : Env world :=
  {| EqualFold := fold_eq;
     OnReceiveRequest := receive;
     getTokenForUser := get_token;
     LoadAuthRealm := load_realm;
     DeleteService := delete_service;
     ServiceStored := stored;
     CreateHook := create_hook;
     ListHooks := list_hooks;
     DeleteHook := delete_hook;
     SendMessageEvent := send;
     JoinRoom := join;
     RangeOrder := same_order |}.

(** The same collaborators with the provider out of reach for creates. *)
Definition env_offline : Env world :=
  {| EqualFold := fold_eq;
     OnReceiveRequest := receive;
     getTokenForUser := get_token;
     LoadAuthRealm := load_realm;
     DeleteService := delete_service;
     ServiceStored := stored;
     CreateHook := create_hook_offline;
     ListHooks := list_hooks;
     DeleteHook := delete_hook;
     SendMessageEvent := send;
     JoinRoom := join;
     RangeOrder := same_order |}.

(** The same collaborators with a nil entry at the head of every listing. *)
Definition env_nil_listing : Env world :=
  {| EqualFold := fold_eq;
     OnReceiveRequest := receive;
     getTokenForUser := get_token;
     LoadAuthRealm := load_realm;
     DeleteService := delete_service;
     ServiceStored := stored;
     CreateHook := create_hook;
     ListHooks := list_hooks_nil;
     DeleteHook := delete_hook;
     SendMessageEvent := send;
     JoinRoom := join;
     RangeOrder := same_order |}.

(** The same collaborators with listings that hold only hooks with ids. *)
Definition env_checked : Env world :=
  {| EqualFold := fold_eq;
     OnReceiveRequest := receive;
     getTokenForUser := get_token;
     LoadAuthRealm := load_realm;
     DeleteService := delete_service;
     ServiceStored := stored;
     CreateHook := create_hook;
     ListHooks := list_hooks_checked;
     DeleteHook := delete_hook;
     SendMessageEvent := send;
     JoinRoom := join;
     RangeOrder := same_order |}.

(** The same collaborators with a runtime that ranges in reverse. *)
Definition env_reversed : Env world :=
  {| EqualFold := fold_eq;
     OnReceiveRequest := receive;
     getTokenForUser := get_token;
     LoadAuthRealm := load_realm;
     DeleteService := delete_service;
     ServiceStored := stored;
     CreateHook := create_hook;
     ListHooks := list_hooks;
     DeleteHook := delete_hook;
     SendMessageEvent := send;
     JoinRoom := join;
     RangeOrder := reverse_order |}.

(** A bridge for user [@alice] in realm [gh], keyed by its rooms. *)
Definition service (rooms : gomap string RoomConfig) : githubWebhookService :=
  {| id := "svc1";
     serviceUserID := "@neb:example.org";
     webhookEndpointURL := "https://neb.example.org/hook/svc1";
     ClientUserID := "@alice:example.org";
     RealmID := "gh";
     SecretToken := "";
     Rooms := rooms |}.

Definition room (bindings : list (string * list string)) : RoomConfig :=
  {| Repos := map (fun b => (fst b, {| Events := snd b |})) bindings |}.

(** A world where [@alice] is signed in, [svc1] is stored and no hook exists. *)
Definition w0 : world :=
  {| tokens := [("gh", "@alice:example.org", "t0k3n")];
     realms := [{| realm_ID := "gh"; realm_Type := "github" |};
                {| realm_ID := "jira1"; realm_Type := "jira" |}];
     services := ["svc1"];
     db_down := false;
     hooks := [];
     next_id := 1;
     send_fails := [];
     join_fails := [] |}.

(** [w0] with a service database that refuses writes. *)
Definition w_db_down : world :=
  {| tokens := tokens w0; realms := realms w0; services := services w0;
     db_down := true; hooks := hooks w0; next_id := next_id w0;
     send_fails := send_fails w0; join_fails := join_fails w0 |}.

Definition delivery (ev fullName : string) : Request :=
  {| Header := [("X-GitHub-Event", ev)]; Body := fullName |}.

(** Room [!R1] wants the pushes of acme/widgets (keyed with capitals), room
    [!R2] its issues. *)
Definition two_rooms : githubWebhookService :=
  service [("!R1", room [("Acme/Widgets", ["push"])]);
           ("!R2", room [("acme/widgets", ["issues"])])].

(** A configuration with a key without "/" and a key with an empty owner. *)
Definition odd_keys : githubWebhookService :=
  service [("!R1", room [("acme/widgets", ["push"]); ("justonename", ["push"])]);
           ("!R2", room [("/widgets", ["push"]); ("acme/widgets", ["issues"])])].

(** The bridge pointed at a realm that is not a github realm. *)
Definition jira_realm : githubWebhookService :=
  {| id := "svc1";
     serviceUserID := "@neb:example.org";
     webhookEndpointURL := "https://neb.example.org/hook/svc1";
     ClientUserID := "@alice:example.org";
     RealmID := "jira1";
     SecretToken := "";
     Rooms := [("!R1", room [("acme/widgets", ["push"])])] |}.

Definition hook (i : Z) (cfg : gomap string iface) : Hook :=
  {| ID := Some i; Name := Some "web"; Config := cfg; HookEvents := ["push"] |}.

(** [w0] with four hooks on acme/widgets: one without "url", one whose
    "url" is a number, one of another bridge, and the bridge's own. *)
Definition w_hooks : world :=
  set_hooks w0
    [("acme", "widgets", hook 4 [("content_type", istring "json")]);
     ("acme", "widgets", hook 5 [("url", inumber 80)]);
     ("acme", "widgets", hook 6 [("url", istring "https://other.example.org/hook")]);
     ("acme", "widgets", hook 7 [("url", istring "https://neb.example.org/hook/svc1")])]
    8.

Definition alice : Client := {| token := "t0k3n" |}.

(** A configuration whose only key has no "/". *)
Definition only_bad_keys : githubWebhookService :=
  service [("!R1", room [("justonename", ["push"])])].

(** [w0] after the hook of acme/widgets was created for [two_rooms]. *)
Definition w_created : world :=
  set_hooks w0
    [("acme", "widgets",
      {| ID := Some 1%Z; Name := Some "web";
         Config := [("content_type", istring "json");
                    ("url", istring "https://neb.example.org/hook/svc1")];
         HookEvents := ["push"; "pull_request"; "issues"; "issue_comment";
                        "pull_request_review_comment"] |})]
    2.

(** [w0] where the provider lists the bridge's hook on acme/widgets without
    an id. *)
Definition w_hook_without_id : world :=
  set_hooks w0
    [("acme", "widgets",
      {| ID := None; Name := Some "web";
         Config := [("url", istring "https://neb.example.org/hook/svc1")];
         HookEvents := ["push"] |})]
    1.

(** The repos of [two_rooms] bound in one room, for other events. *)
Definition one_room : githubWebhookService :=
  service [("!R9", room [("acme/widgets", []); ("Acme/Widgets", ["issue_comment"])])].

(** [w0] where joining [!R2] fails. *)
Definition w_r2_closed : world :=
  {| tokens := tokens w0; realms := realms w0; services := services w0;
     db_down := false; hooks := hooks w0; next_id := next_id w0;
     send_fails := send_fails w0; join_fails := ["!R2"] |}.

(** Both rooms want the pushes of acme/widgets. *)
Definition both_push : githubWebhookService :=
  service [("!R1", room [("acme/widgets", ["push"])]);
           ("!R2", room [("acme/widgets", ["issues"; "push"])])].

(** [w0] where sends to [!R1] fail. *)
Definition w_r1_fails : world :=
  {| tokens := tokens w0; realms := realms w0; services := services w0;
     db_down := false; hooks := hooks w0; next_id := next_id w0;
     send_fails := ["!R1"]; join_fails := join_fails w0 |}.

Definition echo1 : echoService :=
  {| echo_id := "echo1"; echo_serviceUserID := "@neb:example.org" |}.

End Sim.

(** ** Vocabulary of the statements *)

(** A key [repoList] accepts: it holds one "/". *)
Definition good_key (k : string) : Prop := strings.Count k slash = 1.

(** [k] is a repo key of one of [rooms]. *)
Definition rooms_key (rooms : gomap string RoomConfig) (k : string) : Prop :=
  exists roomID roomConfig repoConfig,
    In (roomID, roomConfig) rooms /\ In (k, repoConfig) (Repos roomConfig).

(** The spec's wording of the repo list: keys that do not split into two
    non-empty segments are dropped. *)
Definition repoList_drops_keys_without_two_nonempty_segments : Prop :=
  forall (s : githubWebhookService) (k : string),
    repo_key s k -> ~ two_nonempty_segments k -> ~ In k (fst (repoList s)).

Definition is_log (e : event) : bool :=
  match e with Logged _ _ _ => true | _ => false end.

(** The calls of a trace: everything but the log lines. *)
Definition calls (t : list event) : list event := filter (fun e => negb (is_log e)) t.

Definition is_send (e : event) : bool :=
  match e with CallSendMessageEvent _ _ _ => true | _ => false end.

Definition is_create (e : event) : bool :=
  match e with CallCreateHook _ _ _ => true | _ => false end.

Definition is_join (e : event) : bool :=
  match e with CallJoinRoom _ => true | _ => false end.

(** The hook [deleteHook] looks for: its config "url" is a string equal to
    the bridge's endpoint. *)
Definition points_here (s : githubWebhookService) (h : Hook) : bool :=
  match index_iface (Config h) "url" with
  | istring hookURL => String.eqb hookURL (webhookEndpointURL s)
  | _ => false
  end.

(** The entry of a listing at which the loop of [deleteHook] stops: a hook
    that points here, or a nil entry, which the loop cannot read. *)
Definition stops_at (s : githubWebhookService) (h : option Hook) : bool :=
  match h with
  | Some h => points_here s h
  | None => true
  end.

(** The "Removing hook" line for the repo [r]: one per call of [deleteHook],
    which is one delete attempt. *)
Definition attempt (s : githubWebhookService) (r : string) : event :=
  Logged InfoLevel "Removing hook" [("endpoint", webhookEndpointURL s); ("repo", r)].

Definition is_attempt (e : event) : bool :=
  match e with
  | Logged InfoLevel msg _ => String.eqb msg "Removing hook"
  | _ => false
  end.

(** The sends one room is due for a delivery: one per binding of the room
    whose key folds to the delivered full name and whose events hold the
    delivered type. *)
Definition room_sends (fold : string -> string -> bool) (evType fullName : string)
           (msg : Content) (roomID : string) (repos : gomap string RepoConfig)
  : list event :=
  map (fun _ => CallSendMessageEvent roomID "m.room.message" msg)
      (filter (fun b => fold fullName (fst b) && notifies evType (Events (snd b)))
              repos).

Definition expected_sends (fold : string -> string -> bool) (evType fullName : string)
           (msg : Content) (rooms : gomap string RoomConfig) : list event :=
  flat_map (fun room => room_sends fold evType fullName msg (fst room)
                                   (Repos (snd room))) rooms.

(** Some binding of some room folds to the full name. *)
Definition referenced (fold : string -> string -> bool) (fullName : string)
           (rooms : gomap string RoomConfig) : bool :=
  existsb (fun room => existsb (fun b => fold fullName (fst b)) (Repos (snd room)))
          rooms.

(** The room holds a binding for the repo, case-insensitively, that
    subscribes to the event type. *)
Definition subscribed (fold : string -> string -> bool) (s : githubWebhookService)
           (roomID evType fullName : string) : Prop :=
  exists roomConfig ownerRepo repoConfig,
    In (roomID, roomConfig) (Rooms s)
    /\ In (ownerRepo, repoConfig) (Repos roomConfig)
    /\ fold fullName ownerRepo = true
    /\ In evType (Events repoConfig).

(** The spec's wording of the orphan branch: a delivery for a repo no
    binding names is answered 400, without a delete attempt, unless its full
    name splits into two non-empty segments; then it gets one delete attempt
    and a 200. *)
Definition orphan_guard_requires_nonempty_segments : Prop :=
  forall (W : Type) (E : Env W) (s : githubWebhookService) (req : Request) (w : W)
         (evType fullName : string) (msg : Content),
    OnReceiveRequest E req (SecretToken s)
    = inr (evType, Some {| FullName := Some fullName |}, msg) ->
    referenced (EqualFold E) fullName (Rooms s) = false ->
    let r := OnReceiveWebhook E s req w in
    (~ two_nonempty_segments fullName ->
     In (CallWriteHeader 400) (trace_of r) /\ filter is_attempt (trace_of r) = [])
    /\ (two_nonempty_segments fullName ->
        In (CallWriteHeader 200) (trace_of r)
        /\ filter is_attempt (trace_of r) = [attempt s fullName]).

(** The full name a verified delivery carries, if it carries one: the
    repository and its full name are pointers. *)
Definition delivered_name (repo : option Repository) : option string :=
  match repo with
  | Some repo => FullName repo
  | None => None
  end.

(** The provider's listings hold no nil entry and give every hook its id. *)
Definition lists_hooks_with_ids {W : Type} (E : Env W) : Prop :=
  forall (cli : Client) (owner repo : string) (w : W),
    Forall (fun h => exists hook hookID, h = Some hook /\ ID hook = Some hookID)
           (fst (fst (ListHooks E cli owner repo w))).

(** Two calls of [createHook] in a row, with both results. *)
Definition createHook_twice {W : Type} (E : Env W) (s : githubWebhookService)
           (cli : Client) (ownerRepo : string) : M W (option error * option error) :=
  e1 <- createHook E s cli ownerRepo ;;
  e2 <- createHook E s cli ownerRepo ;;
  ret (e1, e2).

(** The outcome of [createHook] as a function of the provider's answer. *)
Definition createHook_answer (res : option Response) (err : option collab_error)
  : outcome (option error) :=
  match res with
  | None => Panicked NilPointer
  | Some rs =>
      if Z.eqb (StatusCode rs) 422 then
        match err with
        | Some (ErrorResponse errs) =>
            if already_exists errs then Done None else Done (as_error err)
        | _ => Done (as_error err)
        end
      else Done (as_error err)
  end.

(** The repo list both reconciliation calls take for the old service, with
    its diagnostics: none for an old service of another type. *)
Definition old_repoList (oldService : option Service) : option (logged (list string)) :=
  match oldService with
  | None => Some ([], [])
  | Some (GithubWebhook old) => Some (repoList old)
  | Some (Echo _) => None
  end.

(** The lines and the call of [PostRegister]'s self-pruning, given what the
    storage answered. *)
Definition prune_trace (s : githubWebhookService) (answer : option collab_error)
  : list event :=
  let logger := [("service_type", "github-webhook"); ("service_id", id s)] in
  [Logged InfoLevel "Removing service as no webhooks are registered." logger;
   CallDeleteService (id s)]
  ++ match answer with
     | Some _ => [Logged ErrorLevel "Failed to delete service" logger]
     | None => []
     end.

(** The line logged when the storage refuses to drop the configuration. *)
Definition prune_failed (s : githubWebhookService) : event :=
  Logged ErrorLevel "Failed to delete service"
         [("service_type", "github-webhook"); ("service_id", id s)].

(** The storage keeps its word: a delete it reports as done leaves no
    configuration under that id. *)
Definition deletes_when_it_succeeds {W : Type} (E : Env W) : Prop :=
  forall (serviceID : string) (w : W),
    fst (DeleteService E serviceID w) = None ->
    ServiceStored E serviceID (snd (DeleteService E serviceID w)) = false.

(** The spec's wording of self-pruning: after [PostRegister] on a
    configuration without rooms, the storage no longer holds it. *)
Definition pruned_configuration_leaves_storage : Prop :=
  forall (W : Type) (E : Env W) (s old : githubWebhookService) (w : W),
    deletes_when_it_succeeds E ->
    Rooms s = [] ->
    ServiceStored E (id s) (world_of (PostRegister E s (Some (GithubWebhook old)) w))
    = false.

(** The checks of [Register] before it looks at the repos: both ids are
    set, the realm loads and is a github realm, and the user has a token. *)
Definition prechecks_pass {W : Type} (E : Env W) (s : githubWebhookService) (w : W)
  : Prop :=
  RealmID s <> "" /\ ClientUserID s <> ""
  /\ (exists realm, fst (LoadAuthRealm E (RealmID s) w) = (Some realm, None)
                    /\ realm_Type realm = "github")
  /\ fst (fst (getTokenForUser E (RealmID s) (ClientUserID s)
                               (snd (LoadAuthRealm E (RealmID s) w)))) <> "".

(** The error of [Register]'s guard. *)
Definition no_webhooks_specified : outcome (option error) :=
  Done (Some (Errorf "No webhooks specified.")).

(** The repos [Register] and [PostRegister] take as the old ones. *)
Definition old_repos (oldService : option Service) : list string :=
  match old_repoList oldService with
  | Some l => fst l
  | None => []
  end.

(** The repos of the old service that the new configuration no longer has. *)
Definition removed_repos (s : githubWebhookService) (oldService : option Service)
  : list string :=
  snd (util.Difference (fst (repoList s)) (old_repos oldService)).

(** An outcome [Register] passes on from the hook or join loops: success, a
    collaborator's error, or a panic. *)
Definition passed_on (o : outcome (option error)) : Prop :=
  o = Done None \/ (exists e, o = Done (Some (Collab e))) \/ exists p, o = Panicked p.

(** Two runs that differ at most in their log lines. *)
Definition same_run {W A : Type} (r1 r2 : outcome A * W * list event) : Prop :=
  result_of r1 = result_of r2
  /\ world_of r1 = world_of r2
  /\ calls (trace_of r1) = calls (trace_of r2).

(** The spec's wording of the fallback: with an old service of another type
    both reconciliation calls run as they do without an old service. *)
Definition uncastable_old_service_counts_as_none : Prop :=
  forall (W : Type) (E : Env W) (s : githubWebhookService) (e : echoService) (w : W),
    same_run (Register E s (Some (Echo e)) w) (Register E s None w)
    /\ same_run (PostRegister E s (Some (Echo e)) w) (PostRegister E s None w).


(** ** The rest of the service file *)

(** [sort.Strings]: the increasing rearrangement of a slice, by the order
    [<] of Go strings (byte by byte).  It is computed here by insertion; the
    result is the same for every sorting algorithm. *)
Module sort.

Definition less_eq (a b : string) : bool :=
  match String_as_OT.compare a b with
  | Gt => false
  | _ => true
  end.

Fixpoint insert (x : string) (l : list string) : list string :=
  match l with
  | [] => [x]
  | y :: l' => if less_eq x y then x :: l else y :: insert x l'
  end.

Fixpoint Strings (l : list string) : list string :=
  match l with
  | [] => []
  | x :: l' => insert x (Strings l')
  end.

End sort.

(** [r[k] = v] on a [map[string]bool]: the entry is replaced where the key
    is present and added where it is not. *)
Fixpoint map_set (r : gomap string bool) (k : string) (v : bool) : gomap string bool :=
  match r with
  | [] => [(k, v)]
  | (k', v') :: r' => if String.eqb k' k then (k', v) :: r' else (k', v') :: map_set r' k v
  end.

(** The inner loop of [getRepos], over the keys of one room. *)
Fixpoint getRepos_room (rs : gomap string RepoConfig) (r : gomap string bool)
  : gomap string bool :=
  match rs with
  | [] => r
  | (ownerRepo, _) :: rs' => getRepos_room rs' (map_set r ownerRepo true)
  end.

(** The outer loop of [getRepos], over the rooms. *)
Fixpoint getRepos_rooms (rooms : gomap string RoomConfig) (r : gomap string bool)
  : gomap string bool :=
  match rooms with
  | [] => r
  | (_, roomConfig) :: rooms' => getRepos_rooms rooms' (getRepos_room (Repos roomConfig) r)
  end.

(** [getRepos], the closure of [sameRepos]: the keys of the set it fills. *)
Definition getRepos (s : githubWebhookService) : list string :=
  keys (getRepos_rooms (Rooms s) []).

(** [sameRepos(a, b)].  The last loop reads [bRepos[i]] for every index of
    [aRepos]; it runs only when both have the same length. *)
Definition sameRepos (a b : githubWebhookService) : bool :=
  let aRepos := getRepos a in
  let bRepos := getRepos b in
  if negb (Nat.eqb (length aRepos) (length bRepos)) then false
  else
    let aRepos := sort.Strings aRepos in
    let bRepos := sort.Strings bRepos in
    forallb (fun i => String.eqb (nth i aRepos "") (nth i bRepos ""))
            (seq 0 (length aRepos)).

(** The service the factory of [init] makes: the three given fields, the
    rest zero. *)
Definition new_githubWebhookService (serviceID serviceUserID webhookEndpointURL : string)
  : githubWebhookService :=
  {| id := serviceID;
     serviceUserID := serviceUserID;
     webhookEndpointURL := webhookEndpointURL;
     ClientUserID := "";
     RealmID := "";
     SecretToken := "";
     Rooms := [] |}.

(** ** The echo service *)

(** [matrix.TextMessage]. *)
Record TextMessage : Type := { msgtype : string; body : string }.

(** [plugin.Command]: a path and the function run for it, which returns a
    reply or an error. *)
Record plugin_Command : Type := {
  Path : list string;
  Command : string -> string -> list string -> option TextMessage * option error
}.

(** [plugin.Plugin]. *)
Record plugin_Plugin : Type := { Commands : list plugin_Command }.

(** [echoService.Plugin(cli, roomID)]. *)
Definition echo_Plugin (e : echoService) (roomID : string) : plugin_Plugin :=
  {| Commands :=
       [{| Path := ["echo"];
           Command := fun roomID userID args =>
                        (Some {| msgtype := "m.notice";
                                 body := strings.Join args " " |}, None) |}] |}.

(** [githubWebhookService.Plugin(cli, roomID)]. *)
Definition Plugin (s : githubWebhookService) (roomID : string) : plugin_Plugin :=
  {| Commands := [] |}.

(** The echo service made by the factory of its [init]. *)
Definition new_echoService (serviceID serviceUserID webhookEndpointURL : string)
  : echoService :=
  {| echo_id := serviceID; echo_serviceUserID := serviceUserID |}.

(** The [Register], [PostRegister] and [OnReceiveWebhook] of [echoService]. *)
Definition echo_Register {W : Type} (e : echoService) (oldService : option Service)
  : M W (option error) := ret None.

Definition echo_PostRegister {W : Type} (e : echoService) (oldService : option Service)
  : M W unit := ret tt.

Definition echo_OnReceiveWebhook {W : Type} (e : echoService) (req : Request)
  : M W unit := WriteHeader 200.

(** ** Vocabulary of the further statements *)

Definition is_header (e : event) : bool :=
  match e with CallWriteHeader _ => true | _ => false end.

(** The create call [createHook] makes for a repo: for its first two
    segments. *)
Definition create_call (s : githubWebhookService) (r : string) : event :=
  CallCreateHook (nth 0 (strings.Split r slash) "") (nth 1 (strings.Split r slash) "")
                 (new_hook s).

(** The repos [Register] creates hooks for: listed now, not listed before. *)
Definition added_repos (s : githubWebhookService) (oldService : option Service)
  : list string :=
  fst (util.Difference (fst (repoList s)) (old_repos oldService)).

(** A slice in increasing order. *)
Definition increasing (l : list string) : Prop :=
  StronglySorted (fun a b => sort.less_eq a b = true) l.

(** The part of [Register] after its guard: the hooks, then the rooms. *)
Definition Register_finish {W : Type} (E : Env W) (s : githubWebhookService)
           (cli : Client) (newRepos : list string) : M W (option error) :=
  err <- Register_hooks E s cli newRepos ;;
  match err with
  | Some e => ret (Some e)
  | None =>
      err <- joinWebhookRooms E s ;;
      match err with
      | Some e => ret (Some e)
      | None => log InfoLevel "%+v" [] ;; ret None
      end
  end.

(** The runtime's range visits every entry once. *)
Definition ranges_over_all {W : Type} (E : Env W) : Prop :=
  forall (rooms : gomap string RoomConfig) (w : W),
    Permutation (fst (RangeOrder E rooms w)) rooms.

(** The joins of [roomIDs], in this order from the world [w], are all
    answered without an error and leave the world [w']. *)
Inductive joins_succeed {W : Type} (E : Env W) : list string -> W -> W -> Prop :=
| joins_none (w : W) : joins_succeed E [] w w
| joins_next (roomID : string) (roomIDs : list string) (w w' : W) :
    fst (JoinRoom E roomID w) = None ->
    joins_succeed E roomIDs (snd (JoinRoom E roomID w)) w' ->
    joins_succeed E (roomID :: roomIDs) w w'.

Definition is_load (e : event) : bool :=
  match e with CallLoadAuthRealm _ => true | _ => false end.

Definition is_get (e : event) : bool :=
  match e with CallGetTokenForUser _ _ => true | _ => false end.

(** The calls of [Register]: lookups, creates and joins. *)
Definition is_register_call (e : event) : bool :=
  is_load e || is_get e || is_create e || is_join e.

(** The calls of [PostRegister]: what [deleteHook] calls, and the delete of
    the configuration. *)
Definition is_cleanup_call (e : event) : bool :=
  match e with
  | CallGetTokenForUser _ _ | CallListHooks _ _ | CallDeleteHook _ _ _
  | CallDeleteService _ => true
  | _ => false
  end.

(** The calls of [OnReceiveWebhook]: sends, what [deleteHook] calls, and the
    response. *)
Definition is_delivery_call (e : event) : bool :=
  match e with
  | CallSendMessageEvent _ _ _ | CallGetTokenForUser _ _ | CallListHooks _ _
  | CallDeleteHook _ _ _ | CallWriteHeader _ => true
  | _ => false
  end.

Definition is_prune (e : event) : bool :=
  match e with CallDeleteService _ => true | _ => false end.

(** What [deleteHook] calls. *)
Definition is_hook_cleanup (e : event) : bool :=
  match e with
  | CallGetTokenForUser _ _ | CallListHooks _ _ | CallDeleteHook _ _ _ => true
  | _ => false
  end.

(** The body of the reply of the echo command. *)
Definition body_of_echo (args : list string) : string :=
  match Commands (echo_Plugin {| echo_id := ""; echo_serviceUserID := "" |} "") with
  | c :: _ => match fst (Command c "" "" args) with
              | Some reply => body reply
              | None => ""
              end
  | [] => ""
  end.


(** * Properties *)

(** ** Strings *)

Section StringFacts.

Variable sep : ascii.

Lemma Split_length (s : string) :
  length (strings.Split s sep) = S (strings.Count s sep).
Proof.
  induction s as [|c s IH]; simpl; [reflexivity|].
  destruct (Ascii.eqb c sep); simpl.
  - now rewrite IH.
  - destruct (strings.Split s sep) as [|seg segs]; simpl in *; lia.
Qed.

Lemma Split_one (s a : string) : strings.Split s sep = [a] -> s = a.
Proof.
  revert a. induction s as [|c s IH]; simpl; intros a; [congruence|].
  pose proof (Split_length s) as L.
  destruct (Ascii.eqb c sep).
  - intros H. injection H as _ H. rewrite H in L. discriminate.
  - destruct (strings.Split s sep) as [|seg [|? ?]] eqn:Es; try discriminate.
    intros H. injection H as <-. f_equal. now apply IH.
Qed.

(** Joining the two pieces of a key with one separator gives the key back. *)
Lemma Split_two (s a b : string) :
  strings.Split s sep = [a; b] -> s = (a ++ String sep b)%string.
Proof.
  revert a b. induction s as [|c s IH]; simpl; intros a b; [discriminate|].
  destruct (Ascii.eqb c sep) eqn:Ec.
  - apply Ascii.eqb_eq in Ec. subst c. intros H. injection H as <- H.
    simpl. f_equal. now apply Split_one.
  - destruct (strings.Split s sep) as [|seg [|seg2 [|? ?]]] eqn:Es; try discriminate.
    intros H. injection H as <- <-. simpl. f_equal. now apply IH.
Qed.

Lemma Count_one_Split (s : string) :
  strings.Count s sep = 1 ->
  exists a b, strings.Split s sep = [a; b] /\ s = (a ++ String sep b)%string.
Proof.
  intros H. pose proof (Split_length s) as L. rewrite H in L.
  destruct (strings.Split s sep) as [|a [|b [|? ?]]] eqn:Es; try discriminate.
  exists a, b. split; [reflexivity|]. now apply Split_two.
Qed.

End StringFacts.

Lemma existsb_eqb_In (x : string) (l : list string) :
  existsb (fun r => String.eqb r x) l = true <-> In x l.
Proof.
  rewrite existsb_exists. split.
  - intros (y & Hy & E). apply String.eqb_eq in E. now subst.
  - intros H. exists x. split; [assumption | apply String.eqb_refl].
Qed.

Lemma existsb_eqb_In' (x : string) (l : list string) :
  existsb (String.eqb x) l = true <-> In x l.
Proof.
  rewrite existsb_exists. split.
  - intros (y & Hy & E). apply String.eqb_eq in E. now subst.
  - intros H. exists x. split; [assumption | apply String.eqb_refl].
Qed.

(** ** The repo list *)

Lemma good_key_dec (k : string) : {good_key k} + {~ good_key k}.
Proof. unfold good_key. apply Nat.eq_dec. Qed.

Lemma repoList_room_spec (rs : gomap string RepoConfig) :
  forall repos : list string,
    let out := fst (repoList_room rs repos) in
    let t := snd (repoList_room rs repos) in
    (NoDup repos -> NoDup out)
    /\ (forall k, In k out <->
                  In k repos \/ (In k (keys rs) /\ good_key k))
    /\ (forall e, In e t <->
                  exists k, e = bad_key_diagnostic k /\ In k (keys rs) /\ ~ good_key k).
Proof.
  induction rs as [|[ownerRepo rc] rs IH]; intros repos; simpl.
  - split; [auto|]. split.
    + intros k. tauto.
    + intros e. split; [tauto | intros (k & _ & [] & _)].
  - destruct (Nat.eqb (strings.Count ownerRepo slash) 1) eqn:Ec; simpl.
    + apply Nat.eqb_eq in Ec.
      destruct (existsb (fun r => String.eqb r ownerRepo) repos) eqn:Ex; simpl.
      * apply existsb_eqb_In in Ex.
        destruct (IH repos) as (Hn & Hin & Ht). split; [assumption|]. split.
        -- intros k. rewrite Hin. split.
           ++ intros [H | [H G]]; auto.
           ++ intros [H | [[<- | H] G]]; auto.
        -- intros e. rewrite Ht. split.
           ++ intros (k & -> & H & G). exists k. auto.
           ++ intros (k & -> & [<- | H] & G); [contradiction|]. exists k. auto.
      * assert (Hni : ~ In ownerRepo repos).
        { intros H. apply existsb_eqb_In in H. congruence. }
        destruct (IH (repos ++ [ownerRepo])) as (Hn & Hin & Ht). split; [|split].
        -- intros Hnd. apply Hn.
           apply NoDup_app; [assumption | repeat constructor; simpl; tauto |].
           intros x Hx [<- | []]. contradiction.
        -- intros k. rewrite Hin, in_app_iff. simpl. split.
           ++ intros [[H | [<- | []]] | [H G]]; auto.
           ++ intros [H | [[<- | H] G]]; auto.
        -- intros e. rewrite Ht. split.
           ++ intros (k & -> & H & G). exists k. auto.
           ++ intros (k & -> & [<- | H] & G); [contradiction|]. exists k. auto.
    + apply Nat.eqb_neq in Ec.
      destruct (IH repos) as (Hn & Hin & Ht).
      destruct (repoList_room rs repos) as [out t]; simpl in *.
      split; [assumption|]. split.
      * intros k. rewrite Hin. split.
        -- intros [H | [H G]]; auto.
        -- intros [H | [[<- | H] G]]; auto. contradiction.
      * intros e. split.
        -- intros [<- | H].
           ++ exists ownerRepo. auto.
           ++ apply Ht in H. destruct H as (k & -> & H & G). exists k. auto.
        -- intros (k & -> & [<- | H] & G); [now left|].
           right. apply Ht. exists k. auto.
Qed.

Lemma In_keys {V} (m : gomap string V) (k : string) :
  In k (keys m) <-> exists v, In (k, v) m.
Proof.
  unfold keys. rewrite in_map_iff. split.
  - intros ([k' v] & <- & H). now exists v.
  - intros (v & H). now exists (k, v).
Qed.

Lemma rooms_key_cons roomID rc rooms k :
  rooms_key ((roomID, rc) :: rooms) k <-> In k (keys (Repos rc)) \/ rooms_key rooms k.
Proof.
  unfold rooms_key. rewrite In_keys. split.
  - intros (r & c & v & [H | H] & Hk).
    + injection H as <- <-. left. now exists v.
    + right. now exists r, c, v.
  - intros [(v & Hk) | (r & c & v & H & Hk)].
    + exists roomID, rc, v. simpl. auto.
    + exists r, c, v. simpl. auto.
Qed.

Lemma repoList_rooms_spec (rooms : gomap string RoomConfig) :
  forall repos : list string,
    let out := fst (repoList_rooms rooms repos) in
    let t := snd (repoList_rooms rooms repos) in
    (NoDup repos -> NoDup out)
    /\ (forall k, In k out <-> In k repos \/ (rooms_key rooms k /\ good_key k))
    /\ (forall e, In e t <->
                  exists k, e = bad_key_diagnostic k /\ rooms_key rooms k /\ ~ good_key k).
Proof.
  induction rooms as [|[roomID rc] rooms IH]; intros repos; simpl.
  - split; [auto|]. split.
    + intros k. split; [auto|]. intros [H | [(? & ? & ? & [] & _) _]]. assumption.
    + intros e. split; [tauto|]. intros (k & _ & (? & ? & ? & [] & _) & _).
  - destruct (repoList_room_spec (Repos rc) repos) as (Hn1 & Hin1 & Ht1).
    destruct (repoList_room (Repos rc) repos) as [repos1 t1]; simpl in *.
    destruct (IH repos1) as (Hn2 & Hin2 & Ht2).
    destruct (repoList_rooms rooms repos1) as [out t2]; simpl in *.
    split; [auto|]. split.
    + intros k. rewrite Hin2, Hin1, rooms_key_cons. tauto.
    + intros e. rewrite in_app_iff, Ht1, Ht2. split.
      * intros [(k & -> & H & G) | (k & -> & H & G)];
          exists k; rewrite rooms_key_cons; auto.
      * intros (k & -> & H & G). apply rooms_key_cons in H.
        destruct H as [H | H]; [left | right]; exists k; auto.
Qed.

Lemma repoList_unfold (s : githubWebhookService) :
  repoList s = repoList_rooms (Rooms s) [].
Proof. unfold repoList. now destruct (Rooms s). Qed.

Lemma repoList_NoDup (s : githubWebhookService) : NoDup (fst (repoList s)).
Proof.
  rewrite repoList_unfold.
  apply (repoList_rooms_spec (Rooms s) []). constructor.
Qed.

Lemma repoList_In (s : githubWebhookService) (k : string) :
  In k (fst (repoList s)) <-> repo_key s k /\ good_key k.
Proof.
  rewrite repoList_unfold.
  destruct (repoList_rooms_spec (Rooms s) []) as (_ & H & _).
  rewrite H. simpl. unfold repo_key, rooms_key. tauto.
Qed.

Lemma repoList_diagnostics (s : githubWebhookService) (e : event) :
  In e (snd (repoList s)) <->
  exists k, e = bad_key_diagnostic k /\ repo_key s k /\ ~ good_key k.
Proof.
  rewrite repoList_unfold.
  destruct (repoList_rooms_spec (Rooms s) []) as (_ & _ & H).
  apply H.
Qed.

(** Every listed repo splits into an owner and a name. *)
Lemma repoList_Split (s : githubWebhookService) (r : string) :
  In r (fst (repoList s)) ->
  exists owner name,
    strings.Split r slash = [owner; name] /\ r = (owner ++ "/" ++ name)%string.
Proof.
  intros H. apply repoList_In in H. destruct H as [_ G].
  apply Count_one_Split in G. exact G.
Qed.

(** C1 (counterexample): a room bound to the key "/widgets", whose owner
    segment is empty, still has that key in its repo list. *)
Lemma repoList_keeps_empty_owner :
  ~ repoList_drops_keys_without_two_nonempty_segments.
Proof.
  intros H.
  apply (H (Sim.service [("!r1", Sim.room [("/widgets", ["push"])])]) "/widgets").
  - exists "!r1", (Sim.room [("/widgets", ["push"])]), {| Events := ["push"] |}.
    simpl. auto.
  - intros (owner & name & Hs & Ho & _). simpl in Hs. injection Hs as <- _.
    now apply Ho.
  - simpl. auto.
Qed.

(** C1 (amended): [repoList] always returns; its result has no duplicates
    and holds exactly the keys, over all rooms, that contain one "/"; every
    other key is left out and reported by a "Bad owner/repo key in config"
    line, and nothing else is logged.  A key with one "/" is kept also when
    one of its segments is empty. *)
Theorem repoList_union_of_keys_with_one_slash (s : githubWebhookService) :
  NoDup (fst (repoList s))
  /\ (forall k, In k (fst (repoList s)) <->
                repo_key s k /\ strings.Count k slash = 1)
  /\ (forall k, repo_key s k -> strings.Count k slash <> 1 ->
                ~ In k (fst (repoList s))
                /\ In (bad_key_diagnostic k) (snd (repoList s)))
  /\ (forall e, In e (snd (repoList s)) ->
                exists k, e = bad_key_diagnostic k /\ repo_key s k
                          /\ strings.Count k slash <> 1).
Proof.
  split; [apply repoList_NoDup|]. split; [apply repoList_In|]. split.
  - intros k Hk Hbad. split.
    + intros H. apply repoList_In in H. now destruct H.
    + apply repoList_diagnostics. exists k. auto.
  - intros e H. now apply repoList_diagnostics.
Qed.

(** ** Running a computation *)

Lemma bind_ret_l {W A B} (a : A) (f : A -> M W B) (w : W) :
  bind (ret a) f w = f a w.
Proof. unfold bind, ret. now destruct (f a w) as [[o w2] t2]. Qed.

Lemma bind_done {W A B} (m : M W A) (f : A -> M W B) (w w1 : W) (a : A)
      (t1 : list event) :
  m w = (Done a, w1, t1) ->
  bind m f w = (result_of (f a w1), world_of (f a w1), t1 ++ trace_of (f a w1)).
Proof.
  intros H. unfold bind. rewrite H. now destruct (f a w1) as [[o w2] t2].
Qed.

Lemma bind_log {W B} (lvl : level) (msg : string) (fields : list (string * string))
      (f : unit -> M W B) (w : W) :
  bind (log lvl msg fields) f w
  = (result_of (f tt w), world_of (f tt w), Logged lvl msg fields :: trace_of (f tt w)).
Proof. unfold bind, log. now destruct (f tt w) as [[o w2] t2]. Qed.

Lemma bind_emit {W A B} (v : logged A) (f : A -> M W B) (w : W) :
  bind (emit v) f w
  = (result_of (f (fst v) w), world_of (f (fst v) w), snd v ++ trace_of (f (fst v) w)).
Proof. unfold bind, emit. now destruct (f (fst v) w) as [[o w2] t2]. Qed.

Lemma bind_panicked {W A B} (m : M W A) (f : A -> M W B) (w w1 : W) (p : panic)
      (t1 : list event) :
  m w = (Panicked p, w1, t1) -> bind m f w = (Panicked p, w1, t1).
Proof. intros H. unfold bind. now rewrite H. Qed.

Lemma run_eta {W A} (r : outcome A * W * list event) :
  r = (result_of r, world_of r, trace_of r).
Proof. now destruct r as [[o w] t]. Qed.

Lemma result_of_mk {W A} (o : outcome A) (w : W) (t : list event) :
  result_of (o, w, t) = o.
Proof. reflexivity. Qed.

Lemma world_of_mk {W A} (o : outcome A) (w : W) (t : list event) :
  world_of (o, w, t) = w.
Proof. reflexivity. Qed.

Lemma trace_of_mk {W A} (o : outcome A) (w : W) (t : list event) :
  trace_of (o, w, t) = t.
Proof. reflexivity. Qed.

Create Rewrite HintDb run.
#[local] Hint Rewrite @result_of_mk @world_of_mk @trace_of_mk : run.

Lemma run_done {W A} (r : outcome A * W * list event) (a : A) :
  result_of r = Done a -> r = (Done a, world_of r, trace_of r).
Proof. destruct r as [[o w] t]. unfold result_of. simpl. now intros ->. Qed.

Lemma run_panicked {W A} (r : outcome A * W * list event) (p : panic) :
  result_of r = Panicked p -> r = (Panicked p, world_of r, trace_of r).
Proof. destruct r as [[o w] t]. unfold result_of. simpl. now intros ->. Qed.

Arguments bind_done {W A B} m f {w w1 a t1} _.
Arguments bind_panicked {W A B} m f {w w1 p t1} _.

(** ** Traces *)

Lemma calls_app (t1 t2 : list event) : calls (t1 ++ t2) = calls t1 ++ calls t2.
Proof. apply filter_app. Qed.

Lemma calls_all_logs (t : list event) :
  (forall e, In e t -> is_log e = true) -> calls t = [].
Proof.
  induction t as [|e t IH]; intros H; [reflexivity|].
  unfold calls in *. simpl. rewrite (H e (or_introl eq_refl)). simpl.
  apply IH. intros e' He'. apply H. now right.
Qed.

Lemma In_calls (e : event) (t : list event) :
  In e (calls t) <-> In e t /\ is_log e = false.
Proof.
  unfold calls. rewrite filter_In. now destruct (is_log e).
Qed.

Lemma repoList_logs_only (s : githubWebhookService) : calls (snd (repoList s)) = [].
Proof.
  apply calls_all_logs. intros e H.
  apply repoList_diagnostics in H. now destruct H as (k & -> & _).
Qed.

(** ** Hook deletion *)

(** The loop of [deleteHook] stops at the first hook whose "url" is the
    endpoint, panics at a nil entry before it, and only logs. *)
Lemma find_hook_find (s : githubWebhookService) (logger : list (string * string))
      (hooks : list (option Hook)) :
  fst (find_hook s logger hooks)
  = match find (stops_at s) hooks with
    | Some (Some h) => Done (Some h)
    | Some None => Panicked NilPointer
    | None => Done None
    end
  /\ calls (snd (find_hook s logger hooks)) = [].
Proof.
  induction hooks as [|[h|] hooks [IH1 IH2]]; simpl; [auto| |auto].
  unfold points_here at 1.
  destruct (index_iface (Config h) "url") as [|u| |]; simpl.
  - destruct (find_hook s logger hooks); simpl in *. auto.
  - destruct (String.eqb u (webhookEndpointURL s)); simpl; auto.
  - destruct (find_hook s logger hooks); simpl in *. auto.
  - destruct (find_hook s logger hooks); simpl in *. auto.
Qed.

Section Deletion.

Context {W : Type} (E : Env W).

Variables (s : githubWebhookService) (owner repo : string) (w : W).

Let r := deleteHook E s owner repo w.
Let tok := fst (fst (getTokenForUser E (RealmID s) (ClientUserID s) w)).
Let w1 := snd (getTokenForUser E (RealmID s) (ClientUserID s) w).
Let cli := {| token := tok |}.
Let hooks := fst (fst (ListHooks E cli owner repo w1)).
Let lerr := snd (fst (ListHooks E cli owner repo w1)).
Let w2 := snd (ListHooks E cli owner repo w1).

(** Without a token nothing is listed or deleted. *)
Lemma deleteHook_no_client :
  tok = "" ->
  result_of r = Done (Some (Errorf "no authenticated client exists for user ID"))
  /\ world_of r = w1
  /\ calls (trace_of r) = [CallGetTokenForUser (RealmID s) (ClientUserID s)].
Proof.
  subst r tok w1. unfold deleteHook, githubClientFor, bind, call, emit, log, ret.
  destruct (getTokenForUser E (RealmID s) (ClientUserID s) w) as [[t e] w'].
  simpl. intros ->. simpl. destruct e; simpl; auto.
Qed.

(** A failed listing is passed on. *)
Lemma deleteHook_list_failed (e : collab_error) :
  tok <> "" -> lerr = Some e ->
  result_of r = Done (Some (Collab e))
  /\ world_of r = w2
  /\ calls (trace_of r) = [CallGetTokenForUser (RealmID s) (ClientUserID s);
                           CallListHooks owner repo].
Proof.
  subst r hooks lerr w2 cli tok w1.
  unfold deleteHook, githubClientFor, bind, call, emit, log, ret.
  destruct (getTokenForUser E (RealmID s) (ClientUserID s) w) as [[t e0] w'].
  simpl. intros Ht. apply String.eqb_neq in Ht.
  destruct e0; simpl; rewrite Ht; simpl;
  destruct (ListHooks E {| token := t |} owner repo w') as [[hs le] w''];
  simpl; intros ->; simpl; auto.
Qed.

(** The run after a listing, by what the loop over the listing gave. *)
Lemma deleteHook_listed :
  tok <> "" -> lerr = None ->
  let get := CallGetTokenForUser (RealmID s) (ClientUserID s) in
  match fst (find_hook s (deleteHook_logger s owner repo) hooks) with
  | Done (Some h) =>
      match ID h with
      | Some hookID =>
          result_of r = Done (as_error (fst (DeleteHook E cli owner repo hookID w2)))
          /\ world_of r = snd (DeleteHook E cli owner repo hookID w2)
          /\ calls (trace_of r)
             = [get; CallListHooks owner repo; CallDeleteHook owner repo hookID]
      | None =>
          result_of r = Panicked NilPointer
          /\ world_of r = w2
          /\ calls (trace_of r) = [get; CallListHooks owner repo]
      end
  | Done None =>
      result_of r = Done (Some (Errorf ("Failed to find hook with endpoint: "
                                        ++ webhookEndpointURL s)%string))
      /\ world_of r = w2
      /\ calls (trace_of r) = [get; CallListHooks owner repo]
  | Panicked p =>
      result_of r = Panicked p
      /\ world_of r = w2
      /\ calls (trace_of r) = [get; CallListHooks owner repo]
  end.
Proof.
  subst r hooks lerr w2 cli tok w1.
  unfold deleteHook, githubClientFor, bind, call, emit, emit_run, log, ret.
  destruct (getTokenForUser E (RealmID s) (ClientUserID s) w) as [[t e0] w'].
  simpl. intros Ht. apply String.eqb_neq in Ht.
  destruct e0; simpl; rewrite Ht; simpl;
  destruct (ListHooks E {| token := t |} owner repo w') as [[hs le] w''];
  simpl; intros ->;
  destruct (find_hook_find s (deleteHook_logger s owner repo) hs) as [_ F2];
  destruct (find_hook s (deleteHook_logger s owner repo) hs) as [[[fh|]|p] ft];
  simpl in *;
  try (destruct (ID fh) as [hookID|]; simpl;
       [destruct (DeleteHook E {| token := t |} owner repo hookID w'') as [de w3]|]);
  simpl; repeat split;
    unfold calls in *; simpl; rewrite ?filter_app, ?F2, ?app_nil_r; reflexivity.
Qed.

(** No hook points at the endpoint: a not-found error and no delete call. *)
Lemma deleteHook_not_found :
  tok <> "" -> lerr = None -> find (stops_at s) hooks = None ->
  result_of r = Done (Some (Errorf ("Failed to find hook with endpoint: "
                                    ++ webhookEndpointURL s)%string))
  /\ world_of r = w2
  /\ calls (trace_of r) = [CallGetTokenForUser (RealmID s) (ClientUserID s);
                           CallListHooks owner repo].
Proof.
  intros Ht Hl Hf. pose proof (deleteHook_listed Ht Hl) as H. cbv zeta in H.
  destruct (find_hook_find s (deleteHook_logger s owner repo) hooks) as [F _].
  rewrite Hf in F. rewrite F in H. exact H.
Qed.

(** The first hook pointing at the endpoint is deleted, by its id. *)
Lemma deleteHook_found (h : Hook) (hookID : Z) :
  tok <> "" -> lerr = None -> find (stops_at s) hooks = Some (Some h) ->
  ID h = Some hookID ->
  result_of r = Done (as_error (fst (DeleteHook E cli owner repo hookID w2)))
  /\ world_of r = snd (DeleteHook E cli owner repo hookID w2)
  /\ calls (trace_of r) = [CallGetTokenForUser (RealmID s) (ClientUserID s);
                           CallListHooks owner repo;
                           CallDeleteHook owner repo hookID].
Proof.
  intros Ht Hl Hf Hid. pose proof (deleteHook_listed Ht Hl) as H. cbv zeta in H.
  destruct (find_hook_find s (deleteHook_logger s owner repo) hooks) as [F _].
  rewrite Hf in F. rewrite F, Hid in H. exact H.
Qed.

(** The first hook pointing at the endpoint has no id: reading the id
    panics, before any delete call. *)
Lemma deleteHook_no_id (h : Hook) :
  tok <> "" -> lerr = None -> find (stops_at s) hooks = Some (Some h) ->
  ID h = None ->
  result_of r = Panicked NilPointer
  /\ world_of r = w2
  /\ calls (trace_of r) = [CallGetTokenForUser (RealmID s) (ClientUserID s);
                           CallListHooks owner repo].
Proof.
  intros Ht Hl Hf Hid. pose proof (deleteHook_listed Ht Hl) as H. cbv zeta in H.
  destruct (find_hook_find s (deleteHook_logger s owner repo) hooks) as [F _].
  rewrite Hf in F. rewrite F, Hid in H. exact H.
Qed.

(** A nil entry before any hook pointing at the endpoint: reading its
    config panics. *)
Lemma deleteHook_nil_entry :
  tok <> "" -> lerr = None -> find (stops_at s) hooks = Some None ->
  result_of r = Panicked NilPointer
  /\ world_of r = w2
  /\ calls (trace_of r) = [CallGetTokenForUser (RealmID s) (ClientUserID s);
                           CallListHooks owner repo].
Proof.
  intros Ht Hl Hf. pose proof (deleteHook_listed Ht Hl) as H. cbv zeta in H.
  destruct (find_hook_find s (deleteHook_logger s owner repo) hooks) as [F _].
  rewrite Hf in F. rewrite F in H. exact H.
Qed.

(** The first event of [deleteHook] is ["Removing hook"]. *)
Lemma deleteHook_starts :
  exists t, trace_of r = removing_hook s owner repo :: t.
Proof.
  subst r. unfold deleteHook, emit. rewrite bind_done with (w1 := w) (a := tt)
    (t1 := [removing_hook s owner repo]) by reflexivity.
  simpl. eauto.
Qed.

(** [deleteHook] returns, or panics on a nil pointer. *)
Lemma deleteHook_result :
  (exists err, result_of r = Done err) \/ result_of r = Panicked NilPointer.
Proof.
  destruct (string_dec tok "") as [Ht|Ht].
  - left. destruct (deleteHook_no_client Ht) as (H & _). eauto.
  - destruct lerr as [e|] eqn:Hl.
    + left. destruct (deleteHook_list_failed Ht Hl) as (H & _). eauto.
    + destruct (find (stops_at s) hooks) as [[h|]|] eqn:Hf.
      * destruct (ID h) as [hookID|] eqn:Hid.
        -- left. destruct (deleteHook_found Ht Hl Hf Hid) as (H & _). eauto.
        -- right. now destruct (deleteHook_no_id Ht Hl Hf Hid).
      * right. now destruct (deleteHook_nil_entry Ht Hl Hf).
      * left. destruct (deleteHook_not_found Ht Hl Hf) as (H & _). eauto.
Qed.

(** With listings of hooks that carry their ids, [deleteHook] returns. *)
Lemma deleteHook_returns :
  lists_hooks_with_ids E -> exists err, result_of r = Done err.
Proof.
  intros Hids.
  destruct (string_dec tok "") as [Ht|Ht].
  - destruct (deleteHook_no_client Ht) as (H & _). eauto.
  - destruct lerr as [e|] eqn:Hl.
    + destruct (deleteHook_list_failed Ht Hl) as (H & _). eauto.
    + pose proof (Hids cli owner repo w1) as Hall. fold hooks in Hall.
      rewrite Forall_forall in Hall.
      destruct (find (stops_at s) hooks) as [[h|]|] eqn:Hf.
      * destruct (Hall _ (proj1 (find_some _ _ Hf))) as (h' & hookID & Hh & Hid).
        injection Hh as <-.
        destruct (deleteHook_found Ht Hl Hf Hid) as (H & _). eauto.
      * destruct (Hall _ (proj1 (find_some _ _ Hf))) as (h' & hookID & Hh & _).
        discriminate.
      * destruct (deleteHook_not_found Ht Hl Hf) as (H & _). eauto.
Qed.

End Deletion.

Lemma points_here_iff (s : githubWebhookService) (h : Hook) :
  points_here s h = true <->
  index_iface (Config h) "url" = istring (webhookEndpointURL s).
Proof.
  unfold points_here. destruct (index_iface (Config h) "url"); split;
    try discriminate.
  - intros H. apply String.eqb_eq in H. now subst.
  - intros H. injection H as ->. apply String.eqb_refl.
Qed.

(** C7: [deleteHook] first resolves the client.  Without a token it returns
    the "no authenticated client" error and neither lists nor deletes.
    With a token it lists the repo's hooks; once listed, it stops at the
    first hook whose config "url" is a string equal to the endpoint (a hook
    whose "url" is missing or not a string never qualifies).  When that hook
    carries an id it is deleted by its id and the provider's answer is
    returned; if no hook qualifies the "Failed to find hook" error is
    returned without a delete call.  When the selected hook has no id, or a
    nil entry of the listing comes before any qualifying hook, the call
    panics on the nil pointer after the listing: the selected hook is not
    deleted and no error is returned. *)
Theorem deleteHook_by_endpoint {W : Type} (E : Env W)
        (s : githubWebhookService) (owner repo : string) (w : W) :
  let r := deleteHook E s owner repo w in
  let tok := fst (fst (getTokenForUser E (RealmID s) (ClientUserID s) w)) in
  let w1 := snd (getTokenForUser E (RealmID s) (ClientUserID s) w) in
  let cli := {| token := tok |} in
  let hooks := fst (fst (ListHooks E cli owner repo w1)) in
  let lerr := snd (fst (ListHooks E cli owner repo w1)) in
  let w2 := snd (ListHooks E cli owner repo w1) in
  let get := CallGetTokenForUser (RealmID s) (ClientUserID s) in
  (tok = "" ->
   result_of r = Done (Some (Errorf "no authenticated client exists for user ID"))
   /\ calls (trace_of r) = [get])
  /\ (tok <> "" -> lerr = None ->
      match find (stops_at s) hooks with
      | Some (Some h) =>
          match ID h with
          | Some hookID =>
              result_of r
              = Done (as_error (fst (DeleteHook E cli owner repo hookID w2)))
              /\ calls (trace_of r)
                 = [get; CallListHooks owner repo; CallDeleteHook owner repo hookID]
          | None =>
              result_of r = Panicked NilPointer
              /\ calls (trace_of r) = [get; CallListHooks owner repo]
          end
      | Some None =>
          result_of r = Panicked NilPointer
          /\ calls (trace_of r) = [get; CallListHooks owner repo]
      | None =>
          result_of r = Done (Some (Errorf ("Failed to find hook with endpoint: "
                                            ++ webhookEndpointURL s)%string))
          /\ calls (trace_of r) = [get; CallListHooks owner repo]
      end)
  /\ (forall h, points_here s h = true <->
                index_iface (Config h) "url" = istring (webhookEndpointURL s)).
Proof.
  cbv zeta. split; [|split].
  - intros H. destruct (deleteHook_no_client E s owner repo w H) as (? & ? & ?).
    auto.
  - intros Ht Hl.
    destruct (find (stops_at s) _) as [[h|]|] eqn:Hf.
    + destruct (ID h) as [hookID|] eqn:Hid.
      * destruct (deleteHook_found E s owner repo w Ht Hl Hf Hid) as (? & ? & ?).
        auto.
      * destruct (deleteHook_no_id E s owner repo w Ht Hl Hf Hid) as (? & ? & ?).
        auto.
    + destruct (deleteHook_nil_entry E s owner repo w Ht Hl Hf) as (? & ? & ?). auto.
    + destruct (deleteHook_not_found E s owner repo w Ht Hl Hf) as (? & ? & ?). auto.
  - apply points_here_iff.
Qed.

(** ** Routing of a delivery *)

Section Routing.

Context {W : Type} (E : Env W).

Variables (logger : list (string * string)) (evType fullName : string) (msg : Content).

Lemma route_room_spec (roomID : string) (repos : gomap string RepoConfig) :
  forall (b : bool) (w : W),
    let r := route_room E logger evType fullName msg roomID repos b w in
    result_of r = Done (b || existsb (fun x => EqualFold E fullName (fst x)) repos)
    /\ calls (trace_of r) = room_sends (EqualFold E) evType fullName msg roomID repos
    /\ filter is_attempt (trace_of r) = [].
Proof.
  induction repos as [|[ownerRepo repoConfig] repos IH]; intros b w; simpl.
  - unfold ret, result_of, trace_of. simpl. now rewrite orb_false_r.
  - unfold room_sends. simpl.
    destruct (EqualFold E fullName ownerRepo) eqn:Ef; simpl; [|apply IH].
    unfold bind, log, call, ret.
    destruct (notifies evType (Events repoConfig)) eqn:En; simpl.
    + destruct (SendMessageEvent E roomID "m.room.message" msg w) as [[e|] w1];
        simpl;
        destruct (IH true w1) as (I1 & I2 & I3);
        destruct (route_room E logger evType fullName msg roomID repos true w1)
          as [[o w2] t2];
        unfold result_of, trace_of in *; simpl in *; subst o;
        rewrite orb_true_r; (split; [reflexivity|]);
        unfold calls in *; simpl; now rewrite I2, I3.
    + destruct (IH true w) as (I1 & I2 & I3).
      destruct (route_room E logger evType fullName msg roomID repos true w)
        as [[o w2] t2].
      unfold result_of, trace_of in *. simpl in *. subst o.
      rewrite orb_true_r. auto.
Qed.

Lemma route_rooms_spec (rooms : gomap string RoomConfig) :
  forall (b : bool) (w : W),
    let r := route_rooms E logger evType fullName msg rooms b w in
    result_of r = Done (b || referenced (EqualFold E) fullName rooms)
    /\ calls (trace_of r) = expected_sends (EqualFold E) evType fullName msg rooms
    /\ filter is_attempt (trace_of r) = [].
Proof.
  induction rooms as [|[roomID roomConfig] rooms IH]; intros b w; simpl.
  - unfold ret, result_of, trace_of. simpl. now rewrite orb_false_r.
  - unfold bind.
    destruct (route_room_spec roomID (Repos roomConfig) b w) as (R1 & R2 & R3).
    destruct (route_room E logger evType fullName msg roomID (Repos roomConfig) b w)
      as [[o w1] t1].
    unfold result_of, trace_of in R1, R2, R3. simpl in R1, R2, R3. subst o.
    destruct (IH (b || existsb (fun x => EqualFold E fullName (fst x))
                               (Repos roomConfig)) w1) as (I1 & I2 & I3).
    destruct (route_rooms E logger evType fullName msg rooms _ w1) as [[o w2] t2].
    unfold result_of, trace_of in *. simpl in *. subst o.
    split; [now rewrite orb_assoc|]. split.
    + now rewrite calls_app, R2, I2.
    + now rewrite filter_app, R3, I3.
Qed.

End Routing.

Lemma In_room_sends fold evType fullName msg roomID repos e :
  In e (room_sends fold evType fullName msg roomID repos) <->
  e = CallSendMessageEvent roomID "m.room.message" msg
  /\ exists ownerRepo repoConfig,
      In (ownerRepo, repoConfig) repos
      /\ fold fullName ownerRepo = true
      /\ In evType (Events repoConfig).
Proof.
  unfold room_sends. rewrite in_map_iff. split.
  - intros ([k rc] & <- & H). apply filter_In in H. destruct H as [H1 H2].
    simpl in H2. apply andb_prop in H2. destruct H2 as [H2 H3].
    split; [reflexivity|]. exists k, rc. repeat split; auto.
    unfold notifies in H3. apply existsb_eqb_In' in H3. exact H3.
  - intros (-> & k & rc & H1 & H2 & H3). exists (k, rc). split; [reflexivity|].
    apply filter_In. split; [assumption|]. simpl. rewrite H2. simpl.
    unfold notifies. now apply existsb_eqb_In'.
Qed.

Lemma In_expected_sends fold evType fullName msg (s : githubWebhookService) e :
  In e (expected_sends fold evType fullName msg (Rooms s)) <->
  exists roomID, e = CallSendMessageEvent roomID "m.room.message" msg
                 /\ subscribed fold s roomID evType fullName.
Proof.
  unfold expected_sends, subscribed. rewrite in_flat_map. split.
  - intros ([roomID rc] & H1 & H2). apply In_room_sends in H2. simpl in H2.
    destruct H2 as (-> & k & c & H2 & H3 & H4).
    exists roomID. split; [reflexivity|]. exists rc, k, c. auto.
  - intros (roomID & -> & rc & k & c & H1 & H2 & H3 & H4).
    exists (roomID, rc). split; [assumption|]. apply In_room_sends. simpl.
    split; [reflexivity|]. exists k, c. auto.
Qed.

Lemma referenced_iff fold fullName (s : githubWebhookService) :
  referenced fold fullName (Rooms s) = true <->
  exists roomID roomConfig ownerRepo repoConfig,
    In (roomID, roomConfig) (Rooms s)
    /\ In (ownerRepo, repoConfig) (Repos roomConfig)
    /\ fold fullName ownerRepo = true.
Proof.
  unfold referenced. rewrite existsb_exists. split.
  - intros ([roomID rc] & H1 & H2). apply existsb_exists in H2.
    destruct H2 as ([k c] & H2 & H3). exists roomID, rc, k, c. auto.
  - intros (roomID & rc & k & c & H1 & H2 & H3). exists (roomID, rc).
    split; [assumption|]. apply existsb_exists. exists (k, c). auto.
Qed.

Lemma find_hook_no_attempt (s : githubWebhookService) (logger : list (string * string))
      (hooks : list (option Hook)) :
  filter is_attempt (snd (find_hook s logger hooks)) = [].
Proof.
  induction hooks as [|[h|] hooks IH]; simpl; [reflexivity| |reflexivity].
  destruct (index_iface (Config h) "url") as [|u| |]; simpl.
  - destruct (find_hook s logger hooks); simpl in *. exact IH.
  - destruct (String.eqb u (webhookEndpointURL s)); simpl; auto.
  - destruct (find_hook s logger hooks); simpl in *. exact IH.
  - destruct (find_hook s logger hooks); simpl in *. exact IH.
Qed.

(** One call of [deleteHook] logs one "Removing hook" line. *)
Lemma deleteHook_one_attempt {W : Type} (E : Env W) (s : githubWebhookService)
      (owner repo : string) (w : W) :
  filter is_attempt (trace_of (deleteHook E s owner repo w))
  = [removing_hook s owner repo].
Proof.
  unfold deleteHook, githubClientFor, bind, call, emit, emit_run, log, ret, deref,
    trace_of.
  destruct (getTokenForUser E (RealmID s) (ClientUserID s) w) as [[t e0] w'].
  destruct e0; simpl;
    (destruct (String.eqb t ""); simpl; [reflexivity|];
     destruct (ListHooks E {| token := t |} owner repo w') as [[hs [le|]] w''];
     simpl; [reflexivity|];
     pose proof (find_hook_no_attempt s (deleteHook_logger s owner repo) hs) as F;
     destruct (find_hook s (deleteHook_logger s owner repo) hs) as [[[fh|]|p] ft];
     simpl in *;
     [ destruct (ID fh) as [hookID|]; simpl;
       [ destruct (DeleteHook E {| token := t |} owner repo hookID w'') as [de w3];
         simpl |];
       rewrite ?filter_app, ?app_nil_r, F; reflexivity
     | rewrite ?filter_app, ?app_nil_r, F; reflexivity
     | rewrite F; reflexivity ]).
Qed.

Section Delivery.

Context {W : Type} (E : Env W).

Variables (s : githubWebhookService) (req : Request) (w : W).
Variables (evType fullName : string) (msg : Content).

Hypothesis verified :
  OnReceiveRequest E req (SecretToken s)
  = inr (evType, Some {| FullName := Some fullName |}, msg).

Let logger := [("event", evType); ("repo", fullName)].
Let rr := route_rooms E logger evType fullName msg (Rooms s) false w.
Let r := OnReceiveWebhook E s req w.

Lemma route_room_unreferenced (lg : list (string * string)) (roomID : string)
      (repos : gomap string RepoConfig) (b : bool) (w0 : W) :
  existsb (fun x => EqualFold E fullName (fst x)) repos = false ->
  route_room E lg evType fullName msg roomID repos b w0 = (Done b, w0, []).
Proof.
  induction repos as [|[k c] repos IH]; simpl; [reflexivity|].
  intros H. apply orb_false_elim in H. destruct H as [H1 H2].
  rewrite H1. simpl. now apply IH.
Qed.

Lemma route_rooms_unreferenced (lg : list (string * string))
      (rooms : gomap string RoomConfig) (b : bool) (w0 : W) :
  referenced (EqualFold E) fullName rooms = false ->
  route_rooms E lg evType fullName msg rooms b w0 = (Done b, w0, []).
Proof.
  induction rooms as [|[roomID rc] rooms IH]; simpl; [reflexivity|].
  intros H. apply orb_false_elim in H. destruct H as [H1 H2].
  unfold bind. rewrite (route_room_unreferenced _ _ _ _ _ H1).
  rewrite (IH H2). reflexivity.
Qed.

(** With a full name at hand the handler goes on to the rooms. *)
Lemma OnReceiveWebhook_verified :
  r = (repoExistsInConfig <- route_rooms E logger evType fullName msg (Rooms s) false ;;
       if negb repoExistsInConfig then
         let segs := strings.Split fullName slash in
         if negb (Nat.eqb (length segs) 2) then
           log ErrorLevel "Received event with malformed owner/repo." logger ;;
           WriteHeader 400
         else
           owner <- index segs 0 ;;
           name <- index segs 1 ;;
           err <- deleteHook E s owner name ;;
           (match err with
            | Some _ => log PrintLevel "Failed to delete webhook" logger
            | None => log InfoLevel "Deleted webhook" logger
            end) ;;
           WriteHeader 200
       else WriteHeader 200) w.
Proof.
  subst r logger. unfold OnReceiveWebhook. rewrite verified.
  cbn [deref]. rewrite bind_ret_l. cbn [deref FullName]. rewrite bind_ret_l.
  reflexivity.
Qed.

(** A delivery for a repo some binding names: the sends, then 200. *)
Lemma OnReceiveWebhook_referenced :
  referenced (EqualFold E) fullName (Rooms s) = true ->
  result_of r = Done tt
  /\ world_of r = world_of rr
  /\ trace_of r = trace_of rr ++ [CallWriteHeader 200].
Proof.
  intros Href. rewrite OnReceiveWebhook_verified. subst rr logger.
  cbv zeta. unfold bind.
  destruct (route_rooms_spec E [("event", evType); ("repo", fullName)]
                             evType fullName msg (Rooms s) false w) as (R1 & _).
  destruct (route_rooms E _ evType fullName msg (Rooms s) false w)
    as [[o w1] t1].
  unfold result_of in R1. simpl in R1. rewrite Href in R1. simpl in R1. subst o.
  simpl. auto.
Qed.

(** A delivery for a repo no binding names, whose full name does not split
    in two: 400 and nothing else. *)
Lemma OnReceiveWebhook_malformed :
  referenced (EqualFold E) fullName (Rooms s) = false ->
  length (strings.Split fullName slash) <> 2 ->
  r = (Done tt, w,
       [Logged ErrorLevel "Received event with malformed owner/repo." logger;
        CallWriteHeader 400]).
Proof.
  intros Href Hlen. rewrite OnReceiveWebhook_verified. subst rr logger.
  cbv zeta. unfold bind. rewrite (route_rooms_unreferenced _ _ _ _ Href). simpl.
  apply Nat.eqb_neq in Hlen. rewrite Hlen. reflexivity.
Qed.

(** A delivery for a repo no binding names, whose full name splits in two:
    one [deleteHook]; when it returns, a line on how it went, then 200; when
    it panics, nothing more. *)
Lemma OnReceiveWebhook_orphan (owner name : string) :
  referenced (EqualFold E) fullName (Rooms s) = false ->
  strings.Split fullName slash = [owner; name] ->
  let d := deleteHook E s owner name w in
  (forall err, result_of d = Done err ->
               exists line,
                 is_log line = true /\ is_attempt line = false
                 /\ r = (Done tt, world_of d,
                         trace_of d ++ [line; CallWriteHeader 200]))
  /\ (forall p, result_of d = Panicked p ->
                r = (Panicked p, world_of d, trace_of d)).
Proof.
  intros Href Hs d.
  assert (Hr : r = (err <- deleteHook E s owner name ;;
                    (match err with
                     | Some _ => log PrintLevel "Failed to delete webhook" logger
                     | None => log InfoLevel "Deleted webhook" logger
                     end) ;;
                    WriteHeader 200) w).
  { rewrite OnReceiveWebhook_verified. subst rr logger.
    cbv zeta. unfold bind at 1. rewrite (route_rooms_unreferenced _ _ _ _ Href).
    rewrite Hs. cbn [length Nat.eqb negb]. cbv iota.
    unfold index. cbn [nth_error]. rewrite !bind_ret_l.
    destruct (bind _ _ w) as [[o w'] t']. reflexivity. }
  rewrite Hr. subst d. unfold bind, log, WriteHeader.
  destruct (deleteHook E s owner name w) as [[o w1] t1].
  unfold result_of, world_of, trace_of. simpl. split.
  - intros err ->. destruct err; simpl; eexists;
      (split; [|split; [|reflexivity]]); reflexivity.
  - intros p ->. reflexivity.
Qed.

End Delivery.

(** A verified delivery without a repository, or without a full name: the
    handler panics on the nil pointer before it does anything. *)
Lemma OnReceiveWebhook_no_name {W : Type} (E : Env W) (s : githubWebhookService)
      (req : Request) (w : W) (evType : string) (repo : option Repository)
      (msg : Content) :
  OnReceiveRequest E req (SecretToken s) = inr (evType, repo, msg) ->
  delivered_name repo = None ->
  OnReceiveWebhook E s req w = (Panicked NilPointer, w, []).
Proof.
  intros Hv Hn. unfold OnReceiveWebhook. rewrite Hv.
  destruct repo as [[[fullName|]]|]; try discriminate; reflexivity.
Qed.

Lemma delivered_name_Some (repo : option Repository) (fullName : string) :
  delivered_name repo = Some fullName -> repo = Some {| FullName := Some fullName |}.
Proof.
  destruct repo as [[n]|]; simpl; [|discriminate]. now intros ->.
Qed.

Lemma filter_is_send_calls (t : list event) :
  filter is_send t = filter is_send (calls t).
Proof.
  induction t as [|e t IH]; [reflexivity|].
  unfold calls in *. simpl. destruct e; simpl; rewrite IH; reflexivity.
Qed.

Lemma expected_sends_all_sends fold evType fullName msg rooms :
  filter is_send (expected_sends fold evType fullName msg rooms)
  = expected_sends fold evType fullName msg rooms.
Proof.
  apply forallb_filter_id. apply forallb_forall. intros e H.
  unfold expected_sends in H. apply in_flat_map in H. destruct H as (room & _ & H).
  apply In_room_sends in H. now destruct H as (-> & _).
Qed.

(** The calls of one [deleteHook]: the token lookup, then at most a listing,
    then at most a delete. *)
Lemma deleteHook_calls_shape {W : Type} (E : Env W) (s : githubWebhookService)
      (owner repo : string) (w : W) :
  let t := calls (trace_of (deleteHook E s owner repo w)) in
  let get := CallGetTokenForUser (RealmID s) (ClientUserID s) in
  t = [get] \/ t = [get; CallListHooks owner repo]
  \/ exists hookID, t = [get; CallListHooks owner repo; CallDeleteHook owner repo hookID].
Proof.
  cbv zeta.
  set (tok := fst (fst (getTokenForUser E (RealmID s) (ClientUserID s) w))).
  set (w1 := snd (getTokenForUser E (RealmID s) (ClientUserID s) w)).
  destruct (string_dec tok "") as [Ht | Ht].
  - left. now apply deleteHook_no_client.
  - right.
    destruct (snd (fst (ListHooks E {| token := tok |} owner repo w1)))
      as [e|] eqn:Hl.
    + left. now apply (deleteHook_list_failed E s owner repo w Ht Hl).
    + destruct (find (stops_at s)
                     (fst (fst (ListHooks E {| token := tok |} owner repo w1))))
        as [[h|]|] eqn:Hf.
      * destruct (ID h) as [hookID|] eqn:Hid.
        -- right. exists hookID.
           now apply (deleteHook_found E s owner repo w Ht Hl Hf Hid).
        -- left. now apply (deleteHook_no_id E s owner repo w Ht Hl Hf Hid).
      * left. now apply (deleteHook_nil_entry E s owner repo w Ht Hl Hf).
      * left. now apply (deleteHook_not_found E s owner repo w Ht Hl Hf).
Qed.

Lemma deleteHook_no_sends {W : Type} (E : Env W) (s : githubWebhookService)
      (owner repo : string) (w : W) :
  filter is_send (trace_of (deleteHook E s owner repo w)) = [].
Proof.
  rewrite filter_is_send_calls.
  destruct (deleteHook_calls_shape E s owner repo w) as [H | [H | [i H]]];
    rewrite H; reflexivity.
Qed.

Lemma removing_hook_attempt (s : githubWebhookService) (r owner name : string) :
  strings.Split r slash = [owner; name] -> removing_hook s owner name = attempt s r.
Proof.
  intros H. apply Split_two in H. subst r. reflexivity.
Qed.

(** The run of the handler on an orphan whose full name splits in two, by
    the outcome of its [deleteHook]. *)
Lemma OnReceiveWebhook_orphan_run {W : Type} (E : Env W) (s : githubWebhookService)
      (req : Request) (w : W) (evType fullName : string) (msg : Content)
      (owner name : string) :
  OnReceiveRequest E req (SecretToken s)
  = inr (evType, Some {| FullName := Some fullName |}, msg) ->
  referenced (EqualFold E) fullName (Rooms s) = false ->
  strings.Split fullName slash = [owner; name] ->
  let r := OnReceiveWebhook E s req w in
  let d := deleteHook E s owner name w in
  filter is_send (trace_of r) = []
  /\ filter is_attempt (trace_of r) = [attempt s fullName]
  /\ (forall err, result_of d = Done err ->
                  result_of r = Done tt
                  /\ world_of r = world_of d
                  /\ calls (trace_of r) = calls (trace_of d) ++ [CallWriteHeader 200])
  /\ (forall p, result_of d = Panicked p ->
                result_of r = Panicked p
                /\ world_of r = world_of d
                /\ trace_of r = trace_of d).
Proof.
  intros Hv Href Hs r d.
  destruct (OnReceiveWebhook_orphan E s req w Hv Href Hs) as (Hdone & Hpanic).
  fold r d in Hdone, Hpanic.
  assert (Hd : filter is_send (trace_of d) = []
               /\ filter is_attempt (trace_of d) = [attempt s fullName]).
  { subst d. rewrite deleteHook_no_sends, deleteHook_one_attempt.
    now rewrite (removing_hook_attempt s fullName Hs). }
  destruct Hd as (Hd1 & Hd2).
  destruct (result_of d) as [err|p] eqn:Hres.
  - destruct (Hdone err eq_refl) as (line & L1 & L2 & Hr). rewrite Hr.
    autorewrite with run. rewrite !filter_app, Hd1, Hd2. simpl. rewrite L2.
    split; [|split; [reflexivity|split]].
    + destruct line; try discriminate. reflexivity.
    + intros err' _. repeat split.
      rewrite calls_app. unfold calls at 2. simpl. now rewrite L1.
    + intros p Hp. discriminate.
  - rewrite (Hpanic p eq_refl). autorewrite with run.
    split; [exact Hd1|]. split; [exact Hd2|]. split.
    + intros err Herr. discriminate.
    + intros p' Hp'. injection Hp' as <-. auto.
Qed.

(** C2: for a delivery that passed verification, the sends of the handler
    are those due by the configuration alone, whatever each send returns:
    a room is sent the notification exactly when it holds a binding whose
    key folds to the delivered full name and whose events hold the delivered
    type.  When some binding names the repo but none subscribes to the
    type, the handler sends nothing, makes no delete attempt and answers
    200.  (A delivery that carries no full name is sent to no room.) *)
Theorem OnReceiveWebhook_notifies_subscribed_rooms {W : Type} (E : Env W)
        (s : githubWebhookService) (req : Request) (w : W)
        (evType : string) (repo : option Repository) (msg : Content) :
  OnReceiveRequest E req (SecretToken s) = inr (evType, repo, msg) ->
  let r := OnReceiveWebhook E s req w in
  let fold := EqualFold E in
  (forall fullName,
      delivered_name repo = Some fullName ->
      filter is_send (trace_of r) = expected_sends fold evType fullName msg (Rooms s)
      /\ (forall roomID ev m,
             In (CallSendMessageEvent roomID ev m) (trace_of r) <->
             ev = "m.room.message" /\ m = msg
             /\ subscribed fold s roomID evType fullName)
      /\ (referenced fold fullName (Rooms s) = true ->
          (forall roomID, ~ subscribed fold s roomID evType fullName) ->
          result_of r = Done tt
          /\ calls (trace_of r) = [CallWriteHeader 200]
          /\ filter is_attempt (trace_of r) = []))
  /\ (delivered_name repo = None -> trace_of r = []).
Proof.
  intros Hv0 r fold. split;
    [|intros Hn; subst r; now rewrite (OnReceiveWebhook_no_name E s req w Hv0 Hn)].
  intros fullName Hname.
  pose proof Hv0 as Hv. rewrite (delivered_name_Some _ Hname) in Hv.
  assert (Hsends : filter is_send (trace_of r)
                   = expected_sends fold evType fullName msg (Rooms s)).
  { destruct (referenced fold fullName (Rooms s)) eqn:Href.
    - destruct (OnReceiveWebhook_referenced E s req w Hv Href) as (_ & _ & Ht).
      fold r in Ht. rewrite Ht, filter_app. simpl. rewrite app_nil_r.
      rewrite filter_is_send_calls.
      destruct (route_rooms_spec E [("event", evType); ("repo", fullName)]
                  evType fullName msg (Rooms s) false w) as (_ & R2 & _).
      rewrite R2. apply expected_sends_all_sends.
    - assert (Hnone : expected_sends fold evType fullName msg (Rooms s) = []).
      { destruct (route_rooms_spec E [] evType fullName msg (Rooms s) false w)
          as (_ & R2 & _).
        rewrite (route_rooms_unreferenced E evType fullName msg _ _ _ _ Href) in R2.
        symmetry. exact R2. }
      rewrite Hnone.
      destruct (Nat.eq_dec (length (strings.Split fullName slash)) 2)
        as [Hl | Hl].
      + destruct (strings.Split fullName slash) as [|o [|n [|? ?]]] eqn:Hs;
          try discriminate.
        now destruct (OnReceiveWebhook_orphan_run E s req w Hv Href Hs) as (H & _).
      + pose proof (OnReceiveWebhook_malformed E s req w Hv Href Hl) as Hr.
        fold r in Hr. rewrite Hr. reflexivity. }
  split; [exact Hsends|]. split.
  - intros roomID ev m.
    assert (Hin : In (CallSendMessageEvent roomID ev m) (trace_of r) <->
                  In (CallSendMessageEvent roomID ev m) (filter is_send (trace_of r))).
    { rewrite filter_In. simpl. tauto. }
    rewrite Hin, Hsends, In_expected_sends. split.
    + intros (room' & Heq & Hsub). injection Heq as -> -> ->. auto.
    + intros (-> & -> & Hsub). exists roomID. auto.
  - intros Href Hnone.
    destruct (OnReceiveWebhook_referenced E s req w Hv Href) as (Hres & _ & Ht).
    fold r in Hres, Ht.
    destruct (route_rooms_spec E [("event", evType); ("repo", fullName)]
                evType fullName msg (Rooms s) false w) as (_ & R2 & R3).
    assert (Hexp : expected_sends fold evType fullName msg (Rooms s) = []).
    { destruct (expected_sends fold evType fullName msg (Rooms s))
        as [|e l] eqn:He; [reflexivity|].
      assert (Hi : In e (expected_sends fold evType fullName msg (Rooms s)))
        by (rewrite He; now left).
      apply In_expected_sends in Hi. destruct Hi as (roomID & _ & Hsub).
      now destruct (Hnone roomID). }
    split; [exact Hres|]. rewrite Ht. split.
    + rewrite calls_app, R2. fold fold. rewrite Hexp. reflexivity.
    + rewrite filter_app, R3. reflexivity.
Qed.

(** C3 (counterexample): a delivery for "/ghost", which no binding names
    and whose owner segment is empty, is not answered 400: the handler
    attempts the delete and answers 200. *)
Lemma orphan_with_empty_owner_is_deleted :
  ~ orphan_guard_requires_nonempty_segments.
Proof.
  intros H.
  destruct (H Sim.world Sim.env (Sim.service []) (Sim.delivery "push" "/ghost")
              Sim.w0 "push" "/ghost" "push on /ghost"
              eq_refl eq_refl) as [H400 _].
  destruct H400 as [Hin _].
  - intros (owner & name & Hs & Ho & _). simpl in Hs. injection Hs as <- _.
    now apply Ho.
  - vm_compute in Hin. repeat (destruct Hin as [Hin | Hin]; [discriminate|]).
    exact Hin.
Qed.

(** C3 (amended): for a verified delivery whose repo no binding names, the
    handler looks only at the number of "/"-separated segments of the full
    name.  If there are not exactly two it answers 400 and makes no delete
    attempt.  If there are two, empty or not, it calls [deleteHook] once for
    them, and whenever that call returns, whatever it returns, it answers
    200; the call returns whenever the provider lists hooks with their ids.
    (If the call panics, the handler panics with it and answers nothing.) *)
Theorem OnReceiveWebhook_orphan_cleanup {W : Type} (E : Env W)
        (s : githubWebhookService) (req : Request) (w : W)
        (evType fullName : string) (msg : Content) :
  OnReceiveRequest E req (SecretToken s)
  = inr (evType, Some {| FullName := Some fullName |}, msg) ->
  referenced (EqualFold E) fullName (Rooms s) = false ->
  let r := OnReceiveWebhook E s req w in
  let segs := strings.Split fullName slash in
  (length segs <> 2 ->
   result_of r = Done tt
   /\ calls (trace_of r) = [CallWriteHeader 400]
   /\ filter is_attempt (trace_of r) = [])
  /\ (forall owner name,
         segs = [owner; name] ->
         let d := deleteHook E s owner name w in
         filter is_attempt (trace_of r) = [attempt s fullName]
         /\ (forall err,
                result_of d = Done err ->
                result_of r = Done tt
                /\ world_of r = world_of d
                /\ calls (trace_of r) = calls (trace_of d) ++ [CallWriteHeader 200])
         /\ (lists_hooks_with_ids E -> exists err, result_of d = Done err)
         /\ (forall p,
                result_of d = Panicked p ->
                result_of r = Panicked p /\ trace_of r = trace_of d))
  /\ (length segs = 2 <-> strings.Count fullName slash = 1).
Proof.
  intros Hv Href r segs. split; [|split].
  - intros Hl. pose proof (OnReceiveWebhook_malformed E s req w Hv Href Hl) as Hr.
    fold r in Hr. rewrite Hr. auto.
  - intros owner name Hs d.
    destruct (OnReceiveWebhook_orphan_run E s req w Hv Href Hs)
      as (_ & Hatt & Hdone & Hpanic).
    fold r d in Hatt, Hdone, Hpanic.
    split; [exact Hatt|]. split; [exact Hdone|]. split.
    + apply deleteHook_returns.
    + intros p Hp. destruct (Hpanic p Hp) as (? & _ & ?). auto.
  - subst segs. rewrite Split_length. lia.
Qed.

(** ** Hook creation *)

Lemma already_exists_iff (errs : list github_Error) :
  already_exists errs = true <->
  exists ghErr, In ghErr errs
                /\ strings.Contains (Message ghErr) "already exists" = true.
Proof. unfold already_exists. apply existsb_exists. Qed.

Section Creation.

Context {W : Type} (E : Env W).

Variables (s : githubWebhookService) (cli : Client).
Variables (ownerRepo owner name : string).

Hypothesis splits : strings.Split ownerRepo slash = [owner; name].

Lemma createHook_run (w : W) :
  let a := CreateHook E cli owner name (new_hook s) w in
  let r := createHook E s cli ownerRepo w in
  result_of r = createHook_answer (fst (fst a)) (snd (fst a))
  /\ world_of r = snd a
  /\ calls (trace_of r) = [CallCreateHook owner name (new_hook s)].
Proof.
  cbv zeta. unfold createHook. rewrite splits.
  unfold index. simpl nth_error. unfold bind, call, ret, deref, log. simpl.
  destruct (CreateHook E cli owner name (new_hook s) w) as [[[rs|] err] w1]; simpl;
    [|auto].
  destruct (Z.eqb (StatusCode rs) 422); simpl; [|auto].
  destruct err as [[errs|m]|]; simpl; auto.
  destruct (already_exists errs); simpl; auto.
Qed.

End Creation.

(** C5: for a repo that splits into owner and name, [createHook] makes one
    create call.  A 422 answer whose error response has a detail containing
    "already exists" gives no error; a 422 with any other detail, and any
    other status, gives back the provider's error unchanged.  Hence when
    the provider creates the hook on the first call and answers the second
    with that conflict, two calls in a row both give no error. *)
Theorem createHook_absorbs_already_exists {W : Type} (E : Env W)
        (s : githubWebhookService) (cli : Client) (ownerRepo owner name : string)
        (w : W) :
  strings.Split ownerRepo slash = [owner; name] ->
  let a := CreateHook E cli owner name (new_hook s) w in
  let r := createHook E s cli ownerRepo w in
  calls (trace_of r) = [CallCreateHook owner name (new_hook s)]
  /\ (forall rs errs,
         fst a = (Some rs, Some (ErrorResponse errs)) ->
         (StatusCode rs = 422)%Z ->
         (exists ghErr, In ghErr errs
                        /\ strings.Contains (Message ghErr) "already exists" = true) ->
         result_of r = Done None)
  /\ (forall rs errs,
         fst a = (Some rs, Some (ErrorResponse errs)) ->
         (StatusCode rs = 422)%Z ->
         (forall ghErr, In ghErr errs ->
                        strings.Contains (Message ghErr) "already exists" = false) ->
         result_of r = Done (Some (Collab (ErrorResponse errs))))
  /\ (forall rs e,
         fst a = (Some rs, Some e) ->
         ((StatusCode rs <> 422)%Z \/ exists m, e = OtherError m) ->
         result_of r = Done (Some (Collab e)))
  /\ (forall rs rs' errs,
         fst a = (Some rs, None) ->
         (StatusCode rs <> 422)%Z ->
         fst (CreateHook E cli owner name (new_hook s) (snd a))
         = (Some rs', Some (ErrorResponse errs)) ->
         (StatusCode rs' = 422)%Z ->
         (exists ghErr, In ghErr errs
                        /\ strings.Contains (Message ghErr) "already exists" = true) ->
         result_of (createHook_twice E s cli ownerRepo w) = Done (None, None)).
Proof.
  intros Hs a r.
  destruct (@createHook_run W E s cli ownerRepo owner name Hs w) as (Hres & Hw & Hc).
  fold a r in Hres, Hw, Hc.
  split; [exact Hc|]. split; [|split; [|split]].
  - intros rs errs Ha H422 Hex. rewrite Hres, Ha. simpl.
    apply Z.eqb_eq in H422. rewrite H422.
    apply already_exists_iff in Hex. now rewrite Hex.
  - intros rs errs Ha H422 Hno. rewrite Hres, Ha. simpl.
    apply Z.eqb_eq in H422. rewrite H422.
    destruct (already_exists errs) eqn:Hex; [|reflexivity].
    apply already_exists_iff in Hex. destruct Hex as (g & Hg & Hc').
    rewrite (Hno g Hg) in Hc'. discriminate.
  - intros rs e Ha Hcase. rewrite Hres, Ha. simpl.
    destruct Hcase as [Hn | (m & ->)].
    + apply Z.eqb_neq in Hn. now rewrite Hn.
    + now destruct (Z.eqb (StatusCode rs) 422).
  - intros rs rs' errs Ha Hn Ha' H422 Hex.
    destruct (@createHook_run W E s cli ownerRepo owner name Hs (snd a)) as (Hres' & _ & _).
    rewrite Ha' in Hres'. simpl in Hres'.
    apply Z.eqb_eq in H422. rewrite H422 in Hres'.
    apply already_exists_iff in Hex. rewrite Hex in Hres'.
    rewrite Ha in Hres. simpl in Hres. apply Z.eqb_neq in Hn. rewrite Hn in Hres.
    simpl in Hres. unfold createHook_twice, bind, ret.
    subst r. rewrite <- Hw in Hres'.
    destruct (createHook E s cli ownerRepo w) as [[o w1] t1].
    unfold result_of, world_of in *. simpl in *. subst o.
    destruct (createHook E s cli ownerRepo w1) as [[o w2] t2].
    simpl in *. subst o. reflexivity.
Qed.

(** ** Reconciliation *)

Lemma Difference_fst (a b : list string) (x : string) :
  In x (fst (util.Difference a b)) <-> In x a /\ ~ In x b.
Proof.
  unfold util.Difference. simpl. rewrite filter_In, negb_true_iff.
  rewrite <- not_true_iff_false, existsb_eqb_In'. tauto.
Qed.

Lemma Difference_snd (a b : list string) (x : string) :
  In x (snd (util.Difference a b)) <-> In x b /\ ~ In x a.
Proof.
  unfold util.Difference. simpl. rewrite filter_In, negb_true_iff.
  rewrite <- not_true_iff_false, existsb_eqb_In'. tauto.
Qed.

Lemma Difference_nil_r (a : list string) : util.Difference a [] = (a, []).
Proof.
  unfold util.Difference. simpl. f_equal.
  induction a as [|x a IH]; simpl; [reflexivity | now rewrite IH].
Qed.

Lemma Difference_nil_l (b : list string) : util.Difference [] b = ([], b).
Proof.
  unfold util.Difference. simpl. f_equal.
  induction b as [|x b IH]; simpl; [reflexivity | now rewrite IH].
Qed.

Lemma In_firstn {A} (x : A) (n : nat) (l : list A) : In x (firstn n l) -> In x l.
Proof.
  intros H. rewrite <- (firstn_skipn n l). apply in_app_iff. now left.
Qed.

Section Cleanup.

Context {W : Type} (E : Env W).

Variable s : githubWebhookService.

(** The loop over the removed repos: each repo with one "/" gets its
    [deleteHook], whatever the earlier ones returned, until the loop ends or
    a [deleteHook] panics on a nil pointer. *)
Lemma PostRegister_hooks_spec (l : list string) :
  Forall good_key l ->
  forall w : W,
    let h := PostRegister_hooks E s l w in
    exists n,
      filter is_attempt (trace_of h) = map (attempt s) (firstn n l)
      /\ (result_of h = Done tt /\ firstn n l = l
          \/ result_of h = Panicked NilPointer)
      /\ (lists_hooks_with_ids E -> result_of h = Done tt).
Proof.
  induction 1 as [|r l Hr Hl IH]; intros w; cbv zeta.
  - exists 0. unfold ret, result_of, trace_of. simpl. auto.
  - destruct (Count_one_Split slash r Hr) as (o & n & Hs & Heq).
    cbn [PostRegister_hooks].
    rewrite Hs. unfold index. cbn [nth_error]. rewrite !bind_ret_l.
    pose proof (deleteHook_one_attempt E s o n w) as D2.
    rewrite (removing_hook_attempt s r Hs) in D2.
    destruct (deleteHook_result E s o n w) as [[err D1] | D1].
    + rewrite (bind_done _ _ (run_done _ D1)).
      set (w1 := world_of (deleteHook E s o n w)).
      assert (Hline : exists line,
                 (match err with
                  | Some _ => log WarnLevel "Failed to remove webhook" [("repo", r)]
                  | None => ret tt
                  end) w1 = (Done tt, w1, line) /\ filter is_attempt line = []).
      { destruct err; eexists; split; reflexivity. }
      destruct Hline as (line & Hrun & Hline).
      rewrite (bind_done _ _ Hrun).
      destruct (IH w1) as (n' & I1 & I2 & I3).
      autorewrite with run. exists (S n'). split; [|split].
      * now rewrite !filter_app, D2, Hline, I1.
      * destruct I2 as [[I2 I2'] | I2]; [left | now right].
        split; [exact I2|]. simpl. now rewrite I2'.
      * exact I3.
    + rewrite (bind_panicked _ _ (run_panicked _ D1)).
      autorewrite with run. exists 1. rewrite D2. split; [reflexivity|].
      split; [now right|]. intros Hids.
      destruct (@deleteHook_returns W E s o n w Hids) as (err & He).
      rewrite D1 in He. discriminate.
Qed.

(** The first steps of [PostRegister] with an old repo list at hand: the
    diagnostics of both repo lists, then the loop over the removed repos. *)
Lemma PostRegister_start (oldService : option Service) (oldRepos : list string)
      (t0 : list event) (w : W) :
  old_repoList oldService = Some (oldRepos, t0) ->
  let newRepos := fst (repoList s) in
  let removed := snd (util.Difference newRepos oldRepos) in
  let rest :=
    (PostRegister_hooks E s removed ;;
     if Nat.eqb (length newRepos) 0 then
       let logger := [("service_type", ServiceType (GithubWebhook s));
                      ("service_id", ServiceID (GithubWebhook s))] in
       log InfoLevel "Removing service as no webhooks are registered." logger ;;
       err <- call (CallDeleteService (ServiceID (GithubWebhook s)))
                   (DeleteService E (ServiceID (GithubWebhook s))) ;;
       match err with
       | Some _ => log ErrorLevel "Failed to delete service" logger
       | None => ret tt
       end
     else ret tt) w in
  PostRegister E s oldService w
  = (result_of rest, world_of rest, t0 ++ snd (repoList s) ++ trace_of rest).
Proof.
  intros Hold newRepos removed rest. unfold PostRegister.
  assert (Hfirst : (match oldService with
                    | None => ret (Some [])
                    | Some (GithubWebhook old) =>
                        r <- emit (repoList old) ;; ret (Some r)
                    | Some other => emit (None, [cannot_cast other])
                    end) w = (Done (Some oldRepos), w, t0)).
  { destruct oldService as [[old|e]|]; simpl in Hold; try discriminate.
    - injection Hold as Hold. unfold bind, emit, ret. rewrite Hold. simpl.
      now rewrite app_nil_r.
    - injection Hold as <- <-. reflexivity. }
  rewrite (bind_done _ _ Hfirst).
  assert (Hnew : emit (W := W) (repoList s) w = (Done newRepos, w, snd (repoList s)))
    by reflexivity.
  rewrite (bind_done _ _ Hnew).
  subst rest removed. destruct (util.Difference newRepos oldRepos) as [added removed'].
  autorewrite with run. reflexivity.
Qed.

(** [PostRegister] when the loop over the removed repos ends: then the
    self-pruning when the new repo list is empty. *)
Lemma PostRegister_run (oldService : option Service) (oldRepos : list string)
      (t0 : list event) (w : W) :
  old_repoList oldService = Some (oldRepos, t0) ->
  let newRepos := fst (repoList s) in
  let removed := snd (util.Difference newRepos oldRepos) in
  let h := PostRegister_hooks E s removed w in
  let d := DeleteService E (id s) (world_of h) in
  result_of h = Done tt ->
  PostRegister E s oldService w
  = if Nat.eqb (length newRepos) 0
    then (Done tt, snd d,
          t0 ++ snd (repoList s) ++ trace_of h ++ prune_trace s (fst d))
    else (Done tt, world_of h, t0 ++ snd (repoList s) ++ trace_of h).
Proof.
  intros Hold newRepos removed h d Hh.
  rewrite (PostRegister_start _ w Hold). cbv zeta. fold newRepos removed.
  rewrite (bind_done _ _ (run_done _ Hh)).
  fold h. destruct (Nat.eqb (length newRepos) 0) eqn:Hlen.
  - unfold bind, log, call, ret, prune_trace. simpl ServiceID. simpl ServiceType.
    subst d. destruct (DeleteService E (id s) (world_of h)) as [[e|] w3];
      autorewrite with run; simpl; rewrite ?app_nil_r; reflexivity.
  - unfold ret. autorewrite with run. now rewrite !app_nil_r.
Qed.

(** [PostRegister] when a [deleteHook] of the loop panics: it panics there,
    and does not get to the self-pruning. *)
Lemma PostRegister_run_panicked (oldService : option Service)
      (oldRepos : list string) (t0 : list event) (w : W) (p : panic) :
  old_repoList oldService = Some (oldRepos, t0) ->
  let newRepos := fst (repoList s) in
  let removed := snd (util.Difference newRepos oldRepos) in
  let h := PostRegister_hooks E s removed w in
  result_of h = Panicked p ->
  PostRegister E s oldService w
  = (Panicked p, world_of h, t0 ++ snd (repoList s) ++ trace_of h).
Proof.
  intros Hold newRepos removed h Hh.
  rewrite (PostRegister_start _ w Hold). cbv zeta. fold newRepos removed.
  rewrite (bind_panicked _ _ (run_panicked _ Hh)).
  autorewrite with run. reflexivity.
Qed.

End Cleanup.

Lemma filter_none {A} (f : A -> bool) (l : list A) :
  (forall x, In x l -> f x = false) -> filter f l = [].
Proof.
  induction l as [|x l IH]; intros H; [reflexivity|]. simpl.
  rewrite (H x (or_introl eq_refl)). apply IH. intros y Hy. apply H. now right.
Qed.

Lemma repoList_no_attempt (s : githubWebhookService) :
  filter is_attempt (snd (repoList s)) = [].
Proof.
  apply filter_none. intros e H. apply repoList_diagnostics in H.
  now destruct H as (k & -> & _).
Qed.

Lemma repoList_good (s : githubWebhookService) : Forall good_key (fst (repoList s)).
Proof. apply Forall_forall. intros k H. now apply repoList_In in H. Qed.

Lemma attempt_inj (s : githubWebhookService) (k k' : string) :
  attempt s k = attempt s k' -> k = k'.
Proof. unfold attempt. congruence. Qed.

Lemma Sim_deletes_when_it_succeeds : deletes_when_it_succeeds Sim.env.
Proof.
  intros i w. simpl. unfold Sim.delete_service, Sim.stored.
  destruct (Sim.db_down w); simpl; [discriminate|]. intros _.
  apply not_true_iff_false. intros H. apply existsb_eqb_In' in H.
  apply filter_In in H. destruct H as [_ H]. now rewrite String.eqb_refl in H.
Qed.

Lemma Sim_lists_hooks_with_ids : lists_hooks_with_ids Sim.env_checked.
Proof.
  intros cli owner repo w. simpl. apply Forall_forall. intros h Hin.
  apply filter_In in Hin. destruct Hin as [_ Hid].
  destruct h as [h|]; [|discriminate]. simpl in Hid.
  destruct (ID h) as [hookID|] eqn:Hh; [|discriminate].
  now exists h, hookID.
Qed.

Lemma Sim_ranges_over_all : ranges_over_all Sim.env.
Proof. intros rooms w. apply Permutation_refl. Qed.

Lemma Sim_reversed_ranges_over_all : ranges_over_all Sim.env_reversed.
Proof. intros rooms w. simpl. apply Permutation_sym, Permutation_rev. Qed.

Lemma old_repoList_good (oldService : option Service) (oldRepos : list string)
      (t0 : list event) :
  old_repoList oldService = Some (oldRepos, t0) ->
  Forall good_key oldRepos /\ calls t0 = [].
Proof.
  destruct oldService as [[old|e]|]; simpl; intros H; try discriminate.
  - injection H as H. split.
    + replace oldRepos with (fst (repoList old)) by now rewrite H.
      apply repoList_good.
    + replace t0 with (snd (repoList old)) by now rewrite H.
      apply repoList_logs_only.
  - injection H as <- <-. split; [constructor | reflexivity].
Qed.

Lemma removed_good (s : githubWebhookService) (oldService : option Service)
      (oldRepos : list string) (t0 : list event) :
  old_repoList oldService = Some (oldRepos, t0) ->
  Forall good_key (snd (util.Difference (fst (repoList s)) oldRepos)).
Proof.
  intros Hold. destruct (old_repoList_good _ Hold) as [Hgood _].
  apply Forall_forall. intros k Hk. apply Difference_snd in Hk.
  destruct Hk as [Hk _]. rewrite Forall_forall in Hgood. now apply Hgood.
Qed.

(** [PostRegister] ends, or panics on a nil pointer in one of its
    [deleteHook]s; it ends whenever the provider lists hooks with their
    ids. *)
Lemma PostRegister_result {W : Type} (E : Env W) (s : githubWebhookService)
      (oldService : option Service) (w : W) :
  let r := PostRegister E s oldService w in
  (result_of r = Done tt \/ result_of r = Panicked NilPointer)
  /\ (lists_hooks_with_ids E -> result_of r = Done tt).
Proof.
  cbv zeta.
  destruct (old_repoList oldService) as [[oldRepos t0]|] eqn:Hold.
  - pose proof (removed_good s _ Hold) as Hrem.
    destruct (PostRegister_hooks_spec E s Hrem w) as (n & _ & Hh & Hids).
    assert (Hdone : result_of (PostRegister_hooks E s
                       (snd (util.Difference (fst (repoList s)) oldRepos)) w)
                    = Done tt ->
                    result_of (PostRegister E s oldService w) = Done tt).
    { intros Hd. rewrite (PostRegister_run E s _ w Hold Hd).
      now destruct (Nat.eqb (length (fst (repoList s))) 0). }
    split.
    + destruct Hh as [[Hh _] | Hh]; [left; auto|].
      right. now rewrite (PostRegister_run_panicked E s _ w Hold Hh).
    + intros H. auto.
  - destruct oldService as [[old|e]|]; try discriminate. simpl. auto.
Qed.

(** C4 (counterexample): with a storage that refuses the delete, the
    configuration reconciled to zero rooms is still stored after
    [PostRegister]. *)
Lemma pruning_fails_with_the_storage :
  ~ pruned_configuration_leaves_storage.
Proof.
  intros H.
  specialize (H Sim.world Sim.env (Sim.service [])
                (Sim.service [("!r1", Sim.room [("acme/widgets", ["push"])])])
                Sim.w_db_down Sim_deletes_when_it_succeeds eq_refl).
  vm_compute in H. discriminate.
Qed.

(** C4 (amended): for every old and new configuration and every world,
    [PostRegister] attempts a hook delete only for repos listed for the old
    configuration and not for the new one, and has no error to return: it
    ends, or panics on a nil pointer in one of its hook deletes.  It ends
    whenever the provider lists hooks with their ids.  When it ends, every
    such repo got its attempt, whatever the deletes returned, and, when the
    new configuration has no rooms, every repo listed for the old one got
    its attempt and the storage was asked to delete the configuration: it
    is gone afterwards unless the storage refused, which [PostRegister]
    only logs. *)
Theorem PostRegister_deletes_removed_and_prunes {W : Type} (E : Env W)
        (s old : githubWebhookService) (w : W) :
  let r := PostRegister E s (Some (GithubWebhook old)) w in
  (forall k, In (attempt s k) (trace_of r) ->
             In k (fst (repoList old)) /\ ~ In k (fst (repoList s)))
  /\ (result_of r = Done tt \/ result_of r = Panicked NilPointer)
  /\ (lists_hooks_with_ids E -> result_of r = Done tt)
  /\ (result_of r = Done tt ->
      (forall k, In k (fst (repoList old)) -> ~ In k (fst (repoList s)) ->
                 In (attempt s k) (trace_of r))
      /\ (Rooms s = [] ->
          (forall k, In k (fst (repoList old)) -> In (attempt s k) (trace_of r))
          /\ In (CallDeleteService (id s)) (trace_of r)
          /\ (deletes_when_it_succeeds E ->
              In (prune_failed s) (trace_of r)
              \/ ServiceStored E (id s) (world_of r) = false))).
Proof.
  intros r.
  set (removed := snd (util.Difference (fst (repoList s)) (fst (repoList old)))).
  assert (Hold : old_repoList (Some (GithubWebhook old))
                 = Some (fst (repoList old), snd (repoList old))).
  { simpl. now destruct (repoList old). }
  pose proof (removed_good s _ Hold) as Hgood. fold removed in Hgood.
  destruct (PostRegister_hooks_spec E s Hgood w) as (n & Hatt & Hh & _).
  set (h := PostRegister_hooks E s removed w) in *.
  set (d := DeleteService E (id s) (world_of h)) in *.
  assert (Hin : forall k, In (attempt s k) (trace_of r) <->
                          In (attempt s k) (filter is_attempt (trace_of r))).
  { intros k. rewrite filter_In. simpl. tauto. }
  assert (Hfilter : filter is_attempt (trace_of r)
                    = map (attempt s) (firstn n removed)).
  { destruct Hh as [[Hh _] | Hh].
    - pose proof (PostRegister_run E s _ w Hold Hh) as Hrun.
      fold r removed h d in Hrun. rewrite Hrun.
      destruct (Nat.eqb (length (fst (repoList s))) 0);
        autorewrite with run; rewrite !filter_app, !repoList_no_attempt, Hatt; simpl.
      + destruct (fst d); simpl; now rewrite app_nil_r.
      + reflexivity.
    - pose proof (PostRegister_run_panicked E s _ w Hold Hh) as Hrun.
      fold r removed h in Hrun. rewrite Hrun. autorewrite with run.
      now rewrite !filter_app, !repoList_no_attempt, Hatt. }
  split; [|split; [|split]].
  - intros k Hk. rewrite <- Difference_snd. fold removed.
    apply Hin in Hk. rewrite Hfilter in Hk. apply in_map_iff in Hk.
    destruct Hk as (k' & Heq & Hk'). apply attempt_inj in Heq. subst k'.
    now apply In_firstn in Hk'.
  - apply (PostRegister_result E s (Some (GithubWebhook old)) w).
  - apply (PostRegister_result E s (Some (GithubWebhook old)) w).
  - intros Hres.
    assert (Hdone : result_of h = Done tt /\ firstn n removed = removed).
    { destruct Hh as [Hh | Hh]; [exact Hh|].
      pose proof (PostRegister_run_panicked E s _ w Hold Hh) as Hrun.
      fold r in Hrun. rewrite Hrun in Hres. discriminate. }
    destruct Hdone as (Hd & Hall). rewrite Hall in Hfilter.
    pose proof (PostRegister_run E s _ w Hold Hd) as Hrun.
    fold r removed h d in Hrun.
    assert (Hall_removed : forall k, In k (fst (repoList old)) ->
                                     ~ In k (fst (repoList s)) ->
                                     In (attempt s k) (trace_of r)).
    { intros k Hk Hnk. apply Hin. rewrite Hfilter. apply in_map.
      apply Difference_snd. auto. }
    split; [exact Hall_removed|].
    intros Hrooms.
    assert (Hnil : fst (repoList s) = []) by (unfold repoList; now rewrite Hrooms).
    rewrite Hnil in Hrun. simpl Nat.eqb in Hrun. cbv iota in Hrun.
    split; [|split].
    + intros k Hk. apply Hall_removed; [exact Hk|]. rewrite Hnil. auto.
    + rewrite Hrun. autorewrite with run. rewrite !in_app_iff.
      do 3 right. unfold prune_trace. simpl. auto.
    + intros Hstore. rewrite Hrun. autorewrite with run.
      destruct (fst d) eqn:Hdel.
      * left. rewrite !in_app_iff. do 3 right. unfold prune_trace, prune_failed.
        simpl. auto.
      * right. apply (Hstore (id s) (world_of h) Hdel).
Qed.

(** C10: a repo that [repoList] lists splits on "/" into exactly an owner
    and a name, so both indexings of the split are in bounds: [createHook]
    on it does not panic with an index out of range, and neither does
    [PostRegister], which only splits repos listed for the old
    configuration: it ends, unless one of its hook deletes panics on a nil
    pointer, which none does when the provider lists hooks with their ids.
    The indexing itself is unguarded: on a string without "/" [createHook]
    panics. *)
Theorem listed_repos_split_in_bounds {W : Type} (E : Env W)
        (s listing : githubWebhookService) (oldService : option Service)
        (cli : Client) (r : string) (w : W) :
  In r (fst (repoList listing)) ->
  (exists owner name,
      strings.Split r slash = [owner; name]
      /\ nth_error (strings.Split r slash) 0 = Some owner
      /\ nth_error (strings.Split r slash) 1 = Some name)
  /\ result_of (createHook E s cli r w) <> Panicked IndexOutOfRange
  /\ result_of (PostRegister E s oldService w) <> Panicked IndexOutOfRange
  /\ (lists_hooks_with_ids E -> result_of (PostRegister E s oldService w) = Done tt)
  /\ (forall bare, strings.Count bare slash = 0 ->
                   result_of (createHook E s cli bare w) = Panicked IndexOutOfRange).
Proof.
  intros Hin. destruct (repoList_Split listing r Hin) as (owner & name & Hs & _).
  split; [|split; [|split; [|split]]].
  - exists owner, name. rewrite Hs. auto.
  - destruct (@createHook_run W E s cli r owner name Hs w) as (Hres & _).
    rewrite Hres. unfold createHook_answer.
    destruct (fst (fst (CreateHook E cli owner name (new_hook s) w))) as [rs|];
      [|discriminate].
    destruct (Z.eqb (StatusCode rs) 422); [|discriminate].
    destruct (snd (fst (CreateHook E cli owner name (new_hook s) w)))
      as [[errs|m]|]; try discriminate.
    destruct (already_exists errs); discriminate.
  - destruct (PostRegister_result E s oldService w) as ([H | H] & _);
      rewrite H; discriminate.
  - apply (PostRegister_result E s oldService w).
  - intros bare Hc. pose proof (Split_length slash bare) as Hl. rewrite Hc in Hl.
    unfold createHook.
    destruct (strings.Split bare slash) as [|seg [|? ?]]; try discriminate.
    reflexivity.
Qed.

(** ** Registration *)

Section Registration.

Context {W : Type} (E : Env W).

Variable s : githubWebhookService.

Lemma loadRealm_run (w : W) :
  RealmID s <> "" ->
  let L := LoadAuthRealm E (RealmID s) w in
  loadRealm E s w
  = (match fst L with
     | (_, Some e) => Done (inl (Collab e))
     | (None, None) => Panicked NilPointer
     | (Some realm, None) =>
         if String.eqb (realm_Type realm) "github" then Done (inr realm)
         else Done (inl (Errorf ("Realm is of type '" ++ realm_Type realm
                                 ++ "', not 'github'")%string))
     end, snd L, [CallLoadAuthRealm (RealmID s)]).
Proof.
  intros Hr. cbv zeta. unfold loadRealm. apply String.eqb_neq in Hr. rewrite Hr.
  unfold bind, call, ret, deref.
  destruct (LoadAuthRealm E (RealmID s) w) as [[[realm|] [e|]] w1]; simpl;
    try reflexivity.
  destruct (String.eqb (realm_Type realm) "github"); reflexivity.
Qed.

Lemma githubClientFor_run (userID : string) (w : W) :
  let G := getTokenForUser E (RealmID s) userID w in
  exists t,
    calls t = [CallGetTokenForUser (RealmID s) userID]
    /\ githubClientFor E s userID false w
       = (Done (if String.eqb (fst (fst G)) "" then None
                else Some {| token := fst (fst G) |}), snd G, t).
Proof.
  cbv zeta. unfold githubClientFor, bind, call, log, ret.
  destruct (getTokenForUser E (RealmID s) userID w) as [[tok [e|]] w1]; simpl;
    destruct (String.eqb tok ""); simpl; eexists; (split; [|reflexivity]);
    reflexivity.
Qed.

Lemma createHook_passed_on (cli : Client) (r : string) (w : W) :
  passed_on (result_of (createHook E s cli r w)).
Proof.
  unfold createHook, index.
  destruct (nth_error (strings.Split r slash) 0) as [owner|];
    [|right; right; now exists IndexOutOfRange].
  rewrite bind_ret_l.
  destruct (nth_error (strings.Split r slash) 1) as [name|];
    [|right; right; now exists IndexOutOfRange].
  rewrite bind_ret_l. unfold bind, call, deref, ret, log.
  destruct (CreateHook E cli owner name (new_hook s) w) as [[[rs|] err] w1]; simpl;
    [|right; right; now exists NilPointer].
  assert (Herr : passed_on (Done (as_error err))).
  { destruct err; [right; left; eexists|left]; reflexivity. }
  destruct (Z.eqb (StatusCode rs) 422); simpl; [|exact Herr].
  destruct err as [[errs|m]|]; simpl; try exact Herr.
  destruct (already_exists errs); simpl; [now left | exact Herr].
Qed.

Lemma Register_hooks_passed_on (cli : Client) (l : list string) :
  forall w : W,
    passed_on (result_of (Register_hooks E s cli l w))
    /\ filter is_join (trace_of (Register_hooks E s cli l w)) = [].
Proof.
  induction l as [|r l IH]; intros w; cbn [Register_hooks].
  - split; [now left | reflexivity].
  - pose proof (createHook_passed_on cli r w) as Hc.
    assert (Hj : filter is_join (trace_of (createHook E s cli r w)) = []).
    { unfold createHook, index.
      destruct (nth_error (strings.Split r slash) 0) as [owner|]; [|reflexivity].
      rewrite bind_ret_l.
      destruct (nth_error (strings.Split r slash) 1) as [name|]; [|reflexivity].
      rewrite bind_ret_l. unfold bind, call, deref, ret, log.
      destruct (CreateHook E cli owner name (new_hook s) w) as [[[rs|] err] w1];
        simpl; [|reflexivity].
      destruct (Z.eqb (StatusCode rs) 422); simpl; [|reflexivity].
      destruct err as [[errs|m]|]; simpl; try reflexivity.
      destruct (already_exists errs); reflexivity. }
    destruct Hc as [Hc | [(e & Hc) | (p & Hc)]].
    + rewrite (bind_done _ _ (run_done _ Hc)), bind_log.
      destruct (IH (world_of (createHook E s cli r w))) as (I1 & I2).
      autorewrite with run. split; [exact I1|].
      rewrite filter_app, Hj. simpl. exact I2.
    + rewrite (bind_done _ _ (run_done _ Hc)), bind_log. unfold ret.
      autorewrite with run. split; [right; left; now exists e|].
      rewrite filter_app, Hj. reflexivity.
    + assert (Hp : createHook E s cli r w
                   = (Panicked p, world_of (createHook E s cli r w),
                      trace_of (createHook E s cli r w))).
      { rewrite <- Hc. apply run_eta. }
      rewrite (bind_panicked _ _ Hp). autorewrite with run.
      split; [right; right; now exists p | exact Hj].
Qed.

Lemma joinRooms_passed_on (rooms : gomap string RoomConfig) :
  forall w : W, passed_on (result_of (joinRooms E rooms w)).
Proof.
  induction rooms as [|[roomID rc] rooms IH]; intros w; cbn [joinRooms].
  - now left.
  - unfold bind, call.
    destruct (JoinRoom E roomID w) as [[e|] w1]; simpl.
    + right. left. now exists e.
    + specialize (IH w1). destruct (joinRooms E rooms w1) as [[o w2] t2].
      exact IH.
Qed.

Lemma joinWebhookRooms_passed_on (w : W) :
  passed_on (result_of (joinWebhookRooms E s w)).
Proof.
  unfold joinWebhookRooms, range, bind.
  destruct (RangeOrder E (Rooms s) w) as [order w1].
  pose proof (joinRooms_passed_on order w1) as H.
  destruct (joinRooms E order w1) as [[o w2] t2]. exact H.
Qed.

Lemma Register_fields_missing (oldService : option Service) (w : W) :
  RealmID s = "" \/ ClientUserID s = "" ->
  Register E s oldService w
  = (Done (Some (Errorf "RealmID and ClientUserID is required")), w, []).
Proof.
  intros H. unfold Register.
  replace (String.eqb (RealmID s) "" || String.eqb (ClientUserID s) "") with true;
    [reflexivity|].
  symmetry. apply orb_true_iff.
  destruct H as [H | H]; [left | right]; now apply String.eqb_eq.
Qed.

(** [Register] once both ids are set: the realm, the client, the guard. *)
Lemma Register_run (oldService : option Service) (w : W) :
  RealmID s <> "" -> ClientUserID s <> "" ->
  let r := Register E s oldService w in
  let L := LoadAuthRealm E (RealmID s) w in
  let G := getTokenForUser E (RealmID s) (ClientUserID s) (snd L) in
  let load := CallLoadAuthRealm (RealmID s) in
  let get := CallGetTokenForUser (RealmID s) (ClientUserID s) in
  match fst L with
  | (_, Some e) => r = (Done (Some (Collab e)), snd L, [load])
  | (None, None) => r = (Panicked NilPointer, snd L, [load])
  | (Some realm, None) =>
      if String.eqb (realm_Type realm) "github" then
        if String.eqb (fst (fst G)) "" then
          result_of r
          = Done (Some (Errorf ("User " ++ ClientUserID s
                                ++ " does not have a Github auth session with realm "
                                ++ realm_ID realm ++ ".")%string))
          /\ calls (trace_of r) = [load; get]
        else if Nat.eqb (length (fst (repoList s))) 0
                && Nat.eqb (length (removed_repos s oldService)) 0 then
          result_of r = no_webhooks_specified
          /\ world_of r = snd G
          /\ calls (trace_of r) = [load; get]
        else passed_on (result_of r)
      else
        r = (Done (Some (Errorf ("Realm is of type '" ++ realm_Type realm
                                 ++ "', not 'github'")%string)), snd L, [load])
  end.
Proof.
  intros Hr Hc. cbv zeta. unfold Register.
  replace (String.eqb (RealmID s) "" || String.eqb (ClientUserID s) "") with false
    by (symmetry; apply orb_false_iff; split; now apply String.eqb_neq).
  pose proof (loadRealm_run w Hr) as HL. cbv zeta in HL.
  destruct (fst (LoadAuthRealm E (RealmID s) w)) as [[realm|] [e|]] eqn:HfL.
  - now rewrite (bind_done _ _ HL).
  - destruct (String.eqb (realm_Type realm) "github"); [|now rewrite (bind_done _ _ HL)].
    rewrite (bind_done _ _ HL).
    destruct (githubClientFor_run (ClientUserID s) (snd (LoadAuthRealm E (RealmID s) w)))
      as (tg & Htg & HG).
    rewrite (bind_done _ _ HG).
    destruct (String.eqb (fst (fst (getTokenForUser E (RealmID s) (ClientUserID s)
                                      (snd (LoadAuthRealm E (RealmID s) w))))) "").
    + unfold ret. autorewrite with run. split; [reflexivity|].
      unfold calls in *. simpl. now rewrite filter_app, Htg.
    + set (w2 := snd (getTokenForUser E (RealmID s) (ClientUserID s)
                        (snd (LoadAuthRealm E (RealmID s) w)))).
      assert (Hold : exists t0,
                 (match oldService with
                  | None => ret []
                  | Some (GithubWebhook old) => emit (repoList old)
                  | Some other => emit ([], [cannot_cast other])
                  end) w2 = (Done (old_repos oldService), w2, t0) /\ calls t0 = []).
      { unfold old_repos. destruct oldService as [[old|e]|]; simpl.
        - exists (snd (repoList old)). split; [reflexivity|].
          apply repoList_logs_only.
        - eexists. split; reflexivity.
        - eexists. split; reflexivity. }
      destruct Hold as (t0 & Hold & Ht0).
      rewrite (bind_done _ _ Hold), bind_emit.
      unfold removed_repos.
      destruct (util.Difference (fst (repoList s)) (old_repos oldService))
        as [newRepos removedRepos]. simpl snd.
      destruct (Nat.eqb (length (fst (repoList s))) 0
                && Nat.eqb (length removedRepos) 0).
      * unfold ret. autorewrite with run. repeat split.
        rewrite !calls_app, Ht0, repoList_logs_only, !app_nil_r.
        unfold calls in *. simpl. now rewrite Htg.
      * autorewrite with run.
        set (cli := {| token := fst (fst (getTokenForUser E
                     (RealmID s) (ClientUserID s)
                     (snd (LoadAuthRealm E (RealmID s) w)))) |}).
        destruct (Register_hooks_passed_on cli newRepos w2)
          as ([Hh | [(e & Hh) | (p & Hh)]] & _).
        -- rewrite (bind_done _ _ (run_done _ Hh)). autorewrite with run.
           destruct (joinWebhookRooms_passed_on
                       (world_of (Register_hooks E s cli newRepos w2)))
             as [Hj | [(e & Hj) | (p & Hj)]].
           ++ rewrite (bind_done _ _ (run_done _ Hj)), bind_log.
              unfold ret. autorewrite with run. now left.
           ++ rewrite (bind_done _ _ (run_done _ Hj)). unfold ret.
              autorewrite with run. right. left. now exists e.
           ++ rewrite (bind_panicked _ _ (eq_trans (run_eta _)
                         (f_equal (fun o => (o, _, _)) Hj))).
              autorewrite with run. right. right. now exists p.
        -- rewrite (bind_done _ _ (run_done _ Hh)). unfold ret.
           autorewrite with run. right. left. now exists e.
        -- rewrite (bind_panicked _ _ (eq_trans (run_eta _)
                      (f_equal (fun o => (o, _, _)) Hh))).
           autorewrite with run. right. right. now exists p.
  - now rewrite (bind_done _ _ HL).
  - now rewrite (bind_panicked _ _ HL).
Qed.

End Registration.

Lemma passed_on_not_guard (o : outcome (option error)) :
  passed_on o -> o <> no_webhooks_specified.
Proof.
  unfold no_webhooks_specified. intros [-> | [(e & ->) | (p & ->)]]; discriminate.
Qed.

Lemma length_zero_iff {A} (l : list A) : Nat.eqb (length l) 0 = true <-> l = [].
Proof. destruct l; simpl; split; congruence. Qed.

(** [Register] returns the guard's error exactly when its checks passed and
    both lists are empty. *)
Lemma Register_guard_iff {W : Type} (E : Env W) (s : githubWebhookService)
      (oldService : option Service) (w : W) :
  result_of (Register E s oldService w) = no_webhooks_specified <->
  prechecks_pass E s w /\ fst (repoList s) = [] /\ removed_repos s oldService = [].
Proof.
  unfold prechecks_pass.
  destruct (string_dec (RealmID s) "") as [Hr | Hr].
  { rewrite (Register_fields_missing E s oldService w (or_introl Hr)).
    autorewrite with run. split; [discriminate | tauto]. }
  destruct (string_dec (ClientUserID s) "") as [Hc | Hc].
  { rewrite (Register_fields_missing E s oldService w (or_intror Hc)).
    autorewrite with run. split; [discriminate | tauto]. }
  pose proof (Register_run E s oldService w Hr Hc) as Hrun. cbv zeta in Hrun.
  destruct (fst (LoadAuthRealm E (RealmID s) w)) as [[realm|] [e|]] eqn:HfL.
  - rewrite Hrun. autorewrite with run. split; [discriminate|].
    intros ((_ & _ & (realm' & Heq & _) & _) & _). discriminate.
  - destruct (String.eqb (realm_Type realm) "github") eqn:Hty.
    + apply String.eqb_eq in Hty.
      destruct (String.eqb (fst (fst (getTokenForUser E (RealmID s) (ClientUserID s)
                                        (snd (LoadAuthRealm E (RealmID s) w))))) "")
               eqn:Htok.
      * destruct Hrun as [Hres _]. rewrite Hres. split; [discriminate|].
        apply String.eqb_eq in Htok. intros ((_ & _ & _ & Hno) & _). now destruct Hno.
      * apply String.eqb_neq in Htok.
        destruct (Nat.eqb (length (fst (repoList s))) 0
                  && Nat.eqb (length (removed_repos s oldService)) 0) eqn:Hg.
        -- destruct Hrun as [Hres _]. split; [intros _|intros _; exact Hres].
           apply andb_prop in Hg. destruct Hg as [Hg1 Hg2].
           apply length_zero_iff in Hg1, Hg2.
           repeat split; auto. now exists realm.
        -- split; [intros H; now apply passed_on_not_guard in Hrun|].
           intros (_ & Hn & Hrem). rewrite Hn, Hrem in Hg. discriminate.
    + rewrite Hrun. autorewrite with run. split; [discriminate|].
      intros ((_ & _ & (realm' & Heq & Hty') & _) & _).
      injection Heq as <-. apply String.eqb_neq in Hty. contradiction.
  - rewrite Hrun. autorewrite with run. split; [discriminate|].
    intros ((_ & _ & (realm' & Heq & _) & _) & _). discriminate.
  - rewrite Hrun. autorewrite with run. split; [discriminate|].
    intros ((_ & _ & (realm' & Heq & _) & _) & _). discriminate.
Qed.

(** C6: [Register] fails with "No webhooks specified." only when both the
    new repo list and the list of removed repos are empty, and it does fail
    so whenever they are and it reached the guard (both ids set, github
    realm loaded, client resolved; otherwise it has failed before).  With an
    empty repo list and removals pending it never fails with that error:
    past its checks it goes on to the hooks and the rooms, and its outcome
    is theirs. *)
Theorem Register_fails_on_nothing_to_do {W : Type} (E : Env W)
        (s : githubWebhookService) (oldService : option Service) (w : W) :
  let r := Register E s oldService w in
  (result_of r = no_webhooks_specified ->
   fst (repoList s) = [] /\ removed_repos s oldService = [])
  /\ (prechecks_pass E s w ->
      fst (repoList s) = [] -> removed_repos s oldService = [] ->
      result_of r = no_webhooks_specified)
  /\ (fst (repoList s) = [] -> removed_repos s oldService <> [] ->
      result_of r <> no_webhooks_specified
      /\ (prechecks_pass E s w -> passed_on (result_of r)))
  /\ (fst (repoList s) = [] -> removed_repos s oldService = old_repos oldService).
Proof.
  intros r. split; [|split; [|split]].
  - intros H. apply Register_guard_iff in H. tauto.
  - intros Hpre Hn Hrem. apply Register_guard_iff. auto.
  - intros Hn Hrem. split.
    + intros H. apply Register_guard_iff in H. tauto.
    + intros (Hr & Hc & (realm & HfL & Hty) & Htok).
      pose proof (Register_run E s oldService w Hr Hc) as Hrun. cbv zeta in Hrun.
      rewrite HfL, Hty in Hrun. simpl in Hrun.
      apply String.eqb_neq in Htok. rewrite Htok in Hrun.
      destruct (Nat.eqb (length (removed_repos s oldService)) 0) eqn:Hl.
      * apply length_zero_iff in Hl. contradiction.
      * rewrite andb_false_r in Hrun. exact Hrun.
  - intros Hn. unfold removed_repos. rewrite Hn. now rewrite Difference_nil_l.
Qed.

(** C9: [Register] succeeds only if the realm stored under [RealmID] loads
    and is of type "github".  When loading the realm fails, or the realm is
    of another type, [Register] returns an error having made no call but
    (at most) the realm lookup: no token lookup, no hook created, no room
    joined, whatever the other collaborators would have answered. *)
Theorem Register_requires_github_realm {W : Type} (E : Env W)
        (s : githubWebhookService) (oldService : option Service) (w : W) :
  let r := Register E s oldService w in
  let L := LoadAuthRealm E (RealmID s) w in
  (result_of r = Done None ->
   RealmID s <> ""
   /\ exists realm, fst L = (Some realm, None) /\ realm_Type realm = "github")
  /\ ((exists e, snd (fst L) = Some e)
      \/ (exists realm, fst L = (Some realm, None) /\ realm_Type realm <> "github") ->
      (exists err, result_of r = Done (Some err))
      /\ filter is_create (trace_of r) = []
      /\ filter is_join (trace_of r) = []
      /\ (calls (trace_of r) = []
          \/ calls (trace_of r) = [CallLoadAuthRealm (RealmID s)])).
Proof.
  intros r L. subst r L.
  destruct (string_dec (RealmID s) "") as [Hr | Hr].
  { rewrite (Register_fields_missing E s oldService w (or_introl Hr)).
    autorewrite with run. split; [discriminate|]. intros _.
    split; [eexists; reflexivity|]. auto. }
  destruct (string_dec (ClientUserID s) "") as [Hc | Hc].
  { rewrite (Register_fields_missing E s oldService w (or_intror Hc)).
    autorewrite with run. split; [discriminate|]. intros _.
    split; [eexists; reflexivity|]. auto. }
  pose proof (Register_run E s oldService w Hr Hc) as Hrun. cbv zeta in Hrun.
  destruct (fst (LoadAuthRealm E (RealmID s) w)) as [[realm|] [e|]] eqn:HfL.
  - rewrite Hrun. autorewrite with run. split; [discriminate|]. intros _.
    split; [eexists; reflexivity|]. auto.
  - destruct (String.eqb (realm_Type realm) "github") eqn:Hty.
    + apply String.eqb_eq in Hty. split.
      * intros _. split; [assumption|]. now exists realm.
      * intros [(e & He) | (realm' & Heq & Hty')]; [discriminate|].
        injection Heq as <-. contradiction.
    + rewrite Hrun. autorewrite with run. split; [discriminate|]. intros _.
      split; [eexists; reflexivity|]. auto.
  - rewrite Hrun. autorewrite with run. split; [discriminate|]. intros _.
    split; [eexists; reflexivity|]. auto.
  - rewrite Hrun. autorewrite with run. split; [discriminate|].
    intros [(e & He) | (realm' & Heq & _)]; discriminate.
Qed.

(** ** The old service *)

Lemma same_run_refl {W A} (r : outcome A * W * list event) : same_run r r.
Proof. repeat split. Qed.

Lemma same_run_bind_k {W A B} (m : M W A) (f g : A -> M W B) (w : W) :
  (forall a w', same_run (f a w') (g a w')) ->
  same_run (bind m f w) (bind m g w).
Proof.
  intros H. unfold bind. destruct (m w) as [[[a|p] w1] t1]; [|apply same_run_refl].
  destruct (H a w1) as (H1 & H2 & H3).
  destruct (f a w1) as [[o w2] t2], (g a w1) as [[o' w2'] t2'].
  unfold same_run in *. autorewrite with run in *. subst.
  repeat split. now rewrite !calls_app, H3.
Qed.

Lemma same_run_bind {W A B} (m1 m2 : M W A) (f : A -> M W B) (w w1 : W) (a : A)
      (t1 t2 : list event) :
  m1 w = (Done a, w1, t1) -> m2 w = (Done a, w1, t2) -> calls t1 = calls t2 ->
  same_run (bind m1 f w) (bind m2 f w).
Proof.
  intros H1 H2 Hc. rewrite (bind_done _ _ H1), (bind_done _ _ H2).
  unfold same_run. autorewrite with run. repeat split.
  now rewrite !calls_app, Hc.
Qed.

(** [Register] takes an old service of another type as no old service. *)
Lemma Register_uncastable {W : Type} (E : Env W) (s : githubWebhookService)
      (e : echoService) (w : W) :
  same_run (Register E s (Some (Echo e)) w) (Register E s None w).
Proof.
  unfold Register.
  destruct (String.eqb (RealmID s) "" || String.eqb (ClientUserID s) "");
    [apply same_run_refl|].
  apply same_run_bind_k. intros [err|realm] w1; [apply same_run_refl|].
  apply same_run_bind_k. intros [cli|] w2; [|apply same_run_refl].
  eapply same_run_bind; reflexivity.
Qed.

(** [PostRegister] stops at an old service of another type. *)
Lemma PostRegister_uncastable {W : Type} (E : Env W) (s : githubWebhookService)
      (e : echoService) (w : W) :
  PostRegister E s (Some (Echo e)) w = (Done tt, w, [cannot_cast (Echo e)]).
Proof. reflexivity. Qed.

(** [PostRegister] without an old service deletes no hook, and prunes the
    configuration when its repo list is empty. *)
Lemma PostRegister_no_old {W : Type} (E : Env W) (s : githubWebhookService) (w : W) :
  let r := PostRegister E s None w in
  result_of r = Done tt
  /\ filter is_attempt (trace_of r) = []
  /\ calls (trace_of r)
     = if Nat.eqb (length (fst (repoList s))) 0 then [CallDeleteService (id s)] else [].
Proof.
  cbv zeta.
  assert (Hh : result_of (PostRegister_hooks E s
                 (snd (util.Difference (fst (repoList s)) [])) w) = Done tt)
    by now rewrite Difference_nil_r.
  rewrite (PostRegister_run E s None w eq_refl Hh).
  rewrite Difference_nil_r. simpl snd. cbn [PostRegister_hooks].
  unfold ret at 1 2 3. autorewrite with run.
  destruct (Nat.eqb (length (fst (repoList s))) 0); autorewrite with run;
    (split; [reflexivity|]); simpl; rewrite ?app_nil_r.
  - split.
    + rewrite filter_app, repoList_no_attempt. unfold prune_trace. simpl.
      now destruct (fst (DeleteService E (id s) _)).
    + rewrite calls_app, repoList_logs_only. unfold prune_trace. simpl.
      now destruct (fst (DeleteService E (id s) _)).
  - split; [apply repoList_no_attempt | apply repoList_logs_only].
Qed.

(** C8 (counterexample): with an echo service as the old service and a new
    configuration without rooms, [PostRegister] stops after the cast: it
    does not ask the storage to delete the configuration, which it does
    when there is no old service. *)
Lemma PostRegister_uncastable_skips_pruning :
  ~ uncastable_old_service_counts_as_none.
Proof.
  intros H.
  destruct (H Sim.world Sim.env (Sim.service [])
              {| echo_id := "echo1"; echo_serviceUserID := "@neb:example.org" |}
              Sim.w0) as (_ & _ & _ & Hcalls).
  vm_compute in Hcalls. discriminate.
Qed.

(** C8 (amended): [Register] takes an old service that is absent or of
    another type as an empty old configuration and goes on: apart from the
    line it logs for the failed cast it runs as without an old service,
    nothing counts as removed and every listed repo counts as added.
    [PostRegister] without an old service goes on as well, with no hook to
    delete, and prunes the configuration if its repo list is empty; but
    given an old service of another type it logs the failed cast and
    returns at once, without the self-pruning. *)
Theorem old_service_fallback {W : Type} (E : Env W) (s : githubWebhookService)
        (e : echoService) (w : W) :
  same_run (Register E s (Some (Echo e)) w) (Register E s None w)
  /\ (forall oldService,
         oldService = None \/ oldService = Some (Echo e) ->
         old_repos oldService = []
         /\ removed_repos s oldService = []
         /\ fst (util.Difference (fst (repoList s)) (old_repos oldService))
            = fst (repoList s))
  /\ (result_of (PostRegister E s None w) = Done tt
      /\ filter is_attempt (trace_of (PostRegister E s None w)) = []
      /\ calls (trace_of (PostRegister E s None w))
         = if Nat.eqb (length (fst (repoList s))) 0
           then [CallDeleteService (id s)] else [])
  /\ PostRegister E s (Some (Echo e)) w = (Done tt, w, [cannot_cast (Echo e)]).
Proof.
  split; [apply Register_uncastable|]. split; [|split].
  - intros oldService [-> | ->]; unfold removed_repos, old_repos;
      cbn [old_repoList fst]; rewrite Difference_nil_r; auto.
  - apply PostRegister_no_old.
  - apply PostRegister_uncastable.
Qed.

(** * The service on the simulated world *)

(** The repo list of a configuration with odd keys. *)
Lemma repoList_union_of_keys_with_one_slash_witness :
  NoDup (fst (repoList Sim.odd_keys))
  /\ In "/widgets" (fst (repoList Sim.odd_keys))
  /\ ~ In "justonename" (fst (repoList Sim.odd_keys))
  /\ In (bad_key_diagnostic "justonename") (snd (repoList Sim.odd_keys)).
Proof.
  destruct (repoList_union_of_keys_with_one_slash Sim.odd_keys)
    as (Hnd & Hin & Hbad & _).
  assert (Hk : repo_key Sim.odd_keys "justonename").
  { exists "!R1", (Sim.room [("acme/widgets", ["push"]); ("justonename", ["push"])]),
      {| Events := ["push"] |}. simpl. auto. }
  split; [exact Hnd|]. split.
  - apply Hin. split; [|reflexivity].
    exists "!R2", (Sim.room [("/widgets", ["push"]); ("acme/widgets", ["issues"])]),
      {| Events := ["push"] |}. simpl. auto.
  - apply (Hbad "justonename" Hk). simpl. discriminate.
Defined.

(** A push for acme/widgets goes to [!R1] only, whose key is Acme/Widgets. *)
Lemma OnReceiveWebhook_notifies_subscribed_rooms_witness :
  OnReceiveRequest Sim.env (Sim.delivery "push" "acme/widgets")
                   (SecretToken Sim.two_rooms)
  = inr ("push", Some {| FullName := Some "acme/widgets" |}, "push on acme/widgets")
  /\ filter is_send (trace_of (OnReceiveWebhook Sim.env Sim.two_rooms
                                 (Sim.delivery "push" "acme/widgets") Sim.w0))
     = [CallSendMessageEvent "!R1" "m.room.message" "push on acme/widgets"].
Proof.
  split; [reflexivity|].
  exact (proj1 (proj1 (OnReceiveWebhook_notifies_subscribed_rooms
                         Sim.env Sim.two_rooms (Sim.delivery "push" "acme/widgets")
                         Sim.w0 (evType := "push")
                         (repo := Some {| FullName := Some "acme/widgets" |})
                         (msg := "push on acme/widgets") eq_refl)
                      "acme/widgets" eq_refl)).
Defined.

(** A delivery for acme/ghost, which no room names: one delete attempt, 200. *)
Lemma OnReceiveWebhook_orphan_cleanup_witness :
  referenced (EqualFold Sim.env) "acme/ghost" (Rooms Sim.two_rooms) = false
  /\ result_of (OnReceiveWebhook Sim.env Sim.two_rooms
                  (Sim.delivery "push" "acme/ghost") Sim.w0) = Done tt
  /\ filter is_attempt (trace_of (OnReceiveWebhook Sim.env Sim.two_rooms
                                    (Sim.delivery "push" "acme/ghost") Sim.w0))
     = [attempt Sim.two_rooms "acme/ghost"].
Proof.
  split; [reflexivity|].
  destruct (OnReceiveWebhook_orphan_cleanup
              Sim.env Sim.two_rooms (Sim.delivery "push" "acme/ghost") Sim.w0
              (evType := "push") (fullName := "acme/ghost")
              (msg := "push on acme/ghost") eq_refl eq_refl) as (_ & Horphan & _).
  destruct (Horphan "acme" "ghost" eq_refl) as (Hatt & Hdone & _).
  split; [|exact Hatt].
  apply (Hdone (Some (Errorf "Failed to find hook with endpoint: https://neb.example.org/hook/svc1"))).
  reflexivity.
Defined.

(** Reconciling [two_rooms] to no rooms: the hook of acme/widgets gets its
    delete attempt and the configuration leaves the storage. *)
Lemma PostRegister_deletes_removed_and_prunes_witness :
  In (attempt (Sim.service []) "acme/widgets")
     (trace_of (PostRegister Sim.env (Sim.service [])
                             (Some (GithubWebhook Sim.two_rooms)) Sim.w0))
  /\ In (CallDeleteService "svc1")
        (trace_of (PostRegister Sim.env (Sim.service [])
                                (Some (GithubWebhook Sim.two_rooms)) Sim.w0))
  /\ ServiceStored Sim.env "svc1"
       (world_of (PostRegister Sim.env (Sim.service [])
                               (Some (GithubWebhook Sim.two_rooms)) Sim.w0))
     = false.
Proof.
  destruct (PostRegister_deletes_removed_and_prunes
              Sim.env (Sim.service []) Sim.two_rooms Sim.w0) as (_ & _ & _ & Hdone).
  destruct (Hdone eq_refl) as (_ & Hprune).
  destruct (Hprune eq_refl) as (Hall & Hdel & Hst).
  split; [|split; [exact Hdel|]].
  - apply Hall. simpl. auto.
  - destruct (Hst Sim_deletes_when_it_succeeds) as [Hfail | Hgone]; [|exact Hgone].
    reflexivity.
Defined.

(** Creating the hook of acme/widgets twice: created, then absorbed. *)
Lemma createHook_absorbs_already_exists_witness :
  strings.Split "acme/widgets" slash = ["acme"; "widgets"]
  /\ result_of (createHook_twice Sim.env Sim.two_rooms Sim.alice "acme/widgets" Sim.w0)
     = Done (None, None).
Proof.
  split; [reflexivity|].
  destruct (createHook_absorbs_already_exists
              Sim.env Sim.two_rooms Sim.alice "acme/widgets" Sim.w0
              (owner := "acme") (name := "widgets") eq_refl)
    as (_ & _ & _ & _ & Htwice).
  apply (Htwice {| StatusCode := 201 |} {| StatusCode := 422 |}
                [{| Message := "Hook already exists on this repository" |}]).
  - reflexivity.
  - discriminate.
  - reflexivity.
  - reflexivity.
  - exists {| Message := "Hook already exists on this repository" |}.
    split; [now left | reflexivity].
Defined.

Lemma Sim_prechecks_pass (rooms : gomap string RoomConfig) :
  prechecks_pass Sim.env (Sim.service rooms) Sim.w0.
Proof.
  unfold prechecks_pass. simpl. repeat split; try discriminate.
  exists {| realm_ID := "gh"; realm_Type := "github" |}. split; reflexivity.
Qed.

(** Registering no rooms: an error when nothing was registered before, and
    no such error when [two_rooms] was. *)
Lemma Register_fails_on_nothing_to_do_witness :
  result_of (Register Sim.env (Sim.service []) None Sim.w0) = no_webhooks_specified
  /\ result_of (Register Sim.env (Sim.service [])
                         (Some (GithubWebhook Sim.two_rooms)) Sim.w0)
     <> no_webhooks_specified.
Proof.
  split.
  - destruct (Register_fails_on_nothing_to_do Sim.env (Sim.service []) None Sim.w0)
      as (_ & Hif & _).
    apply Hif; [apply Sim_prechecks_pass | reflexivity | reflexivity].
  - destruct (Register_fails_on_nothing_to_do
                Sim.env (Sim.service []) (Some (GithubWebhook Sim.two_rooms)) Sim.w0)
      as (_ & _ & Hpending & _).
    apply Hpending; [reflexivity | discriminate].
Defined.

(** Of four hooks on acme/widgets the one pointing at the bridge goes; a
    hook pointing at the bridge that is listed without an id does not: the
    call panics after the listing. *)
Lemma deleteHook_by_endpoint_witness :
  (result_of (deleteHook Sim.env Sim.two_rooms "acme" "widgets" Sim.w_hooks) = Done None
   /\ calls (trace_of (deleteHook Sim.env Sim.two_rooms "acme" "widgets" Sim.w_hooks))
      = [CallGetTokenForUser "gh" "@alice:example.org";
         CallListHooks "acme" "widgets";
         CallDeleteHook "acme" "widgets" 7])
  /\ (result_of (deleteHook Sim.env Sim.two_rooms "acme" "widgets"
                            Sim.w_hook_without_id)
      = Panicked NilPointer
      /\ calls (trace_of (deleteHook Sim.env Sim.two_rooms "acme" "widgets"
                                     Sim.w_hook_without_id))
         = [CallGetTokenForUser "gh" "@alice:example.org";
            CallListHooks "acme" "widgets"]).
Proof.
  assert (Htok : "t0k3n" <> "") by discriminate.
  split.
  - destruct (deleteHook_by_endpoint Sim.env Sim.two_rooms "acme" "widgets"
                                     Sim.w_hooks) as (_ & Hfound & _).
    exact (Hfound Htok eq_refl).
  - destruct (deleteHook_by_endpoint Sim.env Sim.two_rooms "acme" "widgets"
                                     Sim.w_hook_without_id) as (_ & Hfound & _).
    exact (Hfound Htok eq_refl).
Defined.

(** An echo service as the old one: [Register] goes on, [PostRegister]
    stops. *)
Lemma old_service_fallback_witness :
  same_run (Register Sim.env Sim.two_rooms (Some (Echo Sim.echo1)) Sim.w0)
           (Register Sim.env Sim.two_rooms None Sim.w0)
  /\ PostRegister Sim.env Sim.two_rooms (Some (Echo Sim.echo1)) Sim.w0
     = (Done tt, Sim.w0, [cannot_cast (Echo Sim.echo1)]).
Proof.
  destruct (old_service_fallback Sim.env Sim.two_rooms Sim.echo1 Sim.w0)
    as (Hreg & _ & _ & Hpost).
  split; [exact Hreg | exact Hpost].
Defined.

(** Pointed at a jira realm, [Register] fails before any hook or join. *)
Lemma Register_requires_github_realm_witness :
  (exists err, result_of (Register Sim.env Sim.jira_realm None Sim.w0)
               = Done (Some err))
  /\ filter is_create (trace_of (Register Sim.env Sim.jira_realm None Sim.w0)) = []
  /\ filter is_join (trace_of (Register Sim.env Sim.jira_realm None Sim.w0)) = [].
Proof.
  destruct (Register_requires_github_realm Sim.env Sim.jira_realm None Sim.w0)
    as (_ & Hbad).
  destruct Hbad as (Herr & Hc & Hj & _).
  - right. exists {| realm_ID := "jira1"; realm_Type := "jira" |}.
    split; [reflexivity | discriminate].
  - split; [exact Herr|]. split; [exact Hc | exact Hj].
Defined.

(** The listed repo Acme/Widgets splits in bounds. *)
Lemma listed_repos_split_in_bounds_witness :
  In "Acme/Widgets" (fst (repoList Sim.two_rooms))
  /\ result_of (createHook Sim.env Sim.two_rooms Sim.alice "Acme/Widgets" Sim.w0)
     <> Panicked IndexOutOfRange
  /\ result_of (createHook Sim.env Sim.two_rooms Sim.alice "justonename" Sim.w0)
     = Panicked IndexOutOfRange.
Proof.
  assert (Hin : In "Acme/Widgets" (fst (repoList Sim.two_rooms))) by (simpl; auto).
  split; [exact Hin|].
  destruct (listed_repos_split_in_bounds
              Sim.env Sim.two_rooms Sim.two_rooms None Sim.alice "Acme/Widgets"
              Sim.w0 Hin) as (_ & Hcreate & _ & _ & Hbare).
  split; [exact Hcreate|]. apply Hbare. reflexivity.
Defined.

(** ** The scenarios of the spec *)

(** The configurations above are Go maps: no key twice. *)
Lemma Sim_configurations_wf :
  Forall (fun s => gomap_wf (Rooms s)
                   /\ Forall (fun room => gomap_wf (Repos (snd room))) (Rooms s))
         [Sim.two_rooms; Sim.odd_keys; Sim.both_push; Sim.jira_realm; Sim.service []].
Proof.
  unfold gomap_wf.
  repeat (constructor; simpl;
          repeat match goal with
                 | |- _ /\ _ => split
                 | |- NoDup _ => constructor
                 | |- Forall _ _ => constructor
                 | |- ~ _ => intros Hin; simpl in Hin;
                             repeat (destruct Hin as [Hin | Hin]; [discriminate|]);
                             exact Hin
                 end).
Qed.

(** An issues event for acme/widgets goes to [!R2] only. *)
Example issues_go_to_R2 :
  calls (trace_of (OnReceiveWebhook Sim.env Sim.two_rooms
                     (Sim.delivery "issues" "acme/widgets") Sim.w0))
  = [CallSendMessageEvent "!R2" "m.room.message" "issues on acme/widgets";
     CallWriteHeader 200].
Proof. reflexivity. Qed.

(** A pull_request event for acme/widgets goes nowhere and deletes nothing. *)
Example pull_request_goes_nowhere :
  OnReceiveWebhook Sim.env Sim.two_rooms
    (Sim.delivery "pull_request" "acme/widgets") Sim.w0
  = (Done tt, Sim.w0, [CallWriteHeader 200]).
Proof. reflexivity. Qed.

(** A failed send to [!R1] does not keep the push from [!R2]. *)
Example failed_send_does_not_stop_fan_out :
  calls (trace_of (OnReceiveWebhook Sim.env Sim.both_push
                     (Sim.delivery "push" "acme/widgets") Sim.w_r1_fails))
  = [CallSendMessageEvent "!R1" "m.room.message" "push on acme/widgets";
     CallSendMessageEvent "!R2" "m.room.message" "push on acme/widgets";
     CallWriteHeader 200].
Proof. reflexivity. Qed.

(** A delivery for "justonename", which no room names: 400, no delete. *)
Example justonename_is_malformed :
  calls (trace_of (OnReceiveWebhook Sim.env Sim.two_rooms
                     (Sim.delivery "push" "justonename") Sim.w0))
  = [CallWriteHeader 400].
Proof. reflexivity. Qed.

(** A delivery that fails verification gets the verifier's status. *)
Example unsigned_delivery_is_rejected :
  OnReceiveWebhook Sim.env
    {| id := "svc1"; serviceUserID := "@neb:example.org";
       webhookEndpointURL := "https://neb.example.org/hook/svc1";
       ClientUserID := "@alice:example.org"; RealmID := "gh";
       SecretToken := "s3cret"; Rooms := Rooms Sim.two_rooms |}
    (Sim.delivery "push" "acme/widgets") Sim.w0
  = (Done tt, Sim.w0, [CallWriteHeader 403]).
Proof. reflexivity. Qed.

(** A verified delivery whose payload has no full name: the handler panics
    before it answers. *)
Example delivery_without_full_name_panics :
  OnReceiveWebhook Sim.env Sim.two_rooms (Sim.delivery "push" "") Sim.w0
  = (Panicked NilPointer, Sim.w0, []).
Proof. reflexivity. Qed.

(** A delivery for an orphan whose hook is listed without an id: one delete
    attempt, a panic, no answer. *)
Example orphan_hook_without_id_panics :
  result_of (OnReceiveWebhook Sim.env (Sim.service [])
               (Sim.delivery "push" "acme/widgets") Sim.w_hook_without_id)
  = Panicked NilPointer
  /\ calls (trace_of (OnReceiveWebhook Sim.env (Sim.service [])
                        (Sim.delivery "push" "acme/widgets") Sim.w_hook_without_id))
     = [CallGetTokenForUser "gh" "@alice:example.org"; CallListHooks "acme" "widgets"].
Proof. split; reflexivity. Qed.

(** Reconciling [two_rooms] to no rooms when the hook of acme/widgets is
    listed without an id: the loop stops there and nothing is pruned. *)
Example PostRegister_stops_at_hook_without_id :
  result_of (PostRegister Sim.env (Sim.service [])
                          (Some (GithubWebhook Sim.two_rooms)) Sim.w_hook_without_id)
  = Panicked NilPointer
  /\ calls (trace_of (PostRegister Sim.env (Sim.service [])
                         (Some (GithubWebhook Sim.two_rooms)) Sim.w_hook_without_id))
     = [CallGetTokenForUser "gh" "@alice:example.org"; CallListHooks "Acme" "Widgets";
        CallGetTokenForUser "gh" "@alice:example.org"; CallListHooks "acme" "widgets"].
Proof. split; reflexivity. Qed.

(** A listing that starts with a nil entry: the loop panics on it. *)
Example nil_entry_panics :
  result_of (deleteHook Sim.env_nil_listing Sim.two_rooms "acme" "widgets" Sim.w_hooks)
  = Panicked NilPointer.
Proof. reflexivity. Qed.

(** Registering [two_rooms] from nothing creates a hook per listed repo and
    joins both rooms. *)
Example Register_two_rooms :
  result_of (Register Sim.env Sim.two_rooms None Sim.w0) = Done None
  /\ calls (trace_of (Register Sim.env Sim.two_rooms None Sim.w0))
     = [CallLoadAuthRealm "gh";
        CallGetTokenForUser "gh" "@alice:example.org";
        CallCreateHook "Acme" "Widgets" (new_hook Sim.two_rooms);
        CallCreateHook "acme" "widgets" (new_hook Sim.two_rooms);
        CallJoinRoom "!R1"; CallJoinRoom "!R2"].
Proof. split; reflexivity. Qed.

(** With a runtime that ranges in reverse the rooms are joined in the other
    order, after the same creates. *)
Example Register_two_rooms_reversed :
  calls (trace_of (Register Sim.env_reversed Sim.two_rooms None Sim.w0))
  = [CallLoadAuthRealm "gh";
     CallGetTokenForUser "gh" "@alice:example.org";
     CallCreateHook "Acme" "Widgets" (new_hook Sim.two_rooms);
     CallCreateHook "acme" "widgets" (new_hook Sim.two_rooms);
     CallJoinRoom "!R2"; CallJoinRoom "!R1"].
Proof. reflexivity. Qed.

(** * Further properties *)

(** ** Sorting *)

Lemma less_eq_iff (a b : string) :
  sort.less_eq a b = true <-> a = b \/ String_as_OT.lt a b.
Proof.
  unfold sort.less_eq.
  destruct (String_as_OT.compare_spec a b) as [H | H | H]; split; auto;
    try discriminate.
  intros [-> | H'].
  - now apply (StrictOrder_Irreflexive b) in H.
  - exfalso. apply (StrictOrder_Irreflexive a).
    now apply (StrictOrder_Transitive a b a).
Qed.

Lemma less_eq_total (a b : string) :
  sort.less_eq a b = true \/ sort.less_eq b a = true.
Proof.
  rewrite !less_eq_iff.
  destruct (String_as_OT.compare_spec a b) as [H | H | H]; auto.
Qed.

Lemma less_eq_trans (a b c : string) :
  sort.less_eq a b = true -> sort.less_eq b c = true -> sort.less_eq a c = true.
Proof.
  rewrite !less_eq_iff. intros [-> | H1] [-> | H2]; auto.
  right. now apply (StrictOrder_Transitive a b c).
Qed.

Lemma less_eq_antisym (a b : string) :
  sort.less_eq a b = true -> sort.less_eq b a = true -> a = b.
Proof.
  rewrite !less_eq_iff. intros [-> | H1] [H2 | H2]; auto.
  exfalso. apply (StrictOrder_Irreflexive a).
  now apply (StrictOrder_Transitive a b a).
Qed.

Lemma insert_Permutation (x : string) (l : list string) :
  Permutation (x :: l) (sort.insert x l).
Proof.
  induction l as [|y l IH]; simpl; [constructor; constructor|].
  destruct (sort.less_eq x y); [reflexivity|].
  rewrite perm_swap. now constructor.
Qed.

Lemma Strings_Permutation (l : list string) : Permutation l (sort.Strings l).
Proof.
  induction l as [|x l IH]; simpl; [constructor|].
  rewrite <- insert_Permutation. now constructor.
Qed.

Lemma insert_increasing (x : string) (l : list string) :
  increasing l -> increasing (sort.insert x l).
Proof.
  unfold increasing. induction 1 as [|y l Hl IH Hy]; simpl.
  - repeat constructor.
  - destruct (sort.less_eq x y) eqn:Hxy.
    + constructor; [now constructor|]. constructor; [assumption|].
      rewrite Forall_forall in *. intros z Hz. eapply less_eq_trans; eauto.
    + constructor; [assumption|].
      rewrite Forall_forall in *. intros z Hz.
      apply (Permutation_in _ (Permutation_sym (insert_Permutation x l))) in Hz.
      destruct Hz as [<- | Hz]; [|auto].
      destruct (less_eq_total x y) as [H | H]; congruence.
Qed.

Lemma Strings_increasing (l : list string) : increasing (sort.Strings l).
Proof.
  induction l as [|x l IH]; simpl; [constructor | now apply insert_increasing].
Qed.

(** An increasing list is determined by its elements. *)
Lemma increasing_unique (l1 l2 : list string) :
  increasing l1 -> increasing l2 -> Permutation l1 l2 -> l1 = l2.
Proof.
  unfold increasing. intros H1. revert l2.
  induction H1 as [|x l1 Hl1 IH Hx]; intros l2 H2 Hp.
  - apply Permutation_nil in Hp. now subst.
  - destruct H2 as [|y l2 Hl2 Hy].
    + apply Permutation_sym, Permutation_nil in Hp. discriminate.
    + assert (Hxy : x = y).
      { rewrite Forall_forall in Hx, Hy.
        assert (Hx' : In x (y :: l2)) by (apply (Permutation_in _ Hp); now left).
        assert (Hy' : In y (x :: l1))
          by (apply (Permutation_in _ (Permutation_sym Hp)); now left).
        destruct Hx' as [-> | Hx']; [reflexivity|].
        destruct Hy' as [-> | Hy']; [reflexivity|].
        apply less_eq_antisym; auto. }
      subst y. f_equal. apply IH; [assumption|].
      now apply Permutation_cons_inv in Hp.
Qed.

(** [sort.Strings] gives the one increasing rearrangement of its input, so
    two slices sort to the same slice exactly when they hold the same
    strings as often. *)
Lemma Strings_eq_iff (l1 l2 : list string) :
  sort.Strings l1 = sort.Strings l2 <-> Permutation l1 l2.
Proof.
  split.
  - intros H. rewrite (Strings_Permutation l1), H. symmetry.
    apply Strings_Permutation.
  - intros H. apply increasing_unique; try apply Strings_increasing.
    now rewrite <- !Strings_Permutation.
Qed.

(** ** [sameRepos] *)

Lemma map_set_keys (r : gomap string bool) (k : string) (v : bool) :
  keys (map_set r k v) = if existsb (String.eqb k) (keys r) then keys r
                         else keys r ++ [k].
Proof.
  induction r as [|[k' v'] r IH]; simpl; [reflexivity|].
  rewrite (String.eqb_sym k k').
  destruct (String.eqb k' k) eqn:Hk; simpl; [reflexivity|].
  rewrite IH. now destruct (existsb (String.eqb k) (keys r)).
Qed.

Lemma map_set_spec (r : gomap string bool) (k : string) (v : bool) :
  (NoDup (keys r) -> NoDup (keys (map_set r k v)))
  /\ (forall x, In x (keys (map_set r k v)) <-> In x (keys r) \/ x = k).
Proof.
  rewrite map_set_keys.
  destruct (existsb (String.eqb k) (keys r)) eqn:Hk.
  - apply existsb_eqb_In' in Hk. split; [auto|].
    intros x. split; [auto|]. intros [H | ->]; assumption.
  - assert (Hni : ~ In k (keys r)).
    { intros H. apply existsb_eqb_In' in H. congruence. }
    split.
    + intros Hnd. apply NoDup_app; [assumption | repeat constructor; simpl; tauto |].
      intros x Hx [<- | []]. contradiction.
    + intros x. rewrite in_app_iff. simpl. intuition congruence.
Qed.

Lemma getRepos_room_spec (rs : gomap string RepoConfig) :
  forall r : gomap string bool,
    (NoDup (keys r) -> NoDup (keys (getRepos_room rs r)))
    /\ (forall x, In x (keys (getRepos_room rs r)) <-> In x (keys r) \/ In x (keys rs)).
Proof.
  induction rs as [|[k c] rs IH]; intros r; simpl.
  - split; [auto|]. intros x. tauto.
  - destruct (IH (map_set r k true)) as [I1 I2].
    destruct (map_set_spec r k true) as [M1 M2].
    split; [auto|]. intros x. rewrite I2, M2. intuition congruence.
Qed.

Lemma getRepos_rooms_spec (rooms : gomap string RoomConfig) :
  forall r : gomap string bool,
    (NoDup (keys r) -> NoDup (keys (getRepos_rooms rooms r)))
    /\ (forall x, In x (keys (getRepos_rooms rooms r)) <->
                  In x (keys r) \/ rooms_key rooms x).
Proof.
  induction rooms as [|[roomID rc] rooms IH]; intros r; simpl.
  - split; [auto|]. intros x. split; [auto|].
    intros [H | (? & ? & ? & [] & _)]. assumption.
  - destruct (IH (getRepos_room (Repos rc) r)) as [I1 I2].
    destruct (getRepos_room_spec (Repos rc) r) as [R1 R2].
    split; [auto|]. intros x. rewrite I2, R2, rooms_key_cons. tauto.
Qed.

Lemma getRepos_NoDup (s : githubWebhookService) : NoDup (getRepos s).
Proof. apply (getRepos_rooms_spec (Rooms s) []). constructor. Qed.

Lemma getRepos_In (s : githubWebhookService) (k : string) :
  In k (getRepos s) <-> repo_key s k.
Proof.
  unfold getRepos. destruct (getRepos_rooms_spec (Rooms s) []) as [_ H].
  rewrite H. simpl. unfold repo_key, rooms_key. tauto.
Qed.

Lemma same_at_every_index (a b : list string) :
  length a = length b ->
  forallb (fun i => String.eqb (nth i a "") (nth i b "")) (seq 0 (length a)) = true
  <-> a = b.
Proof.
  intros Hlen. rewrite forallb_forall. split.
  - intros H. apply (nth_ext a b "" "" Hlen). intros n Hn.
    apply String.eqb_eq. apply H. apply in_seq. lia.
  - intros -> i _. apply String.eqb_refl.
Qed.

Lemma sameRepos_Permutation (a b : githubWebhookService) :
  sameRepos a b = true <-> Permutation (getRepos a) (getRepos b).
Proof.
  unfold sameRepos. cbv zeta.
  destruct (Nat.eqb (length (getRepos a)) (length (getRepos b))) eqn:Hlen; simpl.
  - apply Nat.eqb_eq in Hlen. rewrite same_at_every_index.
    + apply Strings_eq_iff.
    + now rewrite <- !(Permutation_length (Strings_Permutation _)).
  - apply Nat.eqb_neq in Hlen. split; [discriminate|].
    intros H. now apply Permutation_length in H.
Qed.

Lemma sameRepos_iff_same_keys_aux (a b : githubWebhookService) :
  sameRepos a b = true -> forall k, repo_key a k <-> repo_key b k.
Proof.
  rewrite sameRepos_Permutation. intros H k. rewrite <- !getRepos_In.
  split; apply Permutation_in; auto. now symmetry.
Qed.

(** X1: [sameRepos] compares the sets of repo keys and nothing else: it is
    true exactly when every key bound in some room of the one configuration
    is bound in some room of the other, whichever the rooms, the events and
    the order are. *)
Theorem sameRepos_iff_same_keys (a b : githubWebhookService) :
  sameRepos a b = true <-> (forall k, repo_key a k <-> repo_key b k).
Proof.
  split; [apply sameRepos_iff_same_keys_aux|]. rewrite sameRepos_Permutation.
  intros H. apply NoDup_Permutation; try apply getRepos_NoDup.
  intros k. now rewrite !getRepos_In.
Qed.

(** X2: [sameRepos] is an equivalence on configurations. *)
Theorem sameRepos_equivalence (a b c : githubWebhookService) :
  sameRepos a a = true
  /\ sameRepos a b = sameRepos b a
  /\ (sameRepos a b = true -> sameRepos b c = true -> sameRepos a c = true).
Proof.
  split; [|split].
  - apply sameRepos_Permutation. reflexivity.
  - destruct (sameRepos a b) eqn:Hab, (sameRepos b a) eqn:Hba; try reflexivity.
    + apply sameRepos_Permutation in Hab. symmetry in Hab.
      apply sameRepos_Permutation in Hab. congruence.
    + apply sameRepos_Permutation in Hba. symmetry in Hba.
      apply sameRepos_Permutation in Hba. congruence.
  - rewrite !sameRepos_Permutation. apply Permutation_trans.
Qed.

(** X3: configurations that [sameRepos] equates have the same repo list, as
    a set, and get the same diagnostics. *)
Theorem sameRepos_same_repoList (a b : githubWebhookService) :
  sameRepos a b = true ->
  (forall k, In k (fst (repoList a)) <-> In k (fst (repoList b)))
  /\ (forall e, In e (snd (repoList a)) <-> In e (snd (repoList b))).
Proof.
  intros Hsame. pose proof (sameRepos_iff_same_keys_aux a b Hsame) as H.
  split.
  - intros k. rewrite !repoList_In, (H k). tauto.
  - intros e. rewrite !repoList_diagnostics. split.
    + intros (k & He & Hk & Hb). exists k. rewrite <- (H k). auto.
    + intros (k & He & Hk & Hb). exists k. rewrite (H k). auto.
Qed.

(** ** Joining the rooms *)

Lemma joinRooms_prefix {W : Type} (E : Env W) (rooms : gomap string RoomConfig) :
  forall w : W,
    let r := joinRooms E rooms w in
    exists n,
      n <= length rooms
      /\ trace_of r = map CallJoinRoom (firstn n (keys rooms))
      /\ (result_of r = Done None /\ n = length rooms
          \/ exists e, result_of r = Done (Some (Collab e)) /\ 0 < n).
Proof.
  induction rooms as [|[roomID rc] rooms IH]; intros w; cbn [joinRooms]; cbv zeta.
  - exists 0. simpl. auto.
  - unfold bind, call.
    destruct (JoinRoom E roomID w) as [[e|] w1]; simpl.
    + exists 1. simpl. split; [lia|]. split; [reflexivity|].
      right. exists e. split; [reflexivity | lia].
    + destruct (IH w1) as (n & Hn & Ht & Hres).
      destruct (joinRooms E rooms w1) as [[o w2] t2].
      autorewrite with run in *. exists (S n). simpl. split; [lia|].
      split; [now rewrite Ht|].
      destruct Hres as [[-> ->] | (e & -> & Hpos)]; [now left|].
      right. exists e. split; [reflexivity | lia].
Qed.

(** The loop of [joinWebhookRooms] by what [JoinRoom] answers: either every
    join is answered without an error, or the joins before some room are,
    that room's join is answered with an error, and the loop ends there
    with that error. *)
Lemma joinRooms_run {W : Type} (E : Env W) (rooms : gomap string RoomConfig) :
  forall w : W,
    let r := joinRooms E rooms w in
    (joins_succeed E (keys rooms) w (world_of r)
     /\ result_of r = Done None
     /\ trace_of r = map CallJoinRoom (keys rooms))
    \/ (exists pre roomID post e w1,
           keys rooms = pre ++ roomID :: post
           /\ joins_succeed E pre w w1
           /\ JoinRoom E roomID w1 = (Some e, world_of r)
           /\ result_of r = Done (Some (Collab e))
           /\ trace_of r = map CallJoinRoom (pre ++ [roomID])).
Proof.
  induction rooms as [|[roomID rc] rooms IH]; intros w; cbn [joinRooms]; cbv zeta.
  - left. unfold ret. autorewrite with run. repeat split. constructor.
  - unfold bind, call.
    destruct (JoinRoom E roomID w) as [[e|] w1] eqn:Hj; simpl.
    + right. exists [], roomID, (keys rooms), e, w. autorewrite with run.
      repeat split; auto. constructor.
    + destruct (IH w1) as [(I1 & I2 & I3) | (pre & r' & post & e & w2 & I1 & I2 & I3 & I4 & I5)];
        destruct (joinRooms E rooms w1) as [[o w3] t3];
        autorewrite with run in *.
      * left. repeat split; [|exact I2|now rewrite I3].
        apply joins_next; rewrite Hj; [reflexivity | exact I1].
      * right. exists (roomID :: pre), r', post, e, w2. repeat split; auto.
        -- now rewrite I1.
        -- apply joins_next; rewrite Hj; [reflexivity | exact I2].
        -- now rewrite I5.
Qed.

Lemma joinWebhookRooms_eq {W : Type} (E : Env W) (s : githubWebhookService) (w : W) :
  joinWebhookRooms E s w
  = joinRooms E (fst (RangeOrder E (Rooms s) w)) (snd (RangeOrder E (Rooms s) w)).
Proof.
  unfold joinWebhookRooms, range, bind.
  destruct (RangeOrder E (Rooms s) w) as [order w1]. simpl.
  now destruct (joinRooms E order w1) as [[o w2] t2].
Qed.

(** X4: [joinWebhookRooms] joins the rooms in the order its range visits
    them and stops at the first join that is answered with an error.  Either
    every room's join was answered without an error, and then it returns no
    error and its calls are the joins of all the rooms; or the joins of the
    rooms before some room were, that room's join was answered with an
    error, and then it returns that very error and its calls are the joins
    up to that room: no later room is joined, and rooms joined before are
    not left again.  When the runtime's range visits every entry once, the
    rooms it joins are rooms of the configuration. *)
Theorem joinWebhookRooms_stops_at_first_failure {W : Type} (E : Env W)
        (s : githubWebhookService) (w : W) :
  let order := keys (fst (RangeOrder E (Rooms s) w)) in
  let w0 := snd (RangeOrder E (Rooms s) w) in
  let r := joinWebhookRooms E s w in
  ((joins_succeed E order w0 (world_of r)
    /\ result_of r = Done None
    /\ trace_of r = map CallJoinRoom order)
   \/ (exists pre roomID post e w1,
          order = pre ++ roomID :: post
          /\ joins_succeed E pre w0 w1
          /\ JoinRoom E roomID w1 = (Some e, world_of r)
          /\ result_of r = Done (Some (Collab e))
          /\ trace_of r = map CallJoinRoom (pre ++ [roomID])))
  /\ (ranges_over_all E -> Permutation order (keys (Rooms s))).
Proof.
  cbv zeta. split.
  - rewrite joinWebhookRooms_eq. apply joinRooms_run.
  - intros H. unfold keys. apply Permutation_map. apply H.
Qed.

(** ** The client and the realm *)

(** X5: [githubClientFor] makes one token lookup and decides on the token
    alone: an error of the lookup is logged and otherwise ignored.  Without
    [allowUnauth] it returns a client exactly when the token is not empty;
    with [allowUnauth] it always returns one; the client it returns carries
    the token that was looked up. *)
Theorem githubClientFor_depends_on_token {W : Type} (E : Env W)
        (s : githubWebhookService) (userID : string) (allowUnauth : bool) (w : W) :
  let G := getTokenForUser E (RealmID s) userID w in
  let r := githubClientFor E s userID allowUnauth w in
  calls (trace_of r) = [CallGetTokenForUser (RealmID s) userID]
  /\ world_of r = snd G
  /\ (allowUnauth = true -> result_of r = Done (Some {| token := fst (fst G) |}))
  /\ (allowUnauth = false ->
      (fst (fst G) = "" -> result_of r = Done None)
      /\ (fst (fst G) <> "" -> result_of r = Done (Some {| token := fst (fst G) |}))).
Proof.
  cbv zeta. unfold githubClientFor, bind, call, log, ret.
  destruct (getTokenForUser E (RealmID s) userID w) as [[tok err] w1]. simpl.
  destruct (String.eqb tok "") eqn:Htok.
  - apply String.eqb_eq in Htok. subst tok.
    destruct err, allowUnauth; simpl; repeat split; congruence.
  - apply String.eqb_neq in Htok.
    destruct err, allowUnauth; simpl; repeat split; congruence.
Qed.

(** X6: [loadRealm] with an empty [RealmID] fails without asking the
    database.  Otherwise it asks once, and the realm it returns is the one
    the database gave, without an error, and of type "github"; an error of
    the database is returned as it is. *)
Theorem loadRealm_returns_github_realms_only {W : Type} (E : Env W)
        (s : githubWebhookService) (w : W) :
  let L := LoadAuthRealm E (RealmID s) w in
  let r := loadRealm E s w in
  (RealmID s = "" -> r = (Done (inl (Errorf "Missing RealmID")), w, []))
  /\ (RealmID s <> "" ->
      world_of r = snd L /\ trace_of r = [CallLoadAuthRealm (RealmID s)])
  /\ (forall realm, result_of r = Done (inr realm) ->
                    RealmID s <> "" /\ fst L = (Some realm, None)
                    /\ realm_Type realm = "github")
  /\ (forall e, RealmID s <> "" -> snd (fst L) = Some e ->
                result_of r = Done (inl (Collab e))).
Proof.
  cbv zeta. split; [|split; [|split]].
  - intros H. unfold loadRealm. now rewrite H.
  - intros H. now rewrite (loadRealm_run E s w H).
  - intros realm. destruct (string_dec (RealmID s) "") as [H | H].
    + unfold loadRealm. rewrite H. discriminate.
    + rewrite (loadRealm_run E s w H). autorewrite with run.
      destruct (fst (LoadAuthRealm E (RealmID s) w)) as [[realm'|] [e|]];
        try discriminate.
      destruct (String.eqb (realm_Type realm') "github") eqn:Hty; [|discriminate].
      intros Heq. injection Heq as ->. apply String.eqb_eq in Hty. auto.
  - intros e H He. rewrite (loadRealm_run E s w H). autorewrite with run.
    destruct (fst (LoadAuthRealm E (RealmID s) w)) as [[realm'|] [e'|]];
      simpl in He; try discriminate; now injection He as ->.
Qed.

(** ** The calls of [Register] *)

Lemma Difference_same (l : list string) : util.Difference l l = ([], []).
Proof.
  unfold util.Difference.
  assert (H : filter (fun x => negb (existsb (String.eqb x) l)) l = []).
  { apply filter_none. intros x Hx. apply negb_false_iff.
    now apply existsb_eqb_In'. }
  now rewrite H.
Qed.

Lemma create_call_split (s : githubWebhookService) (r owner name : string) :
  strings.Split r slash = [owner; name] ->
  create_call s r = CallCreateHook owner name (new_hook s).
Proof. unfold create_call. now intros ->. Qed.

Section RegisterCalls.

Context {W : Type} (E : Env W).

Variable s : githubWebhookService.

Lemma Register_hooks_prefix (cli : Client) (l : list string) :
  Forall good_key l ->
  forall w : W,
    let r := Register_hooks E s cli l w in
    exists n,
      n <= length l
      /\ calls (trace_of r) = map (create_call s) (firstn n l)
      /\ (result_of r = Done None -> n = length l)
      /\ passed_on (result_of r).
Proof.
  induction 1 as [|r l Hr Hl IH]; intros w; cbn [Register_hooks]; cbv zeta.
  - exists 0. simpl. repeat split; auto. now left.
  - destruct (Count_one_Split slash r Hr) as (o & n & Hs & _).
    destruct (@createHook_run W E s cli r o n Hs w) as (Hres & _ & Hc).
    rewrite <- (create_call_split s r Hs) in Hc.
    destruct (createHook_passed_on E s cli r w) as [Hp | [(e & Hp) | (p & Hp)]].
    + rewrite (bind_done _ _ (run_done _ Hp)), bind_log.
      destruct (IH (world_of (createHook E s cli r w))) as (k & Hk & Ht & Hn & Hpo).
      autorewrite with run. exists (S k). simpl. split; [lia|]. split.
      * rewrite calls_app, Hc. unfold calls at 1. simpl. fold (calls (trace_of
          (Register_hooks E s cli l (world_of (createHook E s cli r w))))).
        now rewrite Ht.
      * split; [intros H; f_equal; auto | exact Hpo].
    + rewrite (bind_done _ _ (run_done _ Hp)), bind_log. unfold ret.
      autorewrite with run. exists 1. simpl. split; [lia|]. split.
      * rewrite calls_app, Hc. reflexivity.
      * split; [discriminate|]. right. left. now exists e.
    + rewrite (bind_panicked _ _ (eq_trans (run_eta _)
                  (f_equal (fun o => (o, _, _)) Hp))).
      autorewrite with run. exists 1. simpl. split; [lia|]. split; [exact Hc|].
      split; [discriminate|]. right. right. now exists p.
Qed.

Lemma Register_finish_shape (cli : Client) (l : list string) (w : W) :
  Forall good_key l ->
  let r := Register_finish E s cli l w in
  let order := fst (RangeOrder E (Rooms s) (world_of (Register_hooks E s cli l w))) in
  exists n m,
    n <= length l /\ m <= length order
    /\ calls (trace_of r)
       = map (create_call s) (firstn n l)
         ++ map CallJoinRoom (firstn m (keys order))
    /\ (0 < m -> n = length l)
    /\ (result_of r = Done None -> n = length l /\ m = length order)
    /\ passed_on (result_of r).
Proof.
  intros Hl. cbv zeta. unfold Register_finish.
  destruct (Register_hooks_prefix cli Hl w) as (n & Hn & Hc & Hall & Hp).
  destruct Hp as [Hp | [(e & Hp) | (p & Hp)]].
  - rewrite (bind_done _ _ (run_done _ Hp)).
    set (w1 := world_of (Register_hooks E s cli l w)).
    destruct (joinRooms_prefix E (fst (RangeOrder E (Rooms s) w1))
                               (snd (RangeOrder E (Rooms s) w1)))
      as (m & Hm & Ht & Hres).
    rewrite <- (joinWebhookRooms_eq E s w1) in Ht, Hres.
    destruct Hres as [[Hj Hmall] | (c & Hj & Hpos)].
    + rewrite (bind_done _ _ (run_done _ Hj)), bind_log. unfold ret.
      autorewrite with run. exists n, m. repeat split; auto.
      * rewrite !calls_app, Hc, Ht. f_equal. unfold calls. simpl.
        rewrite app_nil_r. apply forallb_filter_id. apply forallb_forall.
        intros x Hx. apply in_map_iff in Hx. now destruct Hx as (? & <- & _).
      * now left.
    + rewrite (bind_done _ _ (run_done _ Hj)). unfold ret.
      autorewrite with run. exists n, m. repeat split; auto; try discriminate.
      * rewrite !calls_app, Hc, Ht. f_equal. rewrite app_nil_r.
        apply forallb_filter_id. apply forallb_forall.
        intros x Hx. apply in_map_iff in Hx. now destruct Hx as (? & <- & _).
      * right. left. now exists c.
  - rewrite (bind_done _ _ (run_done _ Hp)). unfold ret. autorewrite with run.
    exists n, 0. simpl. rewrite !app_nil_r. repeat split; auto; try lia;
      try discriminate. right. left. now exists e.
  - rewrite (bind_panicked _ _ (eq_trans (run_eta _)
                (f_equal (fun o => (o, _, _)) Hp))).
    autorewrite with run. exists n, 0. simpl. rewrite !app_nil_r.
    repeat split; auto; try lia; try discriminate. right. right. now exists p.
Qed.

(** Past its checks and its guard, [Register] is the two lookups followed
    by [Register_finish] on the added repos. *)
Lemma Register_proceeds (oldService : option Service) (w : W) :
  prechecks_pass E s w ->
  Nat.eqb (length (fst (repoList s))) 0
  && Nat.eqb (length (removed_repos s oldService)) 0 = false ->
  let L := LoadAuthRealm E (RealmID s) w in
  let G := getTokenForUser E (RealmID s) (ClientUserID s) (snd L) in
  let f := Register_finish E s {| token := fst (fst G) |}
                           (added_repos s oldService) (snd G) in
  exists t_pre,
    calls t_pre = [CallLoadAuthRealm (RealmID s);
                   CallGetTokenForUser (RealmID s) (ClientUserID s)]
    /\ Register E s oldService w = (result_of f, world_of f, t_pre ++ trace_of f).
Proof.
  intros (Hr & Hc & (realm & HfL & Hty) & Htok) Hguard. cbv zeta.
  unfold Register.
  replace (String.eqb (RealmID s) "" || String.eqb (ClientUserID s) "") with false
    by (symmetry; apply orb_false_iff; split; now apply String.eqb_neq).
  pose proof (loadRealm_run E s w Hr) as HL. cbv zeta in HL.
  rewrite HfL in HL. apply String.eqb_eq in Hty. rewrite Hty in HL.
  rewrite (bind_done _ _ HL).
  destruct (githubClientFor_run E s (ClientUserID s)
              (snd (LoadAuthRealm E (RealmID s) w))) as (tg & Htg & HG).
  apply String.eqb_neq in Htok. rewrite Htok in HG.
  rewrite (bind_done _ _ HG).
  set (w2 := snd (getTokenForUser E (RealmID s) (ClientUserID s)
                    (snd (LoadAuthRealm E (RealmID s) w)))).
  assert (Hold : exists t0,
             (match oldService with
              | None => ret []
              | Some (GithubWebhook old) => emit (repoList old)
              | Some other => emit ([], [cannot_cast other])
              end) w2 = (Done (old_repos oldService), w2, t0) /\ calls t0 = []).
  { unfold old_repos. destruct oldService as [[old|e]|]; simpl.
    - exists (snd (repoList old)). split; [reflexivity|].
      apply repoList_logs_only.
    - eexists. split; reflexivity.
    - eexists. split; reflexivity. }
  destruct Hold as (t0 & Hold & Ht0).
  rewrite (bind_done _ _ Hold), bind_emit.
  unfold removed_repos in Hguard. unfold added_repos.
  destruct (util.Difference (fst (repoList s)) (old_repos oldService))
    as [newRepos removedRepos]. simpl snd in Hguard. simpl fst.
  rewrite Hguard.
  fold (Register_finish E s
          {| token := fst (fst (getTokenForUser E (RealmID s) (ClientUserID s)
                                  (snd (LoadAuthRealm E (RealmID s) w)))) |}
          newRepos).
  autorewrite with run.
  exists ([CallLoadAuthRealm (RealmID s)] ++ tg ++ t0 ++ snd (repoList s)).
  split.
  - rewrite !calls_app, Htg, Ht0, repoList_logs_only. reflexivity.
  - now rewrite <- !app_assoc.
Qed.

End RegisterCalls.

Lemma filter_calls (f : event -> bool) (t : list event) :
  (forall lvl msg fields, f (Logged lvl msg fields) = false) ->
  filter f t = filter f (calls t).
Proof.
  intros Hf. induction t as [|e t IH]; [reflexivity|].
  unfold calls in *. simpl. destruct e; simpl; rewrite IH; try reflexivity.
  now rewrite Hf.
Qed.

Lemma filter_map_all {A} (f : event -> bool) (g : A -> event) (l : list A) :
  (forall x, f (g x) = true) -> filter f (map g l) = map g l.
Proof.
  intros H. apply forallb_filter_id. apply forallb_forall.
  intros e He. apply in_map_iff in He. destruct He as (x & <- & _). apply H.
Qed.

Lemma filter_map_none {A} (f : event -> bool) (g : A -> event) (l : list A) :
  (forall x, f (g x) = false) -> filter f (map g l) = [].
Proof.
  intros H. apply filter_none.
  intros e He. apply in_map_iff in He. destruct He as (x & <- & _). apply H.
Qed.

Lemma added_repos_good (s : githubWebhookService) (oldService : option Service) :
  Forall good_key (added_repos s oldService).
Proof.
  apply Forall_forall. intros k Hk. unfold added_repos in Hk.
  apply Difference_fst in Hk. destruct Hk as [Hk _]. now apply repoList_In in Hk.
Qed.

Lemma NoDup_firstn {A} (n : nat) (l : list A) : NoDup l -> NoDup (firstn n l).
Proof.
  intros H. revert n. induction H as [|x l Hx Hl IH]; intros [|n]; simpl;
    try constructor; auto.
  intros Hin. apply Hx. now apply In_firstn in Hin.
Qed.

Lemma added_repos_NoDup (s : githubWebhookService) (oldService : option Service) :
  NoDup (added_repos s oldService).
Proof. unfold added_repos, util.Difference. simpl. apply NoDup_filter, repoList_NoDup. Qed.

Lemma firstn_nonempty {A} (n : nat) (l : list A) : firstn n l <> [] -> 0 < n.
Proof. destruct n; [now intros [] | lia]. Qed.

(** The calls of any run of [Register], in their order; [order] is the
    order in which the rooms are ranged over for the joins. *)
Lemma Register_shape {W : Type} (E : Env W) (s : githubWebhookService)
      (oldService : option Service) (w : W) :
  let r := Register E s oldService w in
  exists k n m order,
    calls (trace_of r)
    = firstn k [CallLoadAuthRealm (RealmID s);
                CallGetTokenForUser (RealmID s) (ClientUserID s)]
      ++ map (create_call s) (firstn n (added_repos s oldService))
      ++ map CallJoinRoom (firstn m (keys order))
    /\ n <= length (added_repos s oldService) /\ m <= length order
    /\ (ranges_over_all E -> Permutation order (Rooms s))
    /\ (0 < n \/ 0 < m -> k = 2)
    /\ (0 < m -> n = length (added_repos s oldService))
    /\ (result_of r = Done None ->
        k = 2 /\ n = length (added_repos s oldService) /\ m = length order).
Proof.
  cbv zeta.
  assert (early : forall (r : outcome (option error) * W * list event) k,
             calls (trace_of r)
             = firstn k [CallLoadAuthRealm (RealmID s);
                         CallGetTokenForUser (RealmID s) (ClientUserID s)] ->
             result_of r <> Done None ->
             exists k n m order,
               calls (trace_of r)
               = firstn k [CallLoadAuthRealm (RealmID s);
                           CallGetTokenForUser (RealmID s) (ClientUserID s)]
                 ++ map (create_call s) (firstn n (added_repos s oldService))
                 ++ map CallJoinRoom (firstn m (keys order))
               /\ n <= length (added_repos s oldService) /\ m <= length order
               /\ (ranges_over_all E -> Permutation order (Rooms s))
               /\ (0 < n \/ 0 < m -> k = 2)
               /\ (0 < m -> n = length (added_repos s oldService))
               /\ (result_of r = Done None ->
                   k = 2 /\ n = length (added_repos s oldService)
                   /\ m = length order)).
  { intros r k Hc Hres. exists k, 0, 0, (Rooms s). simpl. rewrite app_nil_r.
    repeat split; try lia; try contradiction; auto. }
  destruct (string_dec (RealmID s) "") as [Hr | Hr].
  { rewrite (Register_fields_missing E s oldService w (or_introl Hr)).
    apply (early _ 0); [reflexivity | discriminate]. }
  destruct (string_dec (ClientUserID s) "") as [Hc | Hc].
  { rewrite (Register_fields_missing E s oldService w (or_intror Hc)).
    apply (early _ 0); [reflexivity | discriminate]. }
  pose proof (Register_run E s oldService w Hr Hc) as Hrun. cbv zeta in Hrun.
  destruct (fst (LoadAuthRealm E (RealmID s) w)) as [[realm|] [e|]] eqn:HfL;
    try (rewrite Hrun; apply (early _ 1); [reflexivity | discriminate]).
  destruct (String.eqb (realm_Type realm) "github") eqn:Hty;
    [|rewrite Hrun; apply (early _ 1); [reflexivity | discriminate]].
  destruct (String.eqb (fst (fst (getTokenForUser E (RealmID s) (ClientUserID s)
                                    (snd (LoadAuthRealm E (RealmID s) w))))) "")
           eqn:Htok.
  { destruct Hrun as [Hres Hcalls].
    apply (early _ 2); [exact Hcalls | rewrite Hres; discriminate]. }
  destruct (Nat.eqb (length (fst (repoList s))) 0
            && Nat.eqb (length (removed_repos s oldService)) 0) eqn:Hg.
  { destruct Hrun as (Hres & _ & Hcalls).
    apply (early _ 2); [exact Hcalls | rewrite Hres; discriminate]. }
  assert (Hpre : prechecks_pass E s w).
  { repeat split; auto.
    - exists realm. split; [exact HfL | now apply String.eqb_eq].
    - now apply String.eqb_neq. }
  destruct (@Register_proceeds W E s oldService w Hpre Hg) as (t_pre & Hpc & Heq).
  rewrite Heq. autorewrite with run.
  destruct (@Register_finish_shape W E s
              {| token := fst (fst (getTokenForUser E (RealmID s) (ClientUserID s)
                                      (snd (LoadAuthRealm E (RealmID s) w)))) |}
              (added_repos s oldService)
              (snd (getTokenForUser E (RealmID s) (ClientUserID s)
                      (snd (LoadAuthRealm E (RealmID s) w))))
              (added_repos_good s oldService))
    as (n & m & Hn & Hm & Hfc & Hjoin & Hok & _).
  exists 2, n, m. eexists. rewrite calls_app, Hpc, Hfc. simpl.
  split; [reflexivity|].
  repeat split; auto; apply Hok; assumption.
Qed.

(** X7: without a [RealmID] or without a [ClientUserID], [Register] returns
    its "RealmID and ClientUserID is required" error at once: it calls no
    collaborator and logs nothing.  A service as the factory makes it has
    neither, so it cannot be registered before it is configured. *)
Theorem Register_needs_both_ids {W : Type} (E : Env W) (s : githubWebhookService)
        (oldService : option Service) (w : W) :
  (RealmID s = "" \/ ClientUserID s = "" ->
   Register E s oldService w
   = (Done (Some (Errorf "RealmID and ClientUserID is required")), w, []))
  /\ (forall serviceID userID url,
         Register E (new_githubWebhookService serviceID userID url) oldService w
         = (Done (Some (Errorf "RealmID and ClientUserID is required")), w, [])).
Proof.
  split.
  - apply Register_fields_missing.
  - intros serviceID userID url. apply Register_fields_missing. now left.
Qed.

(** X8: in every run, the calls of [Register] are, in this order: the realm
    lookup, the token lookup, creates, and joins.  The creates are for
    added repos (the repos listed now and not before), one each; a hook is
    created only after both lookups, and a room is joined only after the
    hooks of all added repos were created.  When the runtime's range visits
    every room once, the joins are for rooms of the configuration, one
    each.  Nothing is said on the order among the creates or among the
    joins. *)
Theorem Register_calls_in_order {W : Type} (E : Env W) (s : githubWebhookService)
        (oldService : option Service) (w : W) :
  let r := Register E s oldService w in
  exists k creates joins,
    calls (trace_of r)
    = firstn k [CallLoadAuthRealm (RealmID s);
                CallGetTokenForUser (RealmID s) (ClientUserID s)]
      ++ map (create_call s) creates
      ++ map CallJoinRoom joins
    /\ (creates <> [] \/ joins <> [] -> k = 2)
    /\ NoDup creates
    /\ (forall x, In x creates -> In x (added_repos s oldService))
    /\ (joins <> [] -> forall x, In x (added_repos s oldService) -> In x creates)
    /\ (ranges_over_all E -> gomap_wf (Rooms s) ->
        NoDup joins /\ forall x, In x joins -> In x (keys (Rooms s)))
    /\ (forall k', In k' (added_repos s oldService) <->
                   In k' (fst (repoList s)) /\ ~ In k' (old_repos oldService)).
Proof.
  cbv zeta.
  destruct (Register_shape E s oldService w)
    as (k & n & m & order & Hc & _ & _ & Hperm & H1 & H2 & _).
  exists k, (firstn n (added_repos s oldService)), (firstn m (keys order)).
  split; [exact Hc|]. split; [|split; [|split; [|split; [|split]]]].
  - intros [H | H]; apply H1; [left | right]; now apply firstn_nonempty in H.
  - apply NoDup_firstn, added_repos_NoDup.
  - intros x. apply In_firstn.
  - intros H x Hx. apply firstn_nonempty in H. rewrite (H2 H), firstn_all.
    exact Hx.
  - intros Hrange Hwf.
    assert (Hp : Permutation (keys order) (keys (Rooms s)))
      by (unfold keys; apply Permutation_map, Hperm, Hrange).
    split.
    + apply NoDup_firstn. apply (Permutation_NoDup (Permutation_sym Hp)).
      exact Hwf.
    + intros x Hx. apply In_firstn in Hx. now apply (Permutation_in _ Hp).
  - intros k'. apply Difference_fst.
Qed.

(** X9: when [Register] returns no error, it has created one hook for every
    added repo, each for the repo's owner and name, and it made no other
    create call; its joins are those of the rooms its range visited, which
    are the rooms of the configuration, each once, when the runtime's range
    visits every entry once.  Nothing is said on the order of the creates or
    of the joins. *)
Theorem Register_success_created_and_joined_all {W : Type} (E : Env W)
        (s : githubWebhookService) (oldService : option Service) (w : W) :
  result_of (Register E s oldService w) = Done None ->
  exists creates joins,
    filter is_create (trace_of (Register E s oldService w))
    = map (create_call s) creates
    /\ Permutation creates (added_repos s oldService)
    /\ filter is_join (trace_of (Register E s oldService w))
       = map CallJoinRoom joins
    /\ (ranges_over_all E -> Permutation joins (keys (Rooms s)))
    /\ (forall r, In r (added_repos s oldService) ->
                  exists owner name,
                    r = (owner ++ "/" ++ name)%string
                    /\ create_call s r = CallCreateHook owner name (new_hook s)).
Proof.
  intros Hres.
  destruct (Register_shape E s oldService w)
    as (k & n & m & order & Hc & _ & _ & Hperm & _ & _ & Hok).
  destruct (Hok Hres) as (-> & -> & ->).
  rewrite !firstn_all in Hc.
  replace (firstn (length order) (keys order)) with (keys order) in Hc
    by (unfold keys; rewrite <- (length_map fst order) at 1;
        now rewrite firstn_all).
  exists (added_repos s oldService), (keys order).
  split; [|split; [|split; [|split]]].
  - rewrite (filter_calls is_create); [|reflexivity]. rewrite Hc. simpl.
    rewrite filter_app, filter_map_all, filter_map_none; auto using app_nil_r.
  - apply Permutation_refl.
  - rewrite (filter_calls is_join); [|reflexivity]. rewrite Hc. simpl.
    rewrite filter_app, filter_map_none, filter_map_all; auto.
  - intros Hrange. unfold keys. apply Permutation_map, Hperm, Hrange.
  - intros r Hr. pose proof (added_repos_good s oldService) as Hg.
    rewrite Forall_forall in Hg.
    destruct (Count_one_Split slash r (Hg r Hr)) as (o & nm & Hs & Heq).
    exists o, nm. split; [exact Heq | now apply create_call_split].
Qed.

(** X10: [Register] only adds: apart from log lines, every event of a run is
    a realm lookup, a token lookup, a hook creation or a room join.  It
    never lists or deletes a hook, never deletes the configuration, never
    sends a message. *)
Theorem Register_never_deletes {W : Type} (E : Env W) (s : githubWebhookService)
        (oldService : option Service) (w : W) :
  forall e, In e (trace_of (Register E s oldService w)) ->
            is_log e = true \/ is_register_call e = true.
Proof.
  intros e He. destruct (is_log e) eqn:Hlog; [now left | right].
  assert (Hin : In e (calls (trace_of (Register E s oldService w))))
    by (apply In_calls; auto).
  destruct (Register_shape E s oldService w) as (k & n & m & order & Hc & _).
  rewrite Hc in Hin. rewrite !in_app_iff in Hin.
  destruct Hin as [Hin | [Hin | Hin]].
  - apply In_firstn in Hin. simpl in Hin.
    destruct Hin as [<- | [<- | []]]; reflexivity.
  - apply in_map_iff in Hin. destruct Hin as (x & <- & _). reflexivity.
  - apply in_map_iff in Hin. destruct Hin as (x & <- & _). reflexivity.
Qed.

(** X11: registering a configuration over itself creates no hook: nothing
    is added and nothing is removed, so the hooks made for it before are
    not made again. *)
Theorem Register_again_creates_nothing {W : Type} (E : Env W)
        (s : githubWebhookService) (w : W) :
  let r := Register E s (Some (GithubWebhook s)) w in
  added_repos s (Some (GithubWebhook s)) = []
  /\ removed_repos s (Some (GithubWebhook s)) = []
  /\ filter is_create (trace_of r) = []
  /\ (forall e, In e (calls (trace_of r)) ->
                is_load e = true \/ is_get e = true \/ is_join e = true).
Proof.
  cbv zeta.
  assert (Ha : added_repos s (Some (GithubWebhook s)) = []).
  { unfold added_repos, old_repos. cbn [old_repoList]. now rewrite Difference_same. }
  assert (Hrm : removed_repos s (Some (GithubWebhook s)) = []).
  { unfold removed_repos, old_repos. cbn [old_repoList].
    now rewrite Difference_same. }
  destruct (Register_shape E s (Some (GithubWebhook s)) w)
    as (k & n & m & order & Hc & _).
  rewrite Ha in Hc. rewrite firstn_nil in Hc. simpl in Hc.
  split; [exact Ha|]. split; [exact Hrm|]. split.
  - rewrite (filter_calls is_create); [|reflexivity]. rewrite Hc.
    rewrite filter_app, filter_map_none; [|reflexivity]. rewrite app_nil_r.
    apply filter_none. intros e He. apply In_firstn in He.
    simpl in He. destruct He as [<- | [<- | []]]; reflexivity.
  - intros e He. rewrite Hc in He. apply in_app_iff in He.
    destruct He as [He | He].
    + apply In_firstn in He. simpl in He.
      destruct He as [<- | [<- | []]]; auto.
    + apply in_map_iff in He. destruct He as (x & <- & _). auto.
Qed.

(** ** The calls of [PostRegister] *)

Lemma deleteHook_hook_cleanup {W : Type} (E : Env W) (s : githubWebhookService)
      (owner repo : string) (w : W) :
  forallb is_hook_cleanup (calls (trace_of (deleteHook E s owner repo w))) = true.
Proof.
  destruct (deleteHook_calls_shape E s owner repo w) as [H | [H | [i H]]];
    rewrite H; reflexivity.
Qed.

Lemma PostRegister_hooks_cleanup {W : Type} (E : Env W) (s : githubWebhookService)
      (l : list string) :
  Forall good_key l ->
  forall w : W,
    forallb is_hook_cleanup (calls (trace_of (PostRegister_hooks E s l w))) = true.
Proof.
  induction 1 as [|r l Hr Hl IH]; intros w; [reflexivity|].
  destruct (Count_one_Split slash r Hr) as (o & n & Hs & Heq).
  cbn [PostRegister_hooks].
  rewrite Hs. unfold index. cbn [nth_error]. rewrite !bind_ret_l.
  destruct (deleteHook_result E s o n w) as [[err D1] | D1].
  - rewrite (bind_done _ _ (run_done _ D1)).
    set (w1 := world_of (deleteHook E s o n w)).
    assert (Hline : exists line,
               (match err with
                | Some _ => log WarnLevel "Failed to remove webhook" [("repo", r)]
                | None => ret tt
                end) w1 = (Done tt, w1, line) /\ calls line = []).
    { destruct err; eexists; split; reflexivity. }
    destruct Hline as (line & Hrun & Hline).
    rewrite (bind_done _ _ Hrun). autorewrite with run.
    rewrite !calls_app, Hline, forallb_app. simpl.
    now rewrite deleteHook_hook_cleanup, IH.
  - rewrite (bind_panicked _ _ (run_panicked _ D1)). autorewrite with run.
    apply deleteHook_hook_cleanup.
Qed.

(** The run of [PostRegister] for an old service that is absent or a
    github-webhook service, by how the loop over the removed repos ends. *)
Lemma PostRegister_calls {W : Type} (E : Env W) (s : githubWebhookService)
      (oldService : option Service) (oldRepos : list string) (t0 : list event)
      (w : W) :
  old_repoList oldService = Some (oldRepos, t0) ->
  let h := PostRegister_hooks E s (removed_repos s oldService) w in
  let r := PostRegister E s oldService w in
  forallb is_hook_cleanup (calls (trace_of h)) = true
  /\ (result_of h = Done tt \/ result_of h = Panicked NilPointer)
  /\ (result_of h = Done tt ->
      result_of r = Done tt
      /\ calls (trace_of r)
         = calls (trace_of h)
           ++ (if Nat.eqb (length (fst (repoList s))) 0
               then [CallDeleteService (id s)] else [])
      /\ world_of r
         = if Nat.eqb (length (fst (repoList s))) 0
           then snd (DeleteService E (id s) (world_of h)) else world_of h)
  /\ (forall p, result_of h = Panicked p ->
                result_of r = Panicked p
                /\ calls (trace_of r) = calls (trace_of h)
                /\ world_of r = world_of h).
Proof.
  intros Hold h r.
  assert (Heq : removed_repos s oldService
                = snd (util.Difference (fst (repoList s)) oldRepos)).
  { unfold removed_repos, old_repos. now rewrite Hold. }
  destruct (old_repoList_good _ Hold) as [_ Ht0].
  pose proof (removed_good s _ Hold) as Hrem. rewrite <- Heq in Hrem.
  destruct (PostRegister_hooks_spec E s Hrem w) as (n & _ & Hh & _). fold h in Hh.
  pose proof (PostRegister_hooks_cleanup E s Hrem w) as Hcl. fold h in Hcl.
  split; [exact Hcl|]. split; [tauto|]. split.
  - intros Hd. subst h r. rewrite Heq in *.
    rewrite (PostRegister_run E s _ w Hold Hd).
    destruct (Nat.eqb (length (fst (repoList s))) 0); autorewrite with run.
    + split; [reflexivity|]. split; [|reflexivity].
      rewrite !calls_app, Ht0, repoList_logs_only. simpl. f_equal.
      unfold prune_trace. simpl.
      now destruct (fst (DeleteService E (id s) _)).
    + split; [reflexivity|]. split; [|reflexivity].
      now rewrite !calls_app, Ht0, repoList_logs_only, app_nil_r.
  - intros p Hp. subst h r. rewrite Heq in *.
    rewrite (PostRegister_run_panicked E s _ w Hold Hp). autorewrite with run.
    split; [reflexivity|]. split; [|reflexivity].
    now rewrite !calls_app, Ht0, repoList_logs_only.
Qed.

(** X12: [PostRegister] only removes: apart from log lines, every event of a
    run is a token lookup, a listing of hooks, a hook deletion or the
    deletion of the configuration.  It never creates a hook, joins a room
    or sends a message.  It ends, unless one of its hook deletes panics on a
    nil pointer (a hook listed without an id, or a nil entry of a listing);
    it ends whenever the provider lists hooks with their ids. *)
Theorem PostRegister_only_cleans_up {W : Type} (E : Env W)
        (s : githubWebhookService) (oldService : option Service) (w : W) :
  (result_of (PostRegister E s oldService w) = Done tt
   \/ result_of (PostRegister E s oldService w) = Panicked NilPointer)
  /\ (lists_hooks_with_ids E -> result_of (PostRegister E s oldService w) = Done tt)
  /\ forall e, In e (trace_of (PostRegister E s oldService w)) ->
               is_log e = true \/ is_cleanup_call e = true.
Proof.
  split; [apply (PostRegister_result E s oldService w)|].
  split; [apply (PostRegister_result E s oldService w)|].
  intros e He. destruct (is_log e) eqn:Hlog; [now left | right].
  assert (Hin : In e (calls (trace_of (PostRegister E s oldService w))))
    by (apply In_calls; auto).
  destruct (old_repoList oldService) as [[oldRepos t0]|] eqn:Hold.
  - destruct (PostRegister_calls E s oldService w Hold) as (Hcl & Hh & Hd & Hp).
    assert (Hhook : forall e', In e' (calls (trace_of
                       (PostRegister_hooks E s (removed_repos s oldService) w))) ->
                               is_cleanup_call e' = true).
    { intros e' He'. rewrite forallb_forall in Hcl. specialize (Hcl e' He').
      now destruct e'. }
    destruct Hh as [Hh | Hh].
    + destruct (Hd Hh) as (_ & Hc & _). rewrite Hc in Hin.
      apply in_app_iff in Hin. destruct Hin as [Hin | Hin]; [auto|].
      destruct (Nat.eqb (length (fst (repoList s))) 0); [|contradiction].
      destruct Hin as [<- | []]. reflexivity.
    + destruct (Hp _ Hh) as (_ & Hc & _). rewrite Hc in Hin. auto.
  - destruct oldService as [[old|ec]|]; try discriminate.
    rewrite PostRegister_uncastable in Hin. contradiction.
Qed.

(** X13: with an old service that is absent or a github-webhook service,
    [PostRegister] asks the storage to delete the configuration only when
    the new repo list is empty and only after the hook deletions: when it
    ends, it has asked exactly when the new repo list is empty, and then
    once, as its last call; when a hook delete panics it has not asked.  It
    ends whenever no repo was removed, and whenever the provider lists hooks
    with their ids.  The repo list counts, not the rooms: a configuration
    whose rooms hold only keys without exactly one "/" is deleted as
    well. *)
Theorem PostRegister_prunes_iff_no_repo {W : Type} (E : Env W)
        (s : githubWebhookService) (oldService : option Service) (w : W) :
  old_repoList oldService <> None ->
  let r := PostRegister E s oldService w in
  (fst (repoList s) = [] -> result_of r = Done tt ->
   filter is_prune (trace_of r) = [CallDeleteService (id s)]
   /\ exists t, calls (trace_of r) = t ++ [CallDeleteService (id s)])
  /\ (fst (repoList s) <> [] -> filter is_prune (trace_of r) = [])
  /\ (result_of r <> Done tt -> filter is_prune (trace_of r) = [])
  /\ (removed_repos s oldService = [] -> result_of r = Done tt)
  /\ (lists_hooks_with_ids E -> result_of r = Done tt)
  /\ (fst (repoList s) = [] <->
      forall k, repo_key s k -> strings.Count k slash <> 1).
Proof.
  intros Hold r.
  destruct (old_repoList oldService) as [[oldRepos t0]|] eqn:Ho; [|contradiction].
  destruct (PostRegister_calls E s oldService w Ho) as (Hcl & Hh & Hd & Hp).
  fold r in Hd, Hp.
  set (h := PostRegister_hooks E s (removed_repos s oldService) w) in *.
  assert (Hnone : filter is_prune (calls (trace_of h)) = []).
  { apply filter_none. intros e He. rewrite forallb_forall in Hcl.
    specialize (Hcl e He). now destruct e. }
  assert (Hpanic : result_of r <> Done tt -> filter is_prune (trace_of r) = []).
  { intros Hne. destruct Hh as [Hh | Hh].
    - now destruct (Hd Hh) as (Hres & _).
    - destruct (Hp _ Hh) as (_ & Hc & _).
      rewrite (filter_calls is_prune); [|reflexivity]. now rewrite Hc. }
  split; [|split; [|split; [exact Hpanic|split; [|split]]]].
  - intros Hnil Hres.
    assert (Hdone : result_of h = Done tt).
    { destruct Hh as [Hh | Hh]; [exact Hh|].
      destruct (Hp _ Hh) as (Hres' & _). rewrite Hres' in Hres. discriminate. }
    destruct (Hd Hdone) as (_ & Hc & _).
    rewrite Hnil in Hc. simpl in Hc. split.
    + rewrite (filter_calls is_prune); [|reflexivity].
      now rewrite Hc, filter_app, Hnone.
    + eexists. exact Hc.
  - intros Hne. destruct Hh as [Hh | Hh].
    + destruct (Hd Hh) as (_ & Hc & _).
      destruct (fst (repoList s)) as [|x l] eqn:Hl; [contradiction|].
      simpl in Hc. rewrite app_nil_r in Hc.
      rewrite (filter_calls is_prune); [|reflexivity]. now rewrite Hc.
    + apply Hpanic. destruct (Hp _ Hh) as (Hres & _). rewrite Hres. discriminate.
  - intros Hrm. apply Hd. subst h. now rewrite Hrm.
  - apply (PostRegister_result E s oldService w).
  - split.
    + intros Hnil k Hk Hone.
      assert (Hin : In k (fst (repoList s))) by (apply repoList_In; split; auto).
      rewrite Hnil in Hin. contradiction.
    + intros Hbad. destruct (fst (repoList s)) as [|x l] eqn:Hl; [reflexivity|].
      assert (Hin : In x (fst (repoList s))) by (rewrite Hl; now left).
      apply repoList_In in Hin. destruct Hin as [Hk Hone].
      now destruct (Hbad x Hk).
Qed.

(** X14: reconciling a configuration with at least one listed repo to
    itself is idle: [PostRegister] calls no collaborator and leaves the
    world as it was. *)
Theorem PostRegister_same_configuration_is_idle {W : Type} (E : Env W)
        (s : githubWebhookService) (w : W) :
  fst (repoList s) <> [] ->
  let r := PostRegister E s (Some (GithubWebhook s)) w in
  result_of r = Done tt /\ world_of r = w /\ calls (trace_of r) = [].
Proof.
  intros Hne r.
  assert (Hold : old_repoList (Some (GithubWebhook s))
                 = Some (fst (repoList s), snd (repoList s))).
  { simpl. now destruct (repoList s). }
  destruct (PostRegister_calls E s (Some (GithubWebhook s)) w Hold)
    as (_ & _ & Hd & _).
  fold r in Hd.
  assert (Hrm : removed_repos s (Some (GithubWebhook s)) = []).
  { unfold removed_repos, old_repos. cbn [old_repoList].
    now rewrite Difference_same. }
  rewrite Hrm in Hd. cbn [PostRegister_hooks] in Hd.
  unfold ret in Hd. autorewrite with run in Hd.
  destruct (Hd eq_refl) as (Hres & Hc & Hw).
  destruct (fst (repoList s)) as [|x l] eqn:Hl; [contradiction|].
  simpl in Hc, Hw. auto.
Qed.

(** ** The events of a delivery *)

Lemma expected_sends_delivery fold evType fullName msg rooms :
  forallb is_delivery_call (expected_sends fold evType fullName msg rooms) = true
  /\ filter is_header (expected_sends fold evType fullName msg rooms) = [].
Proof.
  split.
  - apply forallb_forall. intros e H. unfold expected_sends in H.
    apply in_flat_map in H. destruct H as (room & _ & H).
    apply In_room_sends in H. now destruct H as (-> & _).
  - apply filter_none. intros e H. unfold expected_sends in H.
    apply in_flat_map in H. destruct H as (room & _ & H).
    apply In_room_sends in H. now destruct H as (-> & _).
Qed.

Lemma deleteHook_delivery {W : Type} (E : Env W) (s : githubWebhookService)
      (owner repo : string) (w : W) :
  forallb is_delivery_call (calls (trace_of (deleteHook E s owner repo w))) = true
  /\ filter is_header (trace_of (deleteHook E s owner repo w)) = [].
Proof.
  rewrite (filter_calls is_header); [|reflexivity].
  destruct (deleteHook_calls_shape E s owner repo w) as [H | [H | [i H]]];
    rewrite H; split; reflexivity.
Qed.

(** The run of [OnReceiveWebhook] on any request: either what comes before
    the response, and the response; or a panic on a nil pointer, for a
    verified delivery without a full name or in the [deleteHook] of an
    orphan. *)
Lemma OnReceiveWebhook_run {W : Type} (E : Env W) (s : githubWebhookService)
      (req : Request) (w : W) :
  let r := OnReceiveWebhook E s req w in
  exists t,
    filter is_header t = []
    /\ forallb is_delivery_call (calls t) = true
    /\ ((exists code,
            trace_of r = t ++ [CallWriteHeader code]
            /\ result_of r = Done tt
            /\ match OnReceiveRequest E req (SecretToken s) with
               | inl err => code = Code err /\ t = [] /\ world_of r = w
               | inr (evType, repo, msg) =>
                   exists fullName,
                     delivered_name repo = Some fullName
                     /\ if referenced (EqualFold E) fullName (Rooms s)
                        then code = 200%Z
                        else if Nat.eqb (length (strings.Split fullName slash)) 2
                             then code = 200%Z
                             else code = 400%Z /\ world_of r = w /\ calls t = []
               end)
        \/ (trace_of r = t
            /\ result_of r = Panicked NilPointer
            /\ exists evType repo msg,
                OnReceiveRequest E req (SecretToken s) = inr (evType, repo, msg)
                /\ (delivered_name repo = None
                    \/ exists fullName owner name,
                        delivered_name repo = Some fullName
                        /\ referenced (EqualFold E) fullName (Rooms s) = false
                        /\ strings.Split fullName slash = [owner; name]
                        /\ result_of (deleteHook E s owner name w)
                           = Panicked NilPointer))).
Proof.
  cbv zeta.
  destruct (OnReceiveRequest E req (SecretToken s)) as [err | [[evType repo] msg]]
    eqn:Hv0.
  { unfold OnReceiveWebhook. rewrite Hv0. exists []. split; [reflexivity|].
    split; [reflexivity|]. left. exists (Code err). simpl.
    repeat split; reflexivity. }
  destruct (delivered_name repo) as [fullName|] eqn:Hname.
  2:{ rewrite (OnReceiveWebhook_no_name E s req w Hv0 Hname). exists [].
      split; [reflexivity|]. split; [reflexivity|]. right.
      split; [reflexivity|]. split; [reflexivity|].
      exists evType, repo, msg. auto. }
  pose proof Hv0 as Hv. rewrite (delivered_name_Some _ Hname) in Hv.
  destruct (referenced (EqualFold E) fullName (Rooms s)) eqn:Href.
  - destruct (OnReceiveWebhook_referenced E s req w Hv Href) as (Hres & _ & Ht).
    destruct (route_rooms_spec E [("event", evType); ("repo", fullName)]
                evType fullName msg (Rooms s) false w) as (_ & Hc & _).
    destruct (expected_sends_delivery (EqualFold E) evType fullName msg
                (Rooms s)) as (Hd & Hh).
    eexists. split; [|split; [|left; exists 200%Z; split; [exact Ht|]]].
    + rewrite (filter_calls is_header); [|reflexivity]. now rewrite Hc.
    + now rewrite Hc.
    + split; [exact Hres|]. exists fullName. rewrite Href. auto.
  - destruct (Nat.eqb (length (strings.Split fullName slash)) 2) eqn:Hlen.
    + apply Nat.eqb_eq in Hlen.
      destruct (strings.Split fullName slash) as [|o [|n [|? ?]]] eqn:Hs;
        try discriminate.
      destruct (OnReceiveWebhook_orphan E s req w Hv Href Hs) as (Hdone & Hpanic).
      destruct (deleteHook_delivery E s o n w) as (Hd & Hh).
      destruct (deleteHook_result E s o n w) as [[err D] | D].
      * destruct (Hdone err D) as (line & L1 & _ & Hr). rewrite Hr.
        autorewrite with run.
        exists (trace_of (deleteHook E s o n w) ++ [line]).
        split; [|split; [|left; exists 200%Z]].
        -- rewrite filter_app, Hh. simpl. now destruct line.
        -- rewrite calls_app, forallb_app, Hd. unfold calls. simpl.
           now rewrite L1.
        -- split; [now rewrite <- app_assoc|]. split; [reflexivity|].
           exists fullName. rewrite Href, Hs. simpl. auto.
      * rewrite (Hpanic _ D). autorewrite with run.
        exists (trace_of (deleteHook E s o n w)).
        split; [exact Hh|]. split; [exact Hd|]. right.
        split; [reflexivity|]. split; [reflexivity|].
        exists evType, repo, msg. split; [reflexivity|]. right.
        exists fullName, o, n. auto.
    + apply Nat.eqb_neq in Hlen.
      pose proof (OnReceiveWebhook_malformed E s req w Hv Href Hlen) as Hr.
      rewrite Hr. autorewrite with run.
      exists [Logged ErrorLevel "Received event with malformed owner/repo."
                     [("event", evType); ("repo", fullName)]].
      split; [reflexivity|]. split; [reflexivity|]. left. exists 400%Z.
      split; [reflexivity|]. split; [reflexivity|].
      exists fullName. rewrite Href.
      apply Nat.eqb_neq in Hlen. rewrite Hlen. auto.
Qed.

(** X15: [OnReceiveWebhook] answers a request at most once.  When it
    returns, it has answered exactly once, as the last thing it did: with
    the verifier's status for a request that fails verification, which then
    has no other effect; and for a verified one with 200, or with 400 when
    no binding names the repo and its full name does not split into two
    segments, in which case nothing else was called.  Otherwise it panics
    on a nil pointer without having answered: the verified delivery carries
    no full name, or the [deleteHook] made for an orphan panics.  So it
    returns whenever verified deliveries carry a full name and the provider
    lists hooks with their ids. *)
Theorem OnReceiveWebhook_answers_once {W : Type} (E : Env W)
        (s : githubWebhookService) (req : Request) (w : W) :
  let r := OnReceiveWebhook E s req w in
  (result_of r = Done tt \/ result_of r = Panicked NilPointer)
  /\ (result_of r = Done tt ->
      exists t code,
        trace_of r = t ++ [CallWriteHeader code]
        /\ filter is_header (trace_of r) = [CallWriteHeader code]
        /\ match OnReceiveRequest E req (SecretToken s) with
           | inl err => code = Code err /\ t = [] /\ world_of r = w
           | inr (evType, repo, msg) =>
               exists fullName,
                 delivered_name repo = Some fullName
                 /\ (code = 200%Z \/ code = 400%Z)
                 /\ (code = 400%Z <->
                     referenced (EqualFold E) fullName (Rooms s) = false
                     /\ length (strings.Split fullName slash) <> 2)
                 /\ (code = 400%Z -> world_of r = w /\ calls t = [])
           end)
  /\ (result_of r = Panicked NilPointer ->
      filter is_header (trace_of r) = []
      /\ exists evType repo msg,
          OnReceiveRequest E req (SecretToken s) = inr (evType, repo, msg)
          /\ (delivered_name repo = None
              \/ exists fullName owner name,
                  delivered_name repo = Some fullName
                  /\ referenced (EqualFold E) fullName (Rooms s) = false
                  /\ strings.Split fullName slash = [owner; name]
                  /\ result_of (deleteHook E s owner name w) = Panicked NilPointer))
  /\ (lists_hooks_with_ids E ->
      (forall evType repo msg,
          OnReceiveRequest E req (SecretToken s) = inr (evType, repo, msg) ->
          delivered_name repo <> None) ->
      result_of r = Done tt).
Proof.
  cbv zeta.
  destruct (OnReceiveWebhook_run E s req w)
    as (t & Hh & _ & [(code & Ht & Hres & Hcase) | (Ht & Hres & Hwhy)]).
  - split; [now left|]. split; [|split; [|auto]].
    + intros _. exists t, code. split; [exact Ht|]. split.
      * rewrite Ht, filter_app, Hh. reflexivity.
      * destruct (OnReceiveRequest E req (SecretToken s))
          as [err | [[evType repo] msg]]; [exact Hcase|].
        destruct Hcase as (fullName & Hname & Hcase). exists fullName.
        split; [exact Hname|].
        destruct (referenced (EqualFold E) fullName (Rooms s)).
        -- subst code. split; [now left|]. split; [|discriminate].
           split; [discriminate | intros [Hf _]; discriminate].
        -- destruct (Nat.eqb (length (strings.Split fullName slash)) 2) eqn:Hlen.
           ++ subst code. apply Nat.eqb_eq in Hlen. split; [now left|].
              split; [|discriminate]. split; [discriminate|].
              intros [_ Hn]. contradiction.
           ++ destruct Hcase as (-> & Hw & Hc). apply Nat.eqb_neq in Hlen.
              split; [now right|]. split; [|auto]. split; auto.
    + rewrite Hres. discriminate.
  - split; [now right|]. split; [rewrite Hres; discriminate|]. split.
    + intros _. rewrite Ht. auto.
    + intros Hids Hnames. exfalso.
      destruct Hwhy as (evType & repo & msg & Hv & [Hnone | Horphan]).
      * now apply (Hnames _ _ _ Hv).
      * destruct Horphan as (fullName & owner & name & _ & _ & _ & Hd).
        destruct (@deleteHook_returns W E s owner name w Hids) as (err & He).
        rewrite Hd in He. discriminate.
Qed.

(** X16: apart from log lines, every event of a delivery is a message send,
    a token lookup, a listing or deletion of hooks, or the response.
    Routing never creates a hook, joins a room, loads a realm or touches
    the stored configuration. *)
Theorem OnReceiveWebhook_only_routes_and_cleans {W : Type} (E : Env W)
        (s : githubWebhookService) (req : Request) (w : W) :
  forall e, In e (trace_of (OnReceiveWebhook E s req w)) ->
            is_log e = true \/ is_delivery_call e = true.
Proof.
  intros e He.
  assert (Hcalls : forall t, forallb is_delivery_call (calls t) = true ->
                             In e t -> is_log e = true \/ is_delivery_call e = true).
  { intros t Hd Hin. destruct (is_log e) eqn:Hlog; [now left | right].
    rewrite forallb_forall in Hd. apply Hd. apply In_calls. auto. }
  destruct (OnReceiveWebhook_run E s req w)
    as (t & _ & Hd & [(code & Ht & _) | (Ht & _)]); rewrite Ht in He.
  - apply in_app_iff in He. destruct He as [He | [<- | []]]; [|now right].
    now apply (Hcalls t).
  - now apply (Hcalls t).
Qed.

(** ** More on hook creation and deletion *)

Lemma Split_two_or_more (r : string) :
  1 <= strings.Count r slash ->
  exists owner name rest, strings.Split r slash = owner :: name :: rest.
Proof.
  intros H. pose proof (Split_length slash r) as Hl.
  destruct (strings.Split r slash) as [|o [|n rest]]; simpl in Hl; try lia.
  now exists o, n, rest.
Qed.

Lemma createHook_run_first_two {W : Type} (E : Env W) (s : githubWebhookService)
      (cli : Client) (r owner name : string) (rest : list string) (w : W) :
  strings.Split r slash = owner :: name :: rest ->
  let a := CreateHook E cli owner name (new_hook s) w in
  let c := createHook E s cli r w in
  result_of c = createHook_answer (fst (fst a)) (snd (fst a))
  /\ world_of c = snd a
  /\ calls (trace_of c) = [CallCreateHook owner name (new_hook s)].
Proof.
  intros Hs. cbv zeta. unfold createHook. rewrite Hs.
  unfold index. simpl nth_error. unfold bind, call, ret, deref, log. simpl.
  destruct (CreateHook E cli owner name (new_hook s) w) as [[[rs|] err] w1]; simpl;
    [|auto].
  destruct (Z.eqb (StatusCode rs) 422); simpl; [|auto].
  destruct err as [[errs|m]|]; simpl; auto.
  destruct (already_exists errs); simpl; auto.
Qed.

(** X17: when the provider's client hands back no response (only an error,
    as for a request that never reached the provider), [createHook] does
    not return that error: it reads the status of the missing response and
    panics, after the create call was made. *)
Theorem createHook_without_response_panics {W : Type} (E : Env W)
        (s : githubWebhookService) (cli : Client) (r owner name : string)
        (rest : list string) (w : W) :
  strings.Split r slash = owner :: name :: rest ->
  fst (fst (CreateHook E cli owner name (new_hook s) w)) = None ->
  result_of (createHook E s cli r w) = Panicked NilPointer
  /\ calls (trace_of (createHook E s cli r w))
     = [CallCreateHook owner name (new_hook s)]
  /\ forall l,
      result_of (Register_hooks E s cli (r :: l) w) = Panicked NilPointer.
Proof.
  intros Hs Hnone.
  destruct (createHook_run_first_two E s cli r w Hs) as (Hres & _ & Hc).
  rewrite Hnone in Hres. simpl in Hres.
  split; [exact Hres|]. split; [exact Hc|].
  intros l. cbn [Register_hooks].
  rewrite (bind_panicked _ _ (eq_trans (run_eta _)
             (f_equal (fun o => (o, _, _)) Hres))).
  reflexivity.
Qed.

(** X18: [createHook] takes the first two "/"-separated segments of its
    argument as owner and repo and ignores any further segment: for every
    argument with at least one "/" it makes exactly one create call, for
    those two segments, and does not panic on an index. *)
Theorem createHook_uses_first_two_segments {W : Type} (E : Env W)
        (s : githubWebhookService) (cli : Client) (r : string) (w : W) :
  1 <= strings.Count r slash ->
  exists owner name rest,
    strings.Split r slash = owner :: name :: rest
    /\ calls (trace_of (createHook E s cli r w))
       = [CallCreateHook owner name (new_hook s)]
    /\ result_of (createHook E s cli r w) <> Panicked IndexOutOfRange
    /\ length rest = strings.Count r slash - 1.
Proof.
  intros H. destruct (Split_two_or_more r H) as (owner & name & rest & Hs).
  exists owner, name, rest. split; [exact Hs|].
  destruct (createHook_run_first_two E s cli r w Hs) as (Hres & _ & Hc).
  split; [exact Hc|]. split.
  - rewrite Hres. unfold createHook_answer.
    destruct (fst (fst (CreateHook E cli owner name (new_hook s) w))) as [rs|];
      [|discriminate].
    destruct (Z.eqb (StatusCode rs) 422); [|discriminate].
    destruct (snd (fst (CreateHook E cli owner name (new_hook s) w)))
      as [[errs|m]|]; try discriminate.
    destruct (already_exists errs); discriminate.
  - pose proof (Split_length slash r) as Hl. rewrite Hs in Hl. simpl in Hl. lia.
Qed.

Lemma new_hook_points_here (s : githubWebhookService) :
  points_here s (new_hook s) = true.
Proof.
  unfold points_here, new_hook.
  destruct (negb (String.eqb (SecretToken s) "")); simpl; apply String.eqb_refl.
Qed.

(** X19: the hook [createHook] asks for is the hook [deleteHook] looks for.
    Its config holds the endpoint as "url", "json" as "content_type" and
    the secret token as "secret" exactly when one is configured; so once
    the listing of a repo holds a hook with that config, [deleteHook] does
    not report a missing hook: its loop stops at a hook that points at the
    endpoint, which it deletes by its id when it has one, panicking on the
    nil pointer when it has none, or the loop panics at a nil entry listed
    before any such hook.  When the provider lists hooks with their ids, the
    delete call is made. *)
Theorem created_hook_is_found {W : Type} (E : Env W) (s : githubWebhookService)
        (owner repo : string) (w : W) :
  let d := deleteHook E s owner repo w in
  let get := CallGetTokenForUser (RealmID s) (ClientUserID s) in
  let tok := fst (fst (getTokenForUser E (RealmID s) (ClientUserID s) w)) in
  let w1 := snd (getTokenForUser E (RealmID s) (ClientUserID s) w) in
  let hooks := fst (fst (ListHooks E {| token := tok |} owner repo w1)) in
  let lerr := snd (fst (ListHooks E {| token := tok |} owner repo w1)) in
  index_iface (Config (new_hook s)) "url" = istring (webhookEndpointURL s)
  /\ index_iface (Config (new_hook s)) "content_type" = istring "json"
  /\ index_iface (Config (new_hook s)) "secret"
     = (if String.eqb (SecretToken s) "" then inil else istring (SecretToken s))
  /\ (tok <> "" -> lerr = None ->
      (exists h, In (Some h) hooks /\ Config h = Config (new_hook s)) ->
      match find (stops_at s) hooks with
      | Some (Some h) =>
          In (Some h) hooks /\ points_here s h = true
          /\ match ID h with
             | Some hookID =>
                 calls (trace_of d)
                 = [get; CallListHooks owner repo; CallDeleteHook owner repo hookID]
             | None =>
                 result_of d = Panicked NilPointer
                 /\ calls (trace_of d) = [get; CallListHooks owner repo]
             end
      | Some None =>
          result_of d = Panicked NilPointer
          /\ calls (trace_of d) = [get; CallListHooks owner repo]
      | None => False
      end
      /\ (lists_hooks_with_ids E ->
          exists h hookID,
            In (Some h) hooks /\ points_here s h = true /\ ID h = Some hookID
            /\ calls (trace_of d)
               = [get; CallListHooks owner repo; CallDeleteHook owner repo hookID])).
Proof.
  cbv zeta. split; [|split; [|split]].
  - apply points_here_iff, new_hook_points_here.
  - unfold new_hook. now destruct (negb (String.eqb (SecretToken s) "")).
  - unfold new_hook. now destruct (String.eqb (SecretToken s) "").
  - intros Htok Hl (h & Hin & Hcfg).
    set (hooks := fst (fst (ListHooks E
                   {| token := fst (fst (getTokenForUser E (RealmID s)
                                           (ClientUserID s) w)) |} owner repo
                   (snd (getTokenForUser E (RealmID s) (ClientUserID s) w))))) in *.
    assert (Hp : points_here s h = true).
    { unfold points_here. rewrite Hcfg. apply new_hook_points_here. }
    destruct (find (stops_at s) hooks) as [[h'|]|] eqn:Hf.
    + destruct (find_some _ _ Hf) as [Hin' Hp']. simpl in Hp'.
      destruct (ID h') as [hookID|] eqn:Hid.
      * destruct (deleteHook_found E s owner repo w Htok Hl Hf Hid) as (_ & _ & Hc).
        split; [auto|]. intros _. exists h', hookID. auto.
      * destruct (deleteHook_no_id E s owner repo w Htok Hl Hf Hid) as (Hr & _ & Hc).
        split; [auto|]. intros Hids.
        pose proof (Hids {| token := fst (fst (getTokenForUser E (RealmID s)
                                                 (ClientUserID s) w)) |}
                         owner repo
                         (snd (getTokenForUser E (RealmID s) (ClientUserID s) w)))
          as Hall.
        fold hooks in Hall. rewrite Forall_forall in Hall.
        destruct (Hall _ Hin') as (h0 & i & Heq & Hi). injection Heq as <-.
        congruence.
    + destruct (deleteHook_nil_entry E s owner repo w Htok Hl Hf) as (Hr & _ & Hc).
      split; [auto|]. intros Hids.
      pose proof (Hids {| token := fst (fst (getTokenForUser E (RealmID s)
                                               (ClientUserID s) w)) |}
                       owner repo
                       (snd (getTokenForUser E (RealmID s) (ClientUserID s) w)))
        as Hall.
      fold hooks in Hall. rewrite Forall_forall in Hall.
      destruct (Hall _ (proj1 (find_some _ _ Hf))) as (h0 & i & Heq & _).
      discriminate.
    + exfalso. pose proof (find_none _ _ Hf _ Hin) as Hno. simpl in Hno.
      congruence.
Qed.

(** The calls of a [deleteHook] that panics: the token lookup and the
    listing, no delete. *)
Lemma deleteHook_panicked_calls {W : Type} (E : Env W) (s : githubWebhookService)
      (owner repo : string) (w : W) (p : panic) :
  result_of (deleteHook E s owner repo w) = Panicked p ->
  p = NilPointer
  /\ calls (trace_of (deleteHook E s owner repo w))
     = [CallGetTokenForUser (RealmID s) (ClientUserID s); CallListHooks owner repo].
Proof.
  intros Hp.
  set (tok := fst (fst (getTokenForUser E (RealmID s) (ClientUserID s) w))).
  set (w1 := snd (getTokenForUser E (RealmID s) (ClientUserID s) w)).
  destruct (string_dec tok "") as [Ht | Ht].
  { destruct (deleteHook_no_client E s owner repo w Ht) as (H & _).
    rewrite H in Hp. discriminate. }
  destruct (snd (fst (ListHooks E {| token := tok |} owner repo w1)))
    as [e|] eqn:Hl.
  { destruct (deleteHook_list_failed E s owner repo w Ht Hl) as (H & _).
    rewrite H in Hp. discriminate. }
  destruct (find (stops_at s)
                 (fst (fst (ListHooks E {| token := tok |} owner repo w1))))
    as [[h|]|] eqn:Hf.
  - destruct (ID h) as [hookID|] eqn:Hid.
    + destruct (deleteHook_found E s owner repo w Ht Hl Hf Hid) as (H & _).
      rewrite H in Hp. discriminate.
    + destruct (deleteHook_no_id E s owner repo w Ht Hl Hf Hid) as (H & _ & Hc).
      rewrite H in Hp. injection Hp as <-. auto.
  - destruct (deleteHook_nil_entry E s owner repo w Ht Hl Hf) as (H & _ & Hc).
    rewrite H in Hp. injection Hp as <-. auto.
  - destruct (deleteHook_not_found E s owner repo w Ht Hl Hf) as (H & _).
    rewrite H in Hp. discriminate.
Qed.

(** X20: a run of [deleteHook] makes at most one delete call, and only
    after a token lookup and a listing, both for the same owner and repo; a
    listing that fails is returned to the caller as it is, with no delete
    call.  The run returns, or panics on a nil pointer; when it panics, it
    has made the listing and no delete call; it returns whenever the
    provider lists hooks with their ids. *)
Theorem deleteHook_deletes_at_most_once {W : Type} (E : Env W)
        (s : githubWebhookService) (owner repo : string) (w : W) :
  let d := deleteHook E s owner repo w in
  let get := CallGetTokenForUser (RealmID s) (ClientUserID s) in
  let tok := fst (fst (getTokenForUser E (RealmID s) (ClientUserID s) w)) in
  let w1 := snd (getTokenForUser E (RealmID s) (ClientUserID s) w) in
  let lerr := snd (fst (ListHooks E {| token := tok |} owner repo w1)) in
  (calls (trace_of d) = [get]
   \/ calls (trace_of d) = [get; CallListHooks owner repo]
   \/ exists hookID,
       calls (trace_of d)
       = [get; CallListHooks owner repo; CallDeleteHook owner repo hookID])
  /\ ((exists err, result_of d = Done err) \/ result_of d = Panicked NilPointer)
  /\ (forall p, result_of d = Panicked p ->
                calls (trace_of d) = [get; CallListHooks owner repo])
  /\ (lists_hooks_with_ids E -> exists err, result_of d = Done err)
  /\ (forall e, tok <> "" -> lerr = Some e ->
                result_of d = Done (Some (Collab e))
                /\ calls (trace_of d) = [get; CallListHooks owner repo]).
Proof.
  cbv zeta. split; [apply deleteHook_calls_shape|].
  split; [apply deleteHook_result|]. split; [|split].
  - intros p Hp. now destruct (deleteHook_panicked_calls E s owner repo w Hp).
  - apply deleteHook_returns.
  - intros e Htok Hl.
    destruct (deleteHook_list_failed E s owner repo w Htok Hl) as (Hres & _ & Hc).
    auto.
Qed.

(** ** The echo service *)

Lemma Split_no_sep (sep : ascii) (a : string) :
  strings.Count a sep = 0 -> strings.Split a sep = [a].
Proof.
  intros H. pose proof (Split_length sep a) as Hl. rewrite H in Hl.
  destruct (strings.Split a sep) as [|x [|? ?]] eqn:Hs; try discriminate.
  f_equal. symmetry. now apply (Split_one sep).
Qed.

Lemma Split_app_sep (sep : ascii) (a b : string) :
  strings.Count a sep = 0 ->
  strings.Split (a ++ String sep b) sep = a :: strings.Split b sep.
Proof.
  induction a as [|c a IH]; simpl; intros H.
  - now rewrite Ascii.eqb_refl.
  - destruct (Ascii.eqb c sep); [discriminate|]. simpl in H.
    now rewrite (IH H).
Qed.

Lemma Split_Join (sep : ascii) (args : list string) :
  args <> [] ->
  (forall a, In a args -> strings.Count a sep = 0) ->
  strings.Split (strings.Join args (String sep "")) sep = args.
Proof.
  induction args as [|a args IH]; intros Hne Hno; [contradiction|].
  destruct args as [|b args].
  - simpl. apply Split_no_sep. apply Hno. now left.
  - change (strings.Join (a :: b :: args) (String sep ""))
      with (a ++ String sep "" ++ strings.Join (b :: args) (String sep ""))%string.
    simpl append at 2.
    rewrite Split_app_sep by (apply Hno; now left).
    f_equal. apply IH; [discriminate|]. intros x Hx. apply Hno. now right.
Qed.

(** X21: the echo service has one command, "echo", which never fails and
    answers with an "m.notice" whose body is its arguments joined by single
    spaces: nothing for no argument, and otherwise a body that splits on
    spaces back into the arguments, provided none of them holds a space. *)
Theorem echo_command_joins_its_arguments (e : echoService)
        (pluginRoom roomID userID : string) (args : list string) :
  exists c,
    Commands (echo_Plugin e pluginRoom) = [c]
    /\ Path c = ["echo"]
    /\ snd (Command c roomID userID args) = None
    /\ exists reply,
        fst (Command c roomID userID args) = Some reply
        /\ msgtype reply = "m.notice"
        /\ (args = [] -> body reply = "")
        /\ (args <> [] ->
            (forall a, In a args -> strings.Count a " "%char = 0) ->
            strings.Split (body reply) " "%char = args).
Proof.
  eexists. split; [reflexivity|]. split; [reflexivity|]. split; [reflexivity|].
  eexists. split; [reflexivity|]. split; [reflexivity|]. split.
  - now intros ->.
  - intros Hne Hno. simpl. now apply (Split_Join " "%char).
Qed.

(** * The further properties on the simulated world *)

(** [two_rooms] and [one_room] bind the same repos. *)
Lemma sameRepos_same_repoList_witness :
  sameRepos Sim.two_rooms Sim.one_room = true
  /\ (In "acme/widgets" (fst (repoList Sim.two_rooms)) <->
      In "acme/widgets" (fst (repoList Sim.one_room))).
Proof.
  assert (H : sameRepos Sim.two_rooms Sim.one_room = true) by reflexivity.
  split; [exact H|].
  exact (proj1 (sameRepos_same_repoList Sim.two_rooms Sim.one_room H) "acme/widgets").
Defined.

(** A service fresh from the factory is not registered. *)
Lemma Register_needs_both_ids_witness :
  Register Sim.env
           (new_githubWebhookService "svc2" "@neb:example.org"
                                     "https://neb.example.org/hook/svc2")
           None Sim.w0
  = (Done (Some (Errorf "RealmID and ClientUserID is required")), Sim.w0, []).
Proof.
  apply (proj1 (Register_needs_both_ids Sim.env
                  (new_githubWebhookService "svc2" "@neb:example.org"
                                            "https://neb.example.org/hook/svc2")
                  None Sim.w0)).
  left. reflexivity.
Defined.

(** Registering [two_rooms] from nothing. *)
Lemma Register_success_created_and_joined_all_witness :
  result_of (Register Sim.env_reversed Sim.two_rooms None Sim.w0) = Done None
  /\ exists creates joins,
      filter is_create (trace_of (Register Sim.env_reversed Sim.two_rooms None Sim.w0))
      = map (create_call Sim.two_rooms) creates
      /\ Permutation creates ["Acme/Widgets"; "acme/widgets"]
      /\ filter is_join (trace_of (Register Sim.env_reversed Sim.two_rooms None
                                            Sim.w0))
         = map CallJoinRoom joins
      /\ Permutation joins ["!R1"; "!R2"].
Proof.
  assert (H : result_of (Register Sim.env_reversed Sim.two_rooms None Sim.w0)
              = Done None) by reflexivity.
  split; [exact H|].
  destruct (Register_success_created_and_joined_all Sim.env_reversed Sim.two_rooms
              None Sim.w0 H) as (creates & joins & Hc & Hpc & Hj & Hpj & _).
  exists creates, joins. split; [exact Hc|]. split; [exact Hpc|].
  split; [exact Hj | exact (Hpj Sim_reversed_ranges_over_all)].
Defined.

Lemma Register_never_deletes_witness :
  In (CallJoinRoom "!R1") (trace_of (Register Sim.env Sim.two_rooms None Sim.w0))
  /\ (is_log (CallJoinRoom "!R1") = true
      \/ is_register_call (CallJoinRoom "!R1") = true).
Proof.
  assert (H : In (CallJoinRoom "!R1")
                 (trace_of (Register Sim.env Sim.two_rooms None Sim.w0))).
  { vm_compute. repeat ((left; reflexivity) || right). }
  split; [exact H|].
  exact (Register_never_deletes Sim.env Sim.two_rooms None Sim.w0 _ H).
Defined.

(** A configuration whose only key is malformed is pruned. *)
Lemma PostRegister_prunes_iff_no_repo_witness :
  old_repoList None <> None
  /\ filter is_prune (trace_of (PostRegister Sim.env Sim.only_bad_keys None Sim.w0))
     = [CallDeleteService "svc1"].
Proof.
  assert (H : old_repoList None <> None) by discriminate.
  split; [exact H|].
  destruct (@PostRegister_prunes_iff_no_repo _ Sim.env Sim.only_bad_keys None
              Sim.w0 H)
    as (Hprune & _).
  exact (proj1 (Hprune eq_refl eq_refl)).
Defined.

Lemma PostRegister_same_configuration_is_idle_witness :
  fst (repoList Sim.two_rooms) <> []
  /\ world_of (PostRegister Sim.env Sim.two_rooms (Some (GithubWebhook Sim.two_rooms))
                            Sim.w_created) = Sim.w_created.
Proof.
  assert (H : fst (repoList Sim.two_rooms) <> []) by discriminate.
  split; [exact H|].
  exact (proj1 (proj2 (PostRegister_same_configuration_is_idle
                         Sim.env Sim.two_rooms Sim.w_created H))).
Defined.

Lemma OnReceiveWebhook_only_routes_and_cleans_witness :
  In (CallWriteHeader 200)
     (trace_of (OnReceiveWebhook Sim.env Sim.two_rooms
                  (Sim.delivery "push" "acme/widgets") Sim.w0))
  /\ (is_log (CallWriteHeader 200) = true
      \/ is_delivery_call (CallWriteHeader 200) = true).
Proof.
  assert (H : In (CallWriteHeader 200)
                 (trace_of (OnReceiveWebhook Sim.env Sim.two_rooms
                              (Sim.delivery "push" "acme/widgets") Sim.w0))).
  { vm_compute. repeat ((left; reflexivity) || right). }
  split; [exact H|].
  exact (OnReceiveWebhook_only_routes_and_cleans Sim.env Sim.two_rooms
           (Sim.delivery "push" "acme/widgets") Sim.w0 _ H).
Defined.

(** With the provider out of reach, creating a hook panics. *)
Lemma createHook_without_response_panics_witness :
  strings.Split "acme/widgets" slash = ["acme"; "widgets"]
  /\ result_of (createHook Sim.env_offline Sim.two_rooms Sim.alice "acme/widgets"
                           Sim.w0) = Panicked NilPointer.
Proof.
  split; [reflexivity|].
  exact (proj1 (createHook_without_response_panics Sim.env_offline Sim.two_rooms
                  Sim.alice "acme/widgets" Sim.w0
                  (owner := "acme") (name := "widgets") (rest := [])
                  eq_refl eq_refl)).
Defined.

(** A third segment is ignored. *)
Lemma createHook_uses_first_two_segments_witness :
  1 <= strings.Count "acme/widgets/extra" slash
  /\ calls (trace_of (createHook Sim.env Sim.two_rooms Sim.alice
                                 "acme/widgets/extra" Sim.w0))
     = [CallCreateHook "acme" "widgets" (new_hook Sim.two_rooms)].
Proof.
  assert (H : 1 <= strings.Count "acme/widgets/extra" slash) by (simpl; lia).
  split; [exact H|].
  destruct (createHook_uses_first_two_segments Sim.env Sim.two_rooms Sim.alice
              "acme/widgets/extra" Sim.w0 H)
    as (owner & name & rest & Hs & Hc & _).
  simpl in Hs. injection Hs as <- <- _. exact Hc.
Defined.

(** The hook created for [two_rooms] is the one its [deleteHook] deletes. *)
Lemma created_hook_is_found_witness :
  exists hookID,
    calls (trace_of (deleteHook Sim.env_checked Sim.two_rooms "acme" "widgets"
                                Sim.w_created))
    = [CallGetTokenForUser "gh" "@alice:example.org";
       CallListHooks "acme" "widgets"; CallDeleteHook "acme" "widgets" hookID].
Proof.
  destruct (created_hook_is_found Sim.env_checked Sim.two_rooms "acme" "widgets"
              Sim.w_created) as (_ & _ & _ & Hfound).
  assert (Htok : "t0k3n" <> "") by discriminate.
  destruct (Hfound Htok eq_refl) as (_ & Hdel).
  - eexists. split; [left; reflexivity | reflexivity].
  - destruct (Hdel Sim_lists_hooks_with_ids) as (h & hookID & _ & _ & _ & Hc).
    exists hookID. exact Hc.
Defined.

Lemma sameRepos_equivalence_witness :
  sameRepos Sim.two_rooms Sim.one_room = sameRepos Sim.one_room Sim.two_rooms
  /\ sameRepos Sim.two_rooms Sim.two_rooms = true.
Proof.
  destruct (sameRepos_equivalence Sim.two_rooms Sim.one_room Sim.two_rooms)
    as (Hrefl & Hsym & Htrans).
  split; [exact Hsym|]. apply Htrans; [reflexivity | reflexivity].
Defined.

(** Without a session the bridge gets no client, unless it may go without. *)
Lemma githubClientFor_depends_on_token_witness :
  result_of (githubClientFor Sim.env Sim.two_rooms "@bob:example.org" false Sim.w0)
  = Done None
  /\ result_of (githubClientFor Sim.env Sim.two_rooms "@bob:example.org" true Sim.w0)
     = Done (Some {| token := "" |}).
Proof.
  split.
  - destruct (githubClientFor_depends_on_token Sim.env Sim.two_rooms
                "@bob:example.org" false Sim.w0) as (_ & _ & _ & Hno).
    destruct (Hno eq_refl) as (Hempty & _). apply Hempty. reflexivity.
  - destruct (githubClientFor_depends_on_token Sim.env Sim.two_rooms
                "@bob:example.org" true Sim.w0) as (_ & _ & Hyes & _).
    exact (Hyes eq_refl).
Defined.

(** The realm of [jira_realm] is found and refused. *)
Lemma loadRealm_returns_github_realms_only_witness :
  RealmID Sim.jira_realm <> ""
  /\ trace_of (loadRealm Sim.env Sim.jira_realm Sim.w0) = [CallLoadAuthRealm "jira1"]
  /\ result_of (loadRealm Sim.env Sim.jira_realm Sim.w0)
     = Done (inl (Errorf "Realm is of type 'jira', not 'github'")).
Proof.
  assert (H : RealmID Sim.jira_realm <> "") by discriminate.
  split; [exact H|].
  destruct (loadRealm_returns_github_realms_only Sim.env Sim.jira_realm Sim.w0)
    as (_ & Hrun & _).
  split; [exact (proj2 (Hrun H)) | reflexivity].
Defined.

Lemma PostRegister_only_cleans_up_witness :
  In (CallDeleteService "svc1")
     (trace_of (PostRegister Sim.env (Sim.service [])
                             (Some (GithubWebhook Sim.two_rooms)) Sim.w0))
  /\ (is_log (CallDeleteService "svc1") = true
      \/ is_cleanup_call (CallDeleteService "svc1") = true).
Proof.
  assert (H : In (CallDeleteService "svc1")
                 (trace_of (PostRegister Sim.env (Sim.service [])
                                         (Some (GithubWebhook Sim.two_rooms))
                                         Sim.w0))).
  { vm_compute. repeat ((left; reflexivity) || right). }
  split; [exact H|].
  exact (proj2 (proj2 (PostRegister_only_cleans_up Sim.env (Sim.service [])
                         (Some (GithubWebhook Sim.two_rooms)) Sim.w0)) _ H).
Defined.

(** Joining stops at the closed room [!R2]. *)
Example join_stops_at_closed_room :
  joinWebhookRooms Sim.env
    (Sim.service [("!R1", Sim.room []); ("!R2", Sim.room []); ("!R3", Sim.room [])])
    Sim.w_r2_closed
  = (Done (Some (Collab (OtherError "M_FORBIDDEN"))), Sim.w_r2_closed,
     [CallJoinRoom "!R1"; CallJoinRoom "!R2"]).
Proof. reflexivity. Qed.

(** [sameRepos] tells configurations apart that [repoList] does not. *)
Example sameRepos_counts_malformed_keys :
  sameRepos Sim.only_bad_keys (Sim.service []) = false
  /\ fst (repoList Sim.only_bad_keys) = fst (repoList (Sim.service [])).
Proof. split; reflexivity. Qed.

(** The echo command. *)
Example echo_hello_world :
  body_of_echo ["hello"; "wide"; "world"] = "hello wide world".
Proof. reflexivity. Qed.
